(** * Buddy AI backend: personalization and dispatch engine

    A shallow embedding of the Python backend
    ([backend/groq_engine.py], [backend/user_memory.py],
    [backend/topic_handlers.py], [backend/simple_main.py],
    [backend/main.py]) together with
    the properties of its specification that can be settled on it.

    Conventions of the embedding:
    - a Python [str] is the list of its code points ([pystr]); literals
      of the source are written as UTF-8 Rocq strings and decoded by
      [lit];
    - the parts of the CPython runtime that the source relies on but that
      are not part of the repository (Unicode case tables, [eval], the
      general float parser and printer) are the fields of [PyRuntime];
      plain ASCII text never consults them;
    - profile statistics that Python keeps in floats are exact rationals
      ([Q]); what is stated of them are the formulas of the source,
      clamps and orderings, which rounding keeps, and no bound that
      holds of the exact value only; the arithmetic of [MathHandler],
      whose results are printed, is IEEE binary64 ([float]);
    - clocks ([time.time()], [datetime.now()]) and [random.choice] are
      oracles passed to the functions that read them. *)

From Stdlib Require Import ZArith NArith QArith Lqa List String Ascii Floats.
From stdpp Require Import gmap strings list.

(** ** Python strings *)

Definition pystr := list N.

(** What the model takes from the CPython runtime. *)
Class PyRuntime := {
  (** [str.lower()] on text that holds a non-ASCII code point *)
  unicode_lower : pystr → pystr;
  (** [str.title()] on text that holds a non-ASCII code point *)
  unicode_title : pystr → pystr;
  (** [str.isalnum()] of a non-ASCII code point (the [\w] of [re]) *)
  unicode_alnum : N → bool;
  (** decimal value of a non-ASCII code point of category Nd ([\d]) *)
  unicode_decimal : N → option N;
  (** [str.isdigit()] of a non-ASCII code point *)
  unicode_isdigit : N → bool;
  (** [str(eval(expr))], [None] when [eval] raises *)
  py_eval : pystr → option pystr;
  (** [float(s)] outside the plain decimal syntax, [None] on ValueError *)
  float_of_str_ext : pystr → option float;
  (** [repr] of a float that is not a whole number below 1e16 *)
  float_repr_ext : float → pystr
}.

Module PyStr.

(** UTF-8 decoding of the bytes of a source literal. *)
Fixpoint utf8_go (bs : list N) (pending : nat) (acc : N) : pystr :=
  match bs with
  | [] => []
  | b :: bs' =>
      match pending with
      | O =>
          if (b <? 128)%N then b :: utf8_go bs' 0 0%N
          else if (b <? 224)%N then utf8_go bs' 1 (N.land b 31)
          else if (b <? 240)%N then utf8_go bs' 2 (N.land b 15)
          else utf8_go bs' 3 (N.land b 7)
      | S k =>
          let acc' := (acc * 64 + N.land b 63)%N in
          match k with
          | O => acc' :: utf8_go bs' 0 0%N
          | S _ => utf8_go bs' k acc'
          end
      end
  end.

Definition lit (s : string) : pystr :=
  utf8_go (map N_of_ascii (list_ascii_of_string s)) 0 0%N.

(** [s.startswith(pre)] *)
Fixpoint startswith (pre s : pystr) : bool :=
  match pre, s with
  | [], _ => true
  | _ :: _, [] => false
  | p :: pre', c :: s' => (p =? c)%N && startswith pre' s'
  end.

(** [sub in s] *)
Fixpoint py_in (sub s : pystr) : bool :=
  startswith sub s ||
  match s with
  | [] => false
  | _ :: s' => py_in sub s'
  end.

(** [any(w in s for w in words)] *)
Definition any_in (words : list pystr) (s : pystr) : bool :=
  existsb (fun w => py_in w s) words.

(** [sum(1 for w in words if w in s)] *)
Definition count_in (words : list pystr) (s : pystr) : Z :=
  Z.of_nat (length (filter (fun w => py_in w s = true) words)).

Definition is_ascii (c : N) : bool := (c <? 128)%N.

Definition ascii_lower (c : N) : N :=
  if (65 <=? c)%N && (c <=? 90)%N then (c + 32)%N else c.

Definition ascii_upper (c : N) : N :=
  if (97 <=? c)%N && (c <=? 122)%N then (c - 32)%N else c.

Definition ascii_alpha (c : N) : bool :=
  ((65 <=? c)%N && (c <=? 90)%N) || ((97 <=? c)%N && (c <=? 122)%N).

(** [s.lower()] *)
Definition lower `{PyRuntime} (s : pystr) : pystr :=
  if forallb is_ascii s then map ascii_lower s else unicode_lower s.

(** [c.isspace()]: the code points CPython treats as white space. *)
Definition isspace (c : N) : bool :=
  ((9 <=? c)%N && (c <=? 13)%N) || ((28 <=? c)%N && (c <=? 32)%N) ||
  (c =? 133)%N || (c =? 160)%N || (c =? 5760)%N ||
  ((8192 <=? c)%N && (c <=? 8202)%N) || (c =? 8232)%N || (c =? 8233)%N ||
  (c =? 8239)%N || (c =? 8287)%N || (c =? 12288)%N.

Fixpoint lstrip (s : pystr) : pystr :=
  match s with
  | c :: s' => if isspace c then lstrip s' else s
  | [] => []
  end.

Definition rstrip (s : pystr) : pystr := rev (lstrip (rev s)).

(** [s.strip()] *)
Definition strip (s : pystr) : pystr := rstrip (lstrip s).

(** [s.endswith(suf)] *)
Definition endswith (suf s : pystr) : bool := startswith (rev suf) (rev s).

(** [s.replace(old, new)] for a non-empty [old]: occurrences are taken
    from the left and do not overlap; [skip] counts the code points of
    the occurrence just replaced that are still to be dropped. *)
Fixpoint replace_go (old new s : pystr) (skip : nat) : pystr :=
  match s with
  | [] => []
  | c :: s' =>
      match skip with
      | S k => replace_go old new s' k
      | O =>
          if startswith old s
          then new ++ replace_go old new s' (length old - 1)
          else c :: replace_go old new s' 0
      end
  end.

Definition replace (old new s : pystr) : pystr := replace_go old new s 0.

(** [s.split(sep)] for a non-empty [sep]; [cur] is the field being
    read, reversed. *)
Fixpoint split_go (sep s cur : pystr) (skip : nat) : list pystr :=
  match s with
  | [] => [rev cur]
  | c :: s' =>
      match skip with
      | S k => split_go sep s' cur k
      | O =>
          if startswith sep s
          then rev cur :: split_go sep s' [] (length sep - 1)
          else split_go sep s' (c :: cur) 0
      end
  end.

Definition split (sep s : pystr) : list pystr := split_go sep s [] 0.

(** [s.split()]: the maximal runs of non-space code points. *)
Fixpoint words_go (s cur : pystr) : list pystr :=
  match s with
  | [] => match cur with [] => [] | _ => [rev cur] end
  | c :: s' =>
      if isspace c
      then match cur with [] => words_go s' [] | _ => rev cur :: words_go s' [] end
      else words_go s' (c :: cur)
  end.

Definition split_ws (s : pystr) : list pystr := words_go s [].

(** Decimal digits of a non-negative integer, as [str(n)] prints them. *)
Fixpoint digits_go (fuel : nat) (n : N) (acc : pystr) : pystr :=
  match fuel with
  | O => acc
  | S f =>
      let acc' := (48 + n mod 10)%N :: acc in
      if (n <? 10)%N then acc' else digits_go f (n / 10)%N acc'
  end.

Definition str_of_N (n : N) : pystr := digits_go (S (N.to_nat (N.log2 n))) n [].

Definition str_of_Z (z : Z) : pystr :=
  match z with
  | Zneg p => 45%N :: str_of_N (Npos p)
  | _ => str_of_N (Z.to_N z)
  end.

(** [sep.join(parts)] *)
Fixpoint join (sep : pystr) (parts : list pystr) : pystr :=
  match parts with
  | [] => []
  | p :: rest =>
      match rest with
      | [] => p
      | _ :: _ => p ++ sep ++ join sep rest
      end
  end.

End PyStr.
Import PyStr.

(** A runtime with empty Unicode tables, no [eval] and no extended float
    syntax.  ASCII text never reaches these fields, so it serves to
    evaluate the model on ASCII inputs. *)
Definition ascii_runtime : PyRuntime := {|
  unicode_lower := fun s => s;
  unicode_title := fun s => s;
  unicode_alnum := fun _ => false;
  unicode_decimal := fun _ => None;
  unicode_isdigit := fun _ => false;
  py_eval := fun _ => None;
  float_of_str_ext := fun _ => None;
  float_repr_ext := fun _ => []
|}.

(** ** [backend/topic_handlers.py]: TopicHandler *)

Module TopicHandler.
Section WithRuntime.
Context `{PyRuntime}.

Definition math_operators : list pystr :=
  map lit ["+"; "-"; "*"; "/"; "="; "^"; "%"]%string.

Definition math_words : list pystr :=
  map lit ["solve"; "calculate"; "equation"; "integral"; "derivative";
           "math"; "multiply"; "divide"; "add"; "subtract"]%string.

Definition emotional_words : list pystr :=
  map lit ["feel"; "emotion"; "sad"; "happy"; "angry"; "worried"; "anxious";
           "depressed"; "lonely"; "excited"; "scared"; "frustrated"]%string.

Definition decision_words : list pystr :=
  map lit ["should i"; "what if"; "decide"; "choice"; "option";
           "help me choose"; "which one"]%string.

Definition random_words : list pystr :=
  map lit ["joke"; "fun"; "random"; "interesting"; "tell me about";
           "story"; "fact"]%string.

Definition knowledge_words : list pystr :=
  map lit ["what is"; "who is"; "how does"; "why"; "explain";
           "definition"; "meaning"]%string.

Definition tech_words : list pystr :=
  map lit ["code"; "programming"; "python"; "javascript"; "html"; "css";
           "algorithm"; "function"]%string.

Definition detect_topic (message : pystr) : pystr :=
  let lower_msg := lower message in
  if any_in math_operators message || any_in math_words lower_msg
  then lit "math"
  else if any_in emotional_words lower_msg then lit "emotional"
  else if any_in decision_words lower_msg then lit "decision"
  else if any_in random_words lower_msg then lit "random"
  else if any_in knowledge_words lower_msg then lit "knowledge"
  else if any_in tech_words lower_msg then lit "tech"
  else lit "general".

End WithRuntime.
End TopicHandler.


(** ** Numbers, dictionaries and effects *)

(** Python's [a < b], [min(a, b)] and [max(a, b)] on the rationals that
    stand for floats: [min] and [max] return their first argument unless
    the second is strictly smaller (resp. larger). *)
Definition Qltb (a b : Q) : bool := negb (Qle_bool b a).
Definition py_min (a b : Q) : Q := if Qltb b a then b else a.
Definition py_max (a b : Q) : Q := if Qltb a b then b else a.

(** [sum(xs)] over integers and over floats. *)
Definition py_sum (xs : list Z) : Z := fold_left Z.add xs 0%Z.
Definition py_fsum (xs : list Q) : Q := fold_left Qplus xs 0%Q.

(** [xs[-n:]] *)
Definition last_n {A} (n : nat) (xs : list A) : list A :=
  drop (length xs - n) xs.

(** [if len(xs) > k: xs = xs[-k:]], the truncation that follows every
    append to a history. *)
Definition keep_last {A} (k : nat) (xs : list A) : list A :=
  if bool_decide (k < length xs) then last_n k xs else xs.

(** [random.choice(xs)] when the generator draws [r]. *)
Definition choice {A} (r : nat) (xs : list A) (d : A) : A :=
  nth (r mod length xs) xs d.

(** The emotion reading passed between the components: a dict with the
    keys ["emotion"], ["sentiment"], ["confidence"], ["emotion_scores"],
    each of which may be absent. *)
Record EmotionDict := {
  ed_emotion : option pystr;
  ed_sentiment : option Q;
  ed_confidence : option Q;
  ed_scores : option (list (pystr * Z))
}.

(** Truth value of an optional dict argument: [None] and [{}] are false. *)
Definition dict_truthy (d : option EmotionDict) : bool :=
  match d with
  | None => false
  | Some d =>
      bool_decide (is_Some (ed_emotion d)) || bool_decide (is_Some (ed_sentiment d)) ||
      bool_decide (is_Some (ed_confidence d)) || bool_decide (is_Some (ed_scores d))
  end.

(** What a process observes of its environment.  Observations are
    numbered in the order in which the process makes them. *)
Record ChatMessage := { role : pystr; content : pystr }.

Record Env := {
  (** [time.time()] *)
  time_time : nat → Q;
  (** [datetime.now().isoformat()] *)
  datetime_now : nat → pystr;
  (** the draw of [random.choice] *)
  random_draw : nat → nat;
  (** [client.chat.completions.create(..., stream=False)] followed by
      [response.choices[0].message.content]; [None] when it raises *)
  groq_complete : nat → list ChatMessage → option pystr;
  (** [client.chat.completions.create(..., stream=True)]: the text deltas
      of the chunks ([None] for a chunk without text) and whether the
      iteration ends normally; [None] when the call raises *)
  groq_stream : nat → list ChatMessage → option (list (option pystr) * bool)
}.

Inductive pyexn :=
| RateLimitExceeded (wait_time : Q)
| ProviderError
| ValueError.

Inductive result (A : Type) :=
| Ret (a : A)
| Exc (e : pyexn).
Arguments Ret {A} a.
Arguments Exc {A} e.

(** Computations over a mutable object of type [St] that may raise; the
    [nat] counts the observations of the environment made so far.  A
    raise keeps the mutations made before it. *)
Definition Py (St A : Type) : Type := St → nat → result A * St * nat.

Module PyM.
Section Monad.
Context {St : Type}.

Definition ret {A} (a : A) : Py St A := fun s n => (Ret a, s, n).

Definition bind {A B} (m : Py St A) (k : A → Py St B) : Py St B :=
  fun s n =>
    match m s n with
    | (Ret a, s', n') => k a s' n'
    | (Exc e, s', n') => (Exc e, s', n')
    end.

Definition raise {A} (e : pyexn) : Py St A := fun s n => (Exc e, s, n).

(** [try: m except Exception: h] *)
Definition try_except {A} (m : Py St A) (h : pyexn → Py St A) : Py St A :=
  fun s n =>
    match m s n with
    | (Ret a, s', n') => (Ret a, s', n')
    | (Exc e, s', n') => h e s' n'
    end.

Definition get : Py St St := fun s n => (Ret s, s, n).
Definition put (s : St) : Py St unit := fun _ n => (Ret tt, s, n).
Definition modify (f : St → St) : Py St unit := fun s n => (Ret tt, f s, n).

(** One observation of the environment. *)
Definition observe {A} (f : nat → A) : Py St A := fun s n => (Ret (f n), s, S n).
End Monad.
End PyM.

Global Instance py_mret {St} : MRet (Py St) := @PyM.ret St.
Global Instance py_mbind {St} : MBind (Py St) := fun A B k m => PyM.bind m k.

(** ** [backend/simple_main.py]: the emotion classifier *)

Module EmotionClassifier.
Section WithRuntime.
Context `{PyRuntime}.

Definition joy_words : list pystr :=
  map lit ["happy"; "joy"; "great"; "awesome"; "wonderful"; "amazing"; "excited";
           "fantastic"; "excellent"; "brilliant"; "love"; "perfect"; "thrilled";
           "delighted"; "cheerful"; "optimistic"; "pleased"; "glad"; "ecstatic";
           "euphoric"; "elated"; "blissful"; "overjoyed"]%string.

Definition sad_words : list pystr :=
  map lit ["sad"; "depressed"; "down"; "upset"; "crying"; "tears"; "miserable";
           "heartbroken"; "disappointed"; "gloomy"; "melancholy"; "sorrow";
           "grief"; "despair"; "blue"; "lonely"; "devastated"; "crushed"]%string.

Definition anger_words : list pystr :=
  map lit ["angry"; "mad"; "furious"; "annoyed"; "frustrated"; "irritated";
           "rage"; "outraged"; "livid"; "pissed"; "infuriated"; "agitated";
           "hostile"; "resentful"; "bitter"]%string.

Definition fear_words : list pystr :=
  map lit ["scared"; "afraid"; "worried"; "anxious"; "nervous"; "panic";
           "terrified"; "frightened"; "stress"; "stressed"; "overwhelmed";
           "tense"; "paranoid"; "apprehensive"; "uneasy"]%string.

Definition surprise_words : list pystr :=
  map lit ["surprised"; "shocked"; "amazed"; "astonished"; "stunned";
           "wow"; "incredible"; "unbelievable"; "mind-blown"]%string.

Definition positive_indicators : list pystr :=
  map lit ["good"; "nice"; "okay"; "fine"; "well"; "thanks"; "please"]%string.

Definition negative_indicators : list pystr :=
  map lit ["bad"; "not"; "no"; "never"; "hate"; "problem"; "issue"; "wrong"]%string.

(** [sum(w if word in text_lower else 0 for word in words)] *)
Definition keyword_score (w : Z) (words : list pystr) (text_lower : pystr) : Z :=
  py_sum (map (fun word => if py_in word text_lower then w else 0%Z) words).

(** The [scores] dict, in insertion order. *)
Definition scores_of (text_lower : pystr) : list (pystr * Z) :=
  [ (lit "joy", keyword_score 2 joy_words text_lower);
    (lit "sadness", keyword_score 2 sad_words text_lower);
    (lit "anger", keyword_score 2 anger_words text_lower);
    (lit "fear", keyword_score 2 fear_words text_lower);
    (lit "surprise", keyword_score 1 surprise_words text_lower) ].

(** [max(xs, key=...)] keeps the first of the maximal elements: the
    running best is replaced only by a strictly larger one. *)
Fixpoint max_by_go {A} (key : A → Z) (best : A) (rest : list A) : A :=
  match rest with
  | [] => best
  | a :: rest' =>
      if (key best <? key a)%Z then max_by_go key a rest'
      else max_by_go key best rest'
  end.

(** [max(scores.keys(), key=lambda k: scores[k])] *)
Definition max_key (scores : list (pystr * Z)) : pystr :=
  match scores with
  | [] => []
  | kv :: rest => fst (max_by_go snd kv rest)
  end.

(** [max(scores.values())] *)
Definition max_value (scores : list (pystr * Z)) : Z :=
  match scores with
  | [] => 0%Z
  | kv :: rest => snd (max_by_go snd kv rest)
  end.

(** [scores.get(k, 0)] *)
Fixpoint scores_get (scores : list (pystr * Z)) (k : pystr) : Z :=
  match scores with
  | [] => 0%Z
  | (k', v) :: rest => if bool_decide (k' = k) then v else scores_get rest k
  end.

(** The sentiment computed from the two accumulators and the two
    counts of the secondary lexicon. *)
Definition sentiment_of (positive_score negative_score pos_count neg_count : Z) : Q :=
  if (negative_score <? positive_score)%Z
  then py_min 0.8 (inject_Z positive_score / 10)
  else if (positive_score <? negative_score)%Z
  then - py_min 0.8 (inject_Z negative_score / 10)
  else if (neg_count <? pos_count)%Z then 0.3
  else if (pos_count <? neg_count)%Z then - 0.3
  else 0.0.

Definition analyze_emotion_and_context (text : pystr) : EmotionDict :=
  let text_lower := lower text in
  let joy_score := keyword_score 2 joy_words text_lower in
  let sad_score := keyword_score 2 sad_words text_lower in
  let anger_score := keyword_score 2 anger_words text_lower in
  let fear_score := keyword_score 2 fear_words text_lower in
  let surprise_score := keyword_score 1 surprise_words text_lower in
  let scores := scores_of text_lower in
  let max_emotion :=
    if (0 <? max_value scores)%Z then max_key scores else lit "neutral" in
  let max_score := scores_get scores max_emotion in
  let positive_score := (joy_score + surprise_score)%Z in
  let negative_score := (sad_score + anger_score + fear_score)%Z in
  let sentiment :=
    sentiment_of positive_score negative_score
      (count_in positive_indicators text_lower)
      (count_in negative_indicators text_lower) in
  let confidence :=
    if (0 <? max_score)%Z then py_min 0.95 (inject_Z max_score / 5) else 0.5%Q in
  {| ed_emotion := Some max_emotion;
     ed_sentiment := Some sentiment;
     ed_confidence := Some confidence;
     ed_scores := Some scores |}.

End WithRuntime.
End EmotionClassifier.

(** ** [backend/groq_engine.py] *)

Module RateLimiter.

Record t := {
  max_requests : Z;
  time_window : Z;
  (** the deque of request times, oldest at the head *)
  requests : list Q
}.

(** [RateLimiter(max_requests, time_window=60)] *)
Definition init (max_requests : Z) (time_window : Z) : t :=
  {| max_requests := max_requests; time_window := time_window; requests := [] |}.

(** [while requests and requests[0] <= bound: requests.popleft()] *)
Fixpoint evict (bound : Q) (reqs : list Q) : list Q :=
  match reqs with
  | r :: rest => if Qle_bool r bound then evict bound rest else reqs
  | [] => []
  end.

(** [can_make_request] when [time.time()] reads [now]. *)
Definition can_make_request (now : Q) (rl : t) : bool * t :=
  let kept := evict (now - inject_Z (time_window rl)) (requests rl) in
  ((Z.of_nat (length kept) <? max_requests rl)%Z,
   {| max_requests := max_requests rl; time_window := time_window rl; requests := kept |}).

(** [add_request] when [time.time()] reads [now]. *)
Definition add_request (now : Q) (rl : t) : t :=
  {| max_requests := max_requests rl; time_window := time_window rl;
     requests := requests rl ++ [now] |}.

End RateLimiter.

Module GroqEngine.

Record Exchange := {
  ex_user : pystr;
  ex_assistant : pystr;
  ex_timestamp : pystr
}.

Record t := {
  rate_limiter : RateLimiter.t;
  model : pystr;
  conversation_history : gmap pystr (list Exchange)
}.

(** What [generate_response] returns: the text, or with [stream=True]
    the provider's stream itself. *)
Inductive Reply :=
| Text (s : pystr)
| Stream (chunks : list (option pystr) * bool).

(** The events of [stream_response]; each is sent as one
    [data: {...}] line. *)
Inductive StreamEvent :=
| ErrorEvent (wait_time : Q)
| TokenEvent (token : pystr) (done : bool).

(** [GroqEngine(api_key, max_requests_per_minute=30)]; [model_name] is
    the value of GROQ_MODEL or its default. *)
Definition init (max_requests_per_minute : Z) (model_name : pystr) : t :=
  {| rate_limiter := RateLimiter.init max_requests_per_minute 60;
     model := model_name;
     conversation_history := ∅ |}.

Definition set_rate_limiter (rl : RateLimiter.t) (e : t) : t :=
  {| rate_limiter := rl; model := model e;
     conversation_history := conversation_history e |}.

Definition set_history (h : gmap pystr (list Exchange)) (e : t) : t :=
  {| rate_limiter := rate_limiter e; model := model e; conversation_history := h |}.

Definition system_prompt : pystr := lit
"You are Buddy, a warm, empathetic AI companion designed to provide emotional support and engaging conversation. 

Key traits:
- Be genuinely caring and supportive
- Match the user's emotional tone appropriately
- Provide helpful advice when asked
- Keep responses conversational and natural
- Show genuine interest in the user's wellbeing
- Be encouraging and positive while being realistic

Remember to:
- Listen actively to what the user is sharing
- Acknowledge their emotions
- Provide thoughtful, personalized responses
- Ask follow-up questions when appropriate".

Definition sad_fallbacks : list pystr := map lit [
  "I understand you're feeling sad. I'm here to listen and support you.";
  "It's okay to feel sad sometimes. Would you like to talk about what's bothering you?";
  "I can sense you're going through a difficult time. How can I help?"]%string.

Definition joy_fallbacks : list pystr := map lit [
  "I'm so glad to hear you're feeling happy! What's bringing you joy today?";
  "Your positive energy is wonderful! Tell me more about what's making you smile.";
  "It's great that you're feeling good! I'd love to hear what's going well for you."]%string.

Definition anger_fallbacks : list pystr := map lit [
  "I can tell you're frustrated. Take a deep breath. I'm here to help.";
  "It sounds like you're dealing with something difficult. Want to talk it through?";
  "I understand you're upset. Sometimes it helps to express what's bothering you."]%string.

Definition fear_fallbacks : list pystr := map lit [
  "It's natural to feel scared sometimes. You're safe here with me.";
  "I can sense your worry. What's making you feel anxious?";
  "Fear can be overwhelming. Let's work through this together."]%string.

Definition other_fallbacks : list pystr := map lit [
  "I'm here to chat with you. What's on your mind?";
  "How are you feeling today? I'd love to hear from you.";
  "Thanks for sharing with me. Tell me more!"]%string.

Definition plain_fallbacks : list pystr := map lit [
  "I'm here to help! What would you like to talk about?";
  "That's interesting! Tell me more about that.";
  "I'd love to hear your thoughts on this. Can you elaborate?";
  "Thanks for sharing that with me. What else would you like to discuss?"]%string.

(** The fallback table selected by the emotion reading. *)
Definition fallback_table `{PyRuntime} (user_emotion : option EmotionDict) : list pystr :=
  if dict_truthy user_emotion then
    let emotion := lower (default (lit "neutral") (user_emotion ≫= ed_emotion)) in
    if bool_decide (emotion ∈ [lit "sadness"; lit "sad"]) then sad_fallbacks
    else if bool_decide (emotion ∈ [lit "joy"; lit "happy"]) then joy_fallbacks
    else if bool_decide (emotion ∈ [lit "anger"; lit "angry"]) then anger_fallbacks
    else if bool_decide (emotion ∈ [lit "fear"; lit "scared"]) then fear_fallbacks
    else other_fallbacks
  else plain_fallbacks.

Section WithEnv.
Context `{PyRuntime} (env : Env).

Definition can_make_request : Py t bool :=
  now ← PyM.observe (time_time env);
  e ← PyM.get;
  let '(ok, rl) := RateLimiter.can_make_request now (rate_limiter e) in
  PyM.put (set_rate_limiter rl e);;
  mret ok.

Definition add_request : Py t unit :=
  now ← PyM.observe (time_time env);
  PyM.modify (fun e => set_rate_limiter (RateLimiter.add_request now (rate_limiter e)) e).

Definition wait_for_rate_limit : Py t Q :=
  ok ← can_make_request;
  if ok : bool then mret 0%Q
  else
    e ← PyM.get;
    match RateLimiter.requests (rate_limiter e) with
    | oldest_request :: _ =>
        now ← PyM.observe (time_time env);
        let wait_time :=
          (oldest_request + inject_Z (RateLimiter.time_window (rate_limiter e)) - now)%Q in
        mret (py_max 0 wait_time)
    | [] => mret 0%Q
    end.

Definition _build_messages (self : t) (message conversation_id : pystr)
    (context : list ChatMessage) (user_emotion : option EmotionDict)
    : list ChatMessage :=
  let messages := [ {| role := lit "system"; content := system_prompt |} ] in
  (* Add emotion context if available *)
  let messages :=
    if dict_truthy user_emotion &&
       negb (bool_decide (user_emotion ≫= ed_emotion = Some (lit "neutral")))
    then
      messages ++
      [ {| role := lit "system";
           content :=
             lit "User's current emotional state: " ++
             default (lit "unknown") (user_emotion ≫= ed_emotion) ++
             lit ". Please respond with appropriate empathy and support." |} ]
    else messages in
  (* Add conversation history (last 10 messages) *)
  let messages :=
    match conversation_history self !! conversation_id with
    | Some h =>
        messages ++
        flat_map (fun entry =>
                    [ {| role := lit "user"; content := ex_user entry |};
                      {| role := lit "assistant"; content := ex_assistant entry |} ])
                 (last_n 10 h)
    | None => messages
    end in
  (* Add current message *)
  messages ++ [ {| role := lit "user"; content := message |} ].

Definition _update_conversation (conversation_id user_message ai_response : pystr)
    : Py t unit :=
  now ← PyM.observe (datetime_now env);
  PyM.modify (fun e =>
    let h := default [] (conversation_history e !! conversation_id) in
    let h := h ++ [ {| ex_user := user_message; ex_assistant := ai_response;
                       ex_timestamp := now |} ] in
    (* Keep only last 20 exchanges per conversation *)
    let h := keep_last 20 h in
    set_history (<[conversation_id := h]> (conversation_history e)) e).

Definition _get_fallback_response (message : pystr)
    (user_emotion : option EmotionDict) : Py t pystr :=
  r ← PyM.observe (random_draw env);
  mret (choice r (fallback_table user_emotion) []).

(** The rate-limit check that opens [generate_response] and
    [stream_response]: the wait to report, if the call is refused. *)
Definition rate_check : Py t (option Q) :=
  ok ← can_make_request;
  if ok : bool then mret None
  else
    wait_time ← wait_for_rate_limit;
    if Qltb 0 wait_time then mret (Some wait_time) else mret None.

Definition generate_response (message conversation_id : pystr)
    (context : list ChatMessage) (user_emotion : option EmotionDict) (stream : bool)
    : Py t Reply :=
  refused ← rate_check;
  match refused with
  | Some wait_time => PyM.raise (RateLimitExceeded wait_time)
  | None =>
      add_request;;
      PyM.try_except
        (self ← PyM.get;
         let messages :=
           _build_messages self message conversation_id context user_emotion in
         if stream then
           response ← PyM.observe (fun n => groq_stream env n messages);
           match response with
           | Some chunks => mret (Stream chunks)
           | None => PyM.raise ProviderError
           end
         else
           response ← PyM.observe (fun n => groq_complete env n messages);
           match response with
           | Some content =>
               _update_conversation conversation_id message content;;
               mret (Text content)
           | None => PyM.raise ProviderError
           end)
        (fun _ => r ← _get_fallback_response message user_emotion; mret (Text r))
  end.

(** The body of the [for chunk in stream] loop: the tokens sent and
    the text accumulated in [full_response]. *)
Definition stream_tokens (chunks : list (option pystr)) : list StreamEvent * pystr :=
  (omap (fun c => (fun token => TokenEvent token false) <$> c) chunks,
   concat (omap id chunks)).

Definition stream_response (message conversation_id : pystr)
    (context : list ChatMessage) (user_emotion : option EmotionDict)
    : Py t (list StreamEvent) :=
  refused ← rate_check;
  match refused with
  | Some wait_time => mret [ErrorEvent wait_time]
  | None =>
      add_request;;
      self ← PyM.get;
      let messages :=
        _build_messages self message conversation_id context user_emotion in
      response ← PyM.observe (fun n => groq_stream env n messages);
      match response with
      | Some (chunks, true) =>
          let '(events, full_response) := stream_tokens chunks in
          _update_conversation conversation_id message full_response;;
          mret (events ++ [TokenEvent [] true])
      | Some (chunks, false) =>
          fallback ← _get_fallback_response message user_emotion;
          mret (fst (stream_tokens chunks) ++ [TokenEvent fallback true])
      | None =>
          fallback ← _get_fallback_response message user_emotion;
          mret [TokenEvent fallback true]
      end
  end.

Definition clear_conversation (conversation_id : pystr) : Py t unit :=
  PyM.modify (fun e => set_history (delete conversation_id (conversation_history e)) e).

Definition is_available : Py t bool :=
  PyM.try_except
    (ok ← can_make_request;
     if ok : bool then
       add_request;;
       response ←
         PyM.observe (fun n =>
           groq_complete env n [ {| role := lit "user"; content := lit "Hi" |} ]);
       match response with
       | Some text => mret (bool_decide (text ≠ []))
       | None => PyM.raise ProviderError
       end
     else mret false)
    (fun _ => mret false).

(** The dict returned by [get_stats]. *)
Record RateLimitStats := {
  rs_max_requests : Z;
  rs_current_requests : Z;
  rs_can_make_request : bool;
  rs_wait_time : Q
}.

Record Stats := {
  st_model : pystr;
  st_rate_limit : RateLimitStats;
  st_conversations : Z;
  st_available : bool
}.

(** [get_stats]: the values of the dict display are evaluated in the
    order in which they are written. *)
Definition get_stats : Py t Stats :=
  self ← PyM.get;
  let model_name := model self in
  let max_requests := RateLimiter.max_requests (rate_limiter self) in
  let current_requests :=
    Z.of_nat (length (RateLimiter.requests (rate_limiter self))) in
  ok ← can_make_request;
  wait_time ← wait_for_rate_limit;
  self ← PyM.get;
  let conversations := Z.of_nat (size (conversation_history self)) in
  available ← is_available;
  mret {| st_model := model_name;
          st_rate_limit :=
            {| rs_max_requests := max_requests;
               rs_current_requests := current_requests;
               rs_can_make_request := ok;
               rs_wait_time := wait_time |};
          st_conversations := conversations;
          st_available := available |}.

End WithEnv.
End GroqEngine.

(** ** The fragment of [re] used by the source *)

Module Re.

Inductive regex :=
| Lit (s : pystr)
| Plus (cls : N → bool)      (** [[cls]+], greedy *)
| Seq (r1 r2 : regex)
| Alt (r1 r2 : regex)
| Opt (r : regex)            (** [r?], greedy *)
| Group (r : regex).         (** [(r)], the only capturing group *)

(** One or more code points of [cls]: the longest run first, then
    shorter ones as the continuation [k] fails. *)
Fixpoint plus_go {X} (cls : N → bool) (s : pystr) (k : pystr → option X) : option X :=
  match s with
  | c :: s' =>
      if cls c then
        match plus_go cls s' k with
        | Some x => Some x
        | None => k s'
        end
      else None
  | [] => None
  end.

(** Backtracking match of [r] at the head of [s]; [k] receives the
    rest of the text and the text of group 1. *)
Fixpoint match_at {X} (r : regex) (s : pystr) (g : option pystr)
    (k : pystr → option pystr → option X) : option X :=
  match r with
  | Lit l => if startswith l s then k (drop (length l) s) g else None
  | Plus cls => plus_go cls s (fun s' => k s' g)
  | Seq r1 r2 => match_at r1 s g (fun s' g' => match_at r2 s' g' k)
  | Alt r1 r2 =>
      match match_at r1 s g k with
      | Some x => Some x
      | None => match_at r2 s g k
      end
  | Opt r1 =>
      match match_at r1 s g k with
      | Some x => Some x
      | None => k s g
      end
  | Group r1 =>
      match_at r1 s g (fun s' _ => k s' (Some (take (length s - length s') s)))
  end.

(** [re.search(r, s)]: group 1 of the leftmost match. *)
Fixpoint search (r : regex) (s : pystr) : option pystr :=
  match match_at r s None (fun _ g => Some (default [] g)) with
  | Some g => Some g
  | None =>
      match s with
      | [] => None
      | _ :: s' => search r s'
      end
  end.

(** [re.findall(r, s)] for an [r] without group that matches no empty
    text: the matches from the left, not overlapping. *)
Fixpoint findall_go (r : regex) (s : pystr) (skip : nat) : list pystr :=
  match s with
  | [] => []
  | _ :: s' =>
      match skip with
      | S k => findall_go r s' k
      | O =>
          match match_at r s None (fun rest _ => Some rest) with
          | Some rest =>
              let n := length s - length rest in
              take n s :: findall_go r s' (n - 1)
          | None => findall_go r s' 0
          end
      end
  end.

Definition findall (r : regex) (s : pystr) : list pystr := findall_go r s 0.

Section Classes.
Context `{PyRuntime}.

Definition digit_value (c : N) : option N :=
  if (48 <=? c)%N && (c <=? 57)%N then Some (c - 48)%N
  else if is_ascii c then None else unicode_decimal c.

(** [\d] *)
Definition cls_d (c : N) : bool := bool_decide (is_Some (digit_value c)).

(** [\w] *)
Definition cls_w (c : N) : bool :=
  if is_ascii c
  then ascii_alpha c || ((48 <=? c)%N && (c <=? 57)%N) || (c =? 95)%N
  else unicode_alnum c.

(** [[\w\s]] *)
Definition cls_ws (c : N) : bool := cls_w c || isspace c.

(** [int(s)] for a text matched by [\d+]. *)
Definition int_of_digits (s : pystr) : Z :=
  Z.of_N (fold_left (fun acc c => (acc * 10 + default 0 (digit_value c))%N) s 0%N).

(** [s.title()] *)
Fixpoint title_go (s : pystr) (in_word : bool) : pystr :=
  match s with
  | [] => []
  | c :: s' =>
      (if ascii_alpha c then (if in_word then ascii_lower c else ascii_upper c) else c)
      :: title_go s' (ascii_alpha c)
  end.

Definition title (s : pystr) : pystr :=
  if forallb is_ascii s then title_go s false else unicode_title s.

End Classes.
End Re.

(** ** [backend/user_memory.py] *)

Module UserMemory.

Record Personality := {
  communication_style : pystr;
  vocabulary_level : pystr;
  emoji_usage : Q;
  humor_preference : Q;
  formality : Q;
  verbosity : Q
}.

Record Preferences := {
  favorite_topics : list pystr;
  interests : list pystr;
  learning_goals : list pystr;
  time_zone : pystr;
  language : pystr
}.

Record HistoryEntry := {
  he_timestamp : pystr;
  he_message : pystr;
  he_emotion : option EmotionDict
}.

Record Personal := {
  name : option pystr;
  age : option Z;
  location : option pystr;
  job : option pystr
}.

Record Likes := {
  likes : option (list pystr);
  dislikes : option (list pystr)
}.

(** The dicts keyed by timestamp keep their insertion order. *)
Record MemoryFacts := {
  personal : Personal;
  relationships : list (pystr * pystr);
  goals : list (pystr * pystr);
  challenges : list (pystr * pystr);
  achievements : list (pystr * pystr);
  mf_preferences : Likes
}.

Record EmotionEntry := {
  ee_timestamp : pystr;
  ee_emotion : pystr;
  ee_sentiment : Q
}.

Record EmotionalProfile := {
  baseline_sentiment : Q;
  emotion_history : list EmotionEntry;
  stress_level : Q;
  common_emotions : list pystr
}.

Record CommunicationPatterns := {
  common_phrases : list pystr;
  sentence_structure : pystr;
  question_frequency : Q;
  average_message_length : Q
}.

Record DecisionMaking := {
  risk_tolerance : Q;
  decision_speed : Q;
  analytical_vs_intuitive : Q;
  past_decisions : list pystr
}.

Record LearningStyle := {
  visual : Q;
  auditory : Q;
  kinesthetic : Q;
  preferred_explanation_style : pystr
}.

Record Statistics := {
  total_messages : Z;
  total_conversations : Z;
  average_session_length : Z;
  last_interaction : option pystr;
  topics_discussed : list (pystr * Z)
}.

Record Profile := {
  user_id : pystr;
  created_at : pystr;
  personality : Personality;
  preferences : Preferences;
  conversation_history : list HistoryEntry;
  memory_facts : MemoryFacts;
  emotional_profile : EmotionalProfile;
  communication_patterns : CommunicationPatterns;
  decision_making : DecisionMaking;
  learning_style : LearningStyle;
  statistics : Statistics
}.

(** The object: the profiles on disk, one JSON file per user id. *)
Record t := { disk : gmap pystr Profile }.

(** [UserMemory()] over an empty storage directory. *)
Definition init : t := {| disk := ∅ |}.

(** *** Assignments to the keys of a profile *)

Definition set_personality (v : Personality) (p : Profile) : Profile :=
  {| user_id := user_id p; created_at := created_at p; personality := v;
     preferences := preferences p; conversation_history := conversation_history p;
     memory_facts := memory_facts p; emotional_profile := emotional_profile p;
     communication_patterns := communication_patterns p;
     decision_making := decision_making p; learning_style := learning_style p;
     statistics := statistics p |}.

Definition set_conversation_history (v : list HistoryEntry) (p : Profile) : Profile :=
  {| user_id := user_id p; created_at := created_at p; personality := personality p;
     preferences := preferences p; conversation_history := v;
     memory_facts := memory_facts p; emotional_profile := emotional_profile p;
     communication_patterns := communication_patterns p;
     decision_making := decision_making p; learning_style := learning_style p;
     statistics := statistics p |}.

Definition set_memory_facts (v : MemoryFacts) (p : Profile) : Profile :=
  {| user_id := user_id p; created_at := created_at p; personality := personality p;
     preferences := preferences p; conversation_history := conversation_history p;
     memory_facts := v; emotional_profile := emotional_profile p;
     communication_patterns := communication_patterns p;
     decision_making := decision_making p; learning_style := learning_style p;
     statistics := statistics p |}.

Definition set_emotional_profile (v : EmotionalProfile) (p : Profile) : Profile :=
  {| user_id := user_id p; created_at := created_at p; personality := personality p;
     preferences := preferences p; conversation_history := conversation_history p;
     memory_facts := memory_facts p; emotional_profile := v;
     communication_patterns := communication_patterns p;
     decision_making := decision_making p; learning_style := learning_style p;
     statistics := statistics p |}.

Definition set_communication_patterns (v : CommunicationPatterns) (p : Profile)
    : Profile :=
  {| user_id := user_id p; created_at := created_at p; personality := personality p;
     preferences := preferences p; conversation_history := conversation_history p;
     memory_facts := memory_facts p; emotional_profile := emotional_profile p;
     communication_patterns := v;
     decision_making := decision_making p; learning_style := learning_style p;
     statistics := statistics p |}.

Definition set_statistics (v : Statistics) (p : Profile) : Profile :=
  {| user_id := user_id p; created_at := created_at p; personality := personality p;
     preferences := preferences p; conversation_history := conversation_history p;
     memory_facts := memory_facts p; emotional_profile := emotional_profile p;
     communication_patterns := communication_patterns p;
     decision_making := decision_making p; learning_style := learning_style p;
     statistics := v |}.

Definition set_emoji_usage (v : Q) (x : Personality) : Personality :=
  {| communication_style := communication_style x;
     vocabulary_level := vocabulary_level x; emoji_usage := v;
     humor_preference := humor_preference x; formality := formality x;
     verbosity := verbosity x |}.

Definition set_formality (v : Q) (x : Personality) : Personality :=
  {| communication_style := communication_style x;
     vocabulary_level := vocabulary_level x; emoji_usage := emoji_usage x;
     humor_preference := humor_preference x; formality := v;
     verbosity := verbosity x |}.

Definition set_verbosity (v : Q) (x : Personality) : Personality :=
  {| communication_style := communication_style x;
     vocabulary_level := vocabulary_level x; emoji_usage := emoji_usage x;
     humor_preference := humor_preference x; formality := formality x;
     verbosity := v |}.

Definition set_average_message_length (v : Q) (x : CommunicationPatterns)
    : CommunicationPatterns :=
  {| common_phrases := common_phrases x; sentence_structure := sentence_structure x;
     question_frequency := question_frequency x; average_message_length := v |}.

Definition set_question_frequency (v : Q) (x : CommunicationPatterns)
    : CommunicationPatterns :=
  {| common_phrases := common_phrases x; sentence_structure := sentence_structure x;
     question_frequency := v; average_message_length := average_message_length x |}.

Definition set_emotion_history (v : list EmotionEntry) (x : EmotionalProfile)
    : EmotionalProfile :=
  {| baseline_sentiment := baseline_sentiment x; emotion_history := v;
     stress_level := stress_level x; common_emotions := common_emotions x |}.

Definition set_baseline_sentiment (v : Q) (x : EmotionalProfile) : EmotionalProfile :=
  {| baseline_sentiment := v; emotion_history := emotion_history x;
     stress_level := stress_level x; common_emotions := common_emotions x |}.

Definition set_total_messages (v : Z) (x : Statistics) : Statistics :=
  {| total_messages := v; total_conversations := total_conversations x;
     average_session_length := average_session_length x;
     last_interaction := last_interaction x; topics_discussed := topics_discussed x |}.

Definition set_last_interaction (v : option pystr) (x : Statistics) : Statistics :=
  {| total_messages := total_messages x; total_conversations := total_conversations x;
     average_session_length := average_session_length x;
     last_interaction := v; topics_discussed := topics_discussed x |}.

Definition set_personal (v : Personal) (x : MemoryFacts) : MemoryFacts :=
  {| personal := v; relationships := relationships x; goals := goals x;
     challenges := challenges x; achievements := achievements x;
     mf_preferences := mf_preferences x |}.

Definition set_goals (v : list (pystr * pystr)) (x : MemoryFacts) : MemoryFacts :=
  {| personal := personal x; relationships := relationships x; goals := v;
     challenges := challenges x; achievements := achievements x;
     mf_preferences := mf_preferences x |}.

Definition set_challenges (v : list (pystr * pystr)) (x : MemoryFacts) : MemoryFacts :=
  {| personal := personal x; relationships := relationships x; goals := goals x;
     challenges := v; achievements := achievements x;
     mf_preferences := mf_preferences x |}.

Definition set_achievements (v : list (pystr * pystr)) (x : MemoryFacts) : MemoryFacts :=
  {| personal := personal x; relationships := relationships x; goals := goals x;
     challenges := challenges x; achievements := v;
     mf_preferences := mf_preferences x |}.

Definition set_mf_preferences (v : Likes) (x : MemoryFacts) : MemoryFacts :=
  {| personal := personal x; relationships := relationships x; goals := goals x;
     challenges := challenges x; achievements := achievements x;
     mf_preferences := v |}.

(** [d[k] = v] on a dict kept in insertion order. *)
Fixpoint dict_set (d : list (pystr * pystr)) (k v : pystr) : list (pystr * pystr) :=
  match d with
  | [] => [(k, v)]
  | (k', v') :: d' =>
      if bool_decide (k' = k) then (k', v) :: d' else (k', v') :: dict_set d' k v
  end.

Section WithEnv.
Context `{PyRuntime} (env : Env).

Definition _create_new_profile (uid : pystr) : Py t Profile :=
  now ← PyM.observe (datetime_now env);
  mret
    {| user_id := uid;
       created_at := now;
       personality :=
         {| communication_style := lit "neutral";
            vocabulary_level := lit "medium";
            emoji_usage := 0.0;
            humor_preference := 0.5;
            formality := 0.5;
            verbosity := 0.5 |};
       preferences :=
         {| favorite_topics := []; interests := []; learning_goals := [];
            time_zone := lit "UTC"; language := lit "en" |};
       conversation_history := [];
       memory_facts :=
         {| personal := {| name := None; age := None; location := None; job := None |};
            relationships := []; goals := []; challenges := []; achievements := [];
            mf_preferences := {| likes := None; dislikes := None |} |};
       emotional_profile :=
         {| baseline_sentiment := 0.0; emotion_history := [];
            stress_level := 0.0; common_emotions := [] |};
       communication_patterns :=
         {| common_phrases := []; sentence_structure := lit "medium";
            question_frequency := 0.0; average_message_length := 0 |};
       decision_making :=
         {| risk_tolerance := 0.5; decision_speed := 0.5;
            analytical_vs_intuitive := 0.5; past_decisions := [] |};
       learning_style :=
         {| visual := 0.33; auditory := 0.33; kinesthetic := 0.34;
            preferred_explanation_style := lit "examples" |};
       statistics :=
         {| total_messages := 0; total_conversations := 0;
            average_session_length := 0; last_interaction := None;
            topics_discussed := [] |} |}.

(** [load_profile]: the JSON file of the user if there is one, else a
    new profile (which is not written). *)
Definition load_profile (uid : pystr) : Py t Profile :=
  m ← PyM.get;
  match disk m !! uid with
  | Some p => mret p
  | None => _create_new_profile uid
  end.

(** [save_profile] stamps the profile object and writes it; the
    stamped object is returned since the caller goes on using it. *)
Definition save_profile (uid : pystr) (profile : Profile) : Py t Profile :=
  now ← PyM.observe (datetime_now env);
  let profile :=
    set_statistics (set_last_interaction (Some now) (statistics profile)) profile in
  PyM.modify (fun m => {| disk := <[uid := profile]> (disk m) |});;
  mret profile.

Definition emoji_chars : pystr :=
  lit "😀😁😂🤣😃😄😅😆😉😊😋😎😍😘🥰😗😙😚😇🙂🙃😉😌😍🥰😘😗😙😚😇🙂🙃😌😝😜😛🤪🤨🧐🤓".

Definition formal_words : list pystr :=
  map lit ["please"; "thank"; "kindly"; "appreciate"; "sincerely";
           "respectfully"; "regards"]%string.

Definition casual_words : list pystr :=
  map lit ["hey"; "yo"; "sup"; "gonna"; "wanna"; "yeah"; "ok"; "lol"]%string.

Definition _analyze_communication_style (profile : Profile) (message : pystr)
    : Profile :=
  (* Emoji usage *)
  let emoji_count :=
    Z.of_nat (length (filter (fun char => (127000 <? char)%N || py_in [char] emoji_chars = true)
                             message)) in
  let pers := personality profile in
  let pers :=
    set_emoji_usage
      (emoji_usage pers * 0.9 +
       (inject_Z emoji_count / inject_Z (Z.max (Z.of_nat (length message)) 1)) * 0.1)
      pers in
  (* Formality *)
  let formal_count := count_in formal_words (lower message) in
  let casual_count := count_in casual_words (lower message) in
  let pers :=
    if (casual_count <? formal_count)%Z
    then set_formality (py_min (formality pers + 0.1) 1.0) pers
    else if (formal_count <? casual_count)%Z
    then set_formality (py_max (formality pers - 0.1) 0.0) pers
    else pers in
  (* Verbosity *)
  let word_count := Z.of_nat (length (split_ws message)) in
  let comm := communication_patterns profile in
  let comm :=
    if Qeq_bool (average_message_length comm) 0
    then set_average_message_length (inject_Z word_count) comm
    else set_average_message_length
           (average_message_length comm * 0.9 + inject_Z word_count * 0.1) comm in
  let pers :=
    if (30 <? word_count)%Z
    then set_verbosity (py_min (verbosity pers + 0.05) 1.0) pers
    else if (word_count <? 10)%Z
    then set_verbosity (py_max (verbosity pers - 0.05) 0.0) pers
    else pers in
  (* Question frequency *)
  let is_question := endswith (lit "?") (strip message) in
  let comm :=
    set_question_frequency
      (question_frequency comm * 0.95 + (if is_question then 1.0 else 0.0) * 0.05)
      comm in
  set_communication_patterns comm (set_personality pers profile).

Definition _update_emotional_profile (profile : Profile)
    (emotion : option EmotionDict) : Py t Profile :=
  if dict_truthy emotion then
    now ← PyM.observe (datetime_now env);
    let ep := emotional_profile profile in
    let hist :=
      emotion_history ep ++
      [ {| ee_timestamp := now;
           ee_emotion := default (lit "neutral") (emotion ≫= ed_emotion);
           ee_sentiment := default 0.0%Q (emotion ≫= ed_sentiment) |} ] in
    (* Keep last 50 emotions *)
    let hist := keep_last 50 hist in
    let ep := set_emotion_history hist ep in
    (* Calculate baseline sentiment *)
    let recent_sentiments := map ee_sentiment (last_n 20 hist) in
    let ep :=
      match recent_sentiments with
      | [] => ep
      | _ :: _ =>
          set_baseline_sentiment
            (py_fsum recent_sentiments / inject_Z (Z.of_nat (length recent_sentiments)))
            ep
      end in
    mret (set_emotional_profile ep profile)
  else mret profile.

(** *** Fact extraction *)

Definition capture (prefix : string) (cls : N → bool) : Re.regex :=
  Re.Seq (Re.Lit (lit prefix)) (Re.Group (Re.Plus cls)).

Definition article : Re.regex := Re.Opt (Re.Alt (Re.Lit (lit "a ")) (Re.Lit (lit "an "))).

Definition name_patterns : list Re.regex :=
  [ capture "my name is " Re.cls_w; capture "i'm " Re.cls_w;
    capture "call me " Re.cls_w; capture "i am " Re.cls_w ].

Definition age_patterns : list Re.regex :=
  [ Re.Seq (capture "i am " Re.cls_d) (Re.Lit (lit " years old"));
    Re.Seq (capture "i'm " Re.cls_d) (Re.Lit (lit " years old"));
    capture "i am " Re.cls_d;
    capture "age " Re.cls_d ].

Definition location_patterns : list Re.regex :=
  [ capture "i live in " Re.cls_ws; capture "i'm from " Re.cls_ws;
    capture "living in " Re.cls_ws; capture "born in " Re.cls_ws ].

Definition professions : Re.regex :=
  Re.Alt (Re.Lit (lit "teacher")) (Re.Alt (Re.Lit (lit "doctor"))
 (Re.Alt (Re.Lit (lit "engineer")) (Re.Alt (Re.Lit (lit "student"))
 (Re.Alt (Re.Lit (lit "programmer")) (Re.Alt (Re.Lit (lit "developer"))
 (Re.Alt (Re.Lit (lit "designer")) (Re.Lit (lit "manager")))))))).

Definition job_patterns : list Re.regex :=
  [ Re.Seq (Re.Lit (lit "i work as ")) (Re.Seq article (Re.Group (Re.Plus Re.cls_ws)));
    Re.Seq (Re.Lit (lit "i'm "))
      (Re.Seq article (Re.Seq (Re.Group (Re.Plus Re.cls_ws)) (Re.Lit (lit " by profession"))));
    capture "my job is " Re.cls_ws;
    Re.Seq (Re.Lit (lit "i am ")) (Re.Seq article (Re.Group professions)) ].

Definition goal_keywords : list pystr :=
  map lit ["want to"; "hope to"; "plan to"; "goal is"; "dream is"; "trying to"]%string.

Definition challenge_keywords : list pystr :=
  map lit ["worried about"; "anxious about"; "stressed about"; "problem with";
           "struggling with"]%string.

Definition achievement_keywords : list pystr :=
  map lit ["proud of"; "accomplished"; "achieved"; "succeeded"; "won";
           "graduated"]%string.

(** [for pattern in patterns: match = re.search(pattern, lower_msg); ...]:
    [store] is the body of the loop for a pattern that matched. *)
Definition for_patterns (patterns : list Re.regex) (lower_msg : pystr)
    (store : pystr → Personal → Personal) (x : Personal) : Personal :=
  fold_left (fun x pattern =>
               match Re.search pattern lower_msg with
               | Some g => store g x
               | None => x
               end) patterns x.

Definition store_name (g : pystr) (x : Personal) : Personal :=
  if bool_decide (2 < length g)
  then {| name := Some (Re.title g); age := age x; location := location x; job := job x |}
  else x.

Definition store_age (g : pystr) (x : Personal) : Personal :=
  let a := Re.int_of_digits g in
  if (5 <=? a)%Z && (a <=? 120)%Z
  then {| name := name x; age := Some a; location := location x; job := job x |}
  else x.

Definition store_location (g : pystr) (x : Personal) : Personal :=
  let loc := Re.title (strip g) in
  if bool_decide (length (split_ws loc) ≤ 3)
  then {| name := name x; age := age x; location := Some loc; job := job x |}
  else x.

Definition store_job (g : pystr) (x : Personal) : Personal :=
  let j := Re.title (strip g) in
  if bool_decide (length (split_ws j) ≤ 4)
  then {| name := name x; age := age x; location := location x; job := Some j |}
  else x.

Definition _extract_facts (profile : Profile) (message : pystr) : Py t Profile :=
  let lower_msg := lower message in
  let mf := memory_facts profile in
  let pers := personal mf in
  let pers := for_patterns name_patterns lower_msg store_name pers in
  let pers := for_patterns age_patterns lower_msg store_age pers in
  let pers := for_patterns location_patterns lower_msg store_location pers in
  let pers := for_patterns job_patterns lower_msg store_job pers in
  let mf := set_personal pers mf in
  mf ← (if any_in goal_keywords lower_msg
        then now ← PyM.observe (datetime_now env);
             mret (set_goals (dict_set (goals mf) now message) mf)
        else mret mf);
  mf ← (if any_in challenge_keywords lower_msg
        then now ← PyM.observe (datetime_now env);
             mret (set_challenges (dict_set (challenges mf) now message) mf)
        else mret mf);
  mf ← (if any_in achievement_keywords lower_msg
        then now ← PyM.observe (datetime_now env);
             mret (set_achievements (dict_set (achievements mf) now message) mf)
        else mret mf);
  let prefs := mf_preferences mf in
  let prefs :=
    if py_in (lit "i love") lower_msg || py_in (lit "i really like") lower_msg
    then {| likes := Some (default [] (likes prefs) ++ [message]);
            dislikes := dislikes prefs |}
    else if py_in (lit "i hate") lower_msg || py_in (lit "i dislike") lower_msg
    then {| likes := likes prefs;
            dislikes := Some (default [] (dislikes prefs) ++ [message]) |}
    else prefs in
  mret (set_memory_facts (set_mf_preferences prefs mf) profile).

Definition update_from_message (uid message : pystr) (emotion : option EmotionDict)
    : Py t Profile :=
  profile ← load_profile uid;
  (* Update statistics *)
  let profile :=
    set_statistics
      (set_total_messages (total_messages (statistics profile) + 1) (statistics profile))
      profile in
  (* Analyze communication style *)
  let profile := _analyze_communication_style profile message in
  (* Update emotional profile *)
  profile ← _update_emotional_profile profile emotion;
  (* Extract and store facts *)
  profile ← _extract_facts profile message;
  (* Store conversation *)
  now ← PyM.observe (datetime_now env);
  let hist :=
    conversation_history profile ++
    [ {| he_timestamp := now; he_message := message; he_emotion := emotion |} ] in
  (* Keep only last 100 messages *)
  let hist := keep_last 100 hist in
  save_profile uid (set_conversation_history hist profile).

(** [get_context_for_response]: the lines of the context, joined by
    newlines. *)
Definition get_context_for_response (uid : pystr) : Py t pystr :=
  profile ← load_profile uid;
  (* Personal info *)
  let pers := personal (memory_facts profile) in
  let personal_info :=
    match name pers with Some v => [lit "Name: " ++ v] | None => [] end ++
    match age pers with Some v => [lit "Age: " ++ str_of_Z v] | None => [] end ++
    match location pers with Some v => [lit "Location: " ++ v] | None => [] end ++
    match job pers with Some v => [lit "Job: " ++ v] | None => [] end in
  let context_parts :=
    match personal_info with
    | [] => []
    | _ :: _ => [lit "User info: " ++ join (lit ", ") personal_info]
    end in
  (* Communication style preferences *)
  let style := personality profile in
  let style_notes :=
    (if Qltb 0.7 (formality style) then [lit "prefers formal communication"]
     else if Qltb (formality style) 0.3 then [lit "prefers casual communication"]
     else []) ++
    (if Qltb 0.1 (emoji_usage style) then [lit "uses emojis frequently"] else []) ++
    (if Qltb 0.7 (verbosity style) then [lit "prefers detailed responses"]
     else if Qltb (verbosity style) 0.3 then [lit "prefers concise responses"]
     else []) in
  let context_parts :=
    match style_notes with
    | [] => context_parts
    | _ :: _ =>
        context_parts ++ [lit "Communication style: " ++ join (lit ", ") style_notes]
    end in
  (* Emotional state *)
  let baseline := baseline_sentiment (emotional_profile profile) in
  let context_parts :=
    if Qltb 0.3 baseline
    then context_parts ++ [lit "User generally has positive emotional state"]
    else if Qltb baseline (- 0.3)
    then context_parts ++
         [lit "User may be going through difficult times - be extra supportive"]
    else context_parts in
  (* Recent important facts *)
  let recent_goals := last_n 1 (map snd (goals (memory_facts profile))) in
  let recent_challenges := last_n 1 (map snd (challenges (memory_facts profile))) in
  let context_parts :=
    match recent_goals with
    | g :: _ => context_parts ++ [lit "Current goal: " ++ g]
    | [] => context_parts
    end in
  let context_parts :=
    match recent_challenges with
    | c :: _ => context_parts ++ [lit "Current challenge: " ++ c]
    | [] => context_parts
    end in
  (* Conversation history (last 3 messages) *)
  let recent_messages := last_n 3 (conversation_history profile) in
  let context_parts :=
    match recent_messages with
    | [] => context_parts
    | _ :: _ =>
        context_parts ++ [lit "Recent conversation:"] ++
        map (fun msg => lit "- User: " ++ he_message msg) recent_messages
    end in
  mret (join (lit "
") context_parts).

(** The dict returned by [get_user_summary]. *)
Record Summary := {
  su_user_id : pystr;
  su_name : pystr;
  su_total_messages : Z;
  su_personality : Personality;
  su_baseline_sentiment : Q;
  su_last_interaction : option pystr;
  su_personal : Personal;
  su_recent_goals : list pystr;
  su_recent_challenges : list pystr
}.

Definition get_user_summary (uid : pystr) : Py t Summary :=
  profile ← load_profile uid;
  mret {| su_user_id := uid;
          su_name := default (lit "Unknown") (name (personal (memory_facts profile)));
          su_total_messages := total_messages (statistics profile);
          su_personality := personality profile;
          su_baseline_sentiment := baseline_sentiment (emotional_profile profile);
          su_last_interaction := last_interaction (statistics profile);
          su_personal := personal (memory_facts profile);
          su_recent_goals := last_n 3 (map snd (goals (memory_facts profile)));
          su_recent_challenges :=
            last_n 3 (map snd (challenges (memory_facts profile))) |}.

End WithEnv.
End UserMemory.

(** ** Python floats that are printed: IEEE binary64 *)

Module PyFloat.
Section WithRuntime.
Context `{PyRuntime}.

Definition ascii_digit (c : N) : bool := (48 <=? c)%N && (c <=? 57)%N.

(** The leading ASCII digits of [s] and what follows them. *)
Fixpoint span_digits (s : pystr) : pystr * pystr :=
  match s with
  | c :: s' =>
      if ascii_digit c then let '(d, r) := span_digits s' in (c :: d, r) else ([], s)
  | [] => ([], [])
  end.

Definition nat_of_digits (d : pystr) : N :=
  fold_left (fun acc c => (acc * 10 + (c - 48))%N) d 0%N.

(** The plain decimal syntax [[+-]digits[.digits]]: sign, the digits
    read as one integer, and the number of digits after the point. *)
Definition parse_plain (s : pystr) : option (bool * N * nat) :=
  let '(neg, s) :=
    match s with
    | 45%N :: s' => (true, s')
    | 43%N :: s' => (false, s')
    | _ => (false, s)
    end in
  let '(ip, r) := span_digits s in
  match r with
  | [] => if bool_decide (0 < length ip) then Some (neg, nat_of_digits ip, 0) else None
  | 46%N :: r' =>
      let '(fp, r'') := span_digits r' in
      match r'' with
      | [] =>
          if bool_decide (0 < length ip + length fp)
          then Some (neg, nat_of_digits (ip ++ fp), length fp)
          else None
      | _ :: _ => None
      end
  | _ :: _ => None
  end.

(** [float(s)]; [None] stands for ValueError.  A plain decimal whose
    digits form an integer below 2^53 with at most 18 of them after
    the point is the correctly rounded quotient of two floats that are
    exact images of 63-bit integers; any other text is left to the
    runtime. *)
Definition py_float (s : pystr) : option float :=
  let s := strip s in
  match parse_plain s with
  | Some (neg, n, k) =>
      if (n <? 2 ^ 53)%N && bool_decide (k ≤ 18) then
        let v := (PrimFloat.of_uint63 (Uint63.of_Z (Z.of_N n)) /
                  PrimFloat.of_uint63 (Uint63.of_Z (10 ^ Z.of_nat k)))%float in
        Some (if neg then (- v)%float else v)
      else float_of_str_ext s
  | None => float_of_str_ext s
  end.

(** The integer a finite float is equal to, if it is one. *)
Definition whole_value (m : positive) (e : Z) : option Z :=
  if (0 <=? e)%Z then Some (Z.pos m * 2 ^ e)%Z
  else if (Z.pos m mod 2 ^ (- e) =? 0)%Z then Some (Z.pos m / 2 ^ (- e))%Z
  else None.

(** [repr(x)], which is also [str(x)] and what an f-string prints. *)
Definition py_repr (x : float) : pystr :=
  match Prim2SF x with
  | S754_zero s => if s then lit "-0.0" else lit "0.0"
  | S754_finite s m e =>
      match whole_value m e with
      | Some v =>
          if (v <? 10 ^ 16)%Z
          then (if s then lit "-" else []) ++ str_of_Z v ++ lit ".0"
          else float_repr_ext x
      | None => float_repr_ext x
      end
  | _ => float_repr_ext x
  end.

(** [a / b]; [None] stands for ZeroDivisionError. *)
Definition py_div (a b : float) : option float :=
  if PrimFloat.eqb b 0%float then None else Some (a / b)%float.

End WithRuntime.
End PyFloat.

(** ** [backend/topic_handlers.py]: MathHandler *)

Module MathHandler.
Section WithRuntime.
Context `{PyRuntime}.
Import PyFloat.

Definition _handle_arithmetic (expression : pystr) : pystr :=
  let expr := replace (lit "÷") (lit "/")
                (replace (lit "^") (lit "**") (replace (lit "x") (lit "*") expression)) in
  let isdigit c := if is_ascii c then ascii_digit c else unicode_isdigit c in
  let expr := List.filter (fun c => isdigit c || py_in [c] (lit "+-*/.() ")) expr in
  match expr with
  | [] => lit "I need a clearer mathematical expression to solve."
  | _ :: _ =>
      match py_eval expr with
      | Some result =>
          lit "**" ++ result ++ lit "**

Calculation: " ++ expression ++ lit " = " ++ result ++ lit "

Step by step:
- Input: " ++ expression ++ lit "
- Result: " ++ result
      | None =>
          lit "I couldn't parse this mathematical expression. Try something like '25 * 4' or '100 / 5'"
      end
  end.

(** [coeff = part.replace('x', '').strip() or '1'] *)
Definition coeff_text (part : pystr) : pystr :=
  match strip (replace (lit "x") [] part) with
  | [] => lit "1"
  | c => c
  end.

(** The [try] block of [_handle_equation]; [None] when it raises or
    falls through. *)
Definition solve_linear (equation : pystr) : option float :=
  if py_in (lit "=") equation then
    match split (lit "=") equation with
    | [left_; right_] =>
        let left_ := strip left_ in
        let right_ := strip right_ in
        if py_in (lit "+") left_ then
          let parts := split (lit "+") left_ in
          let p0 := nth 0 parts [] in
          let p1 := nth 1 parts [] in
          let '(coeff, const) :=
            if py_in (lit "x") p0 then (coeff_text p0, strip p1)
            else (coeff_text p1, strip p0) in
          coeff ← py_float coeff;
          const ← py_float const;
          rhs ← py_float right_;
          py_div (rhs - const)%float coeff
        else if py_in (lit "-") left_ then
          let parts := split (lit "-") left_ in
          let p0 := nth 0 parts [] in
          let p1 := nth 1 parts [] in
          if py_in (lit "x") p0 then
            let coeff := coeff_text p0 in
            const ← py_float (strip p1);
            let const := (- const)%float in
            coeff ← py_float coeff;
            rhs ← py_float right_;
            py_div (rhs - const)%float coeff
          else
            let coeff := coeff_text p1 in
            const ← py_float (strip p0);
            let const := (- const)%float in
            coeff ← py_float coeff;
            rhs ← py_float right_;
            py_div (rhs - const)%float coeff
        else
          coeff ← py_float (coeff_text left_);
          rhs ← py_float right_;
          py_div rhs coeff
    | _ => None
    end
  else None.

Definition _handle_equation (equation : pystr) : pystr :=
  match solve_linear equation with
  | Some x =>
      lit "**Solution: x = " ++ py_repr x ++ lit "**

Step by step:
1. Original equation: " ++ equation ++ lit "
2. Solving for x: x = " ++ py_repr x ++ lit "

Verification: Substitute x = " ++ py_repr x ++ lit " back into the equation to check!"
  | None =>
      lit "I can solve simple linear equations like '2x + 5 = 15' or '3x - 7 = 20'. Could you rephrase your equation?"
  end.

(** [\d+(?:\.\d+)?] *)
Definition number_pattern : Re.regex :=
  Re.Seq (Re.Plus Re.cls_d) (Re.Opt (Re.Seq (Re.Lit (lit ".")) (Re.Plus Re.cls_d))).

Definition percentage_fallback : pystr :=
  lit "For percentage problems, try asking: 'What is 20% of 80?' or 'Calculate 25% of 120'".

Definition _handle_percentage (problem : pystr) : pystr :=
  match Re.findall number_pattern problem with
  | n0 :: n1 :: _ =>
      if py_in (lit "of") problem then
        match py_float n0, py_float n1 with
        | Some percent, Some value =>
            let result := ((percent / 100) * value)%float in
            lit "**" ++ py_repr percent ++ lit "% of " ++ py_repr value ++
            lit " = " ++ py_repr result ++ lit "**

Calculation: (" ++ py_repr percent ++ lit " ÷ 100) × " ++ py_repr value ++
            lit " = " ++ py_repr result
        | _, _ => percentage_fallback
        end
      else lit "For percentages, try: 'What is 20% of 80?' or 'Calculate 15% of 200'"
  | _ => percentage_fallback
  end.

Definition _handle_word_problem (problem : pystr) : pystr :=
  let lower_problem := lower problem in
  if py_in (lit "age") lower_problem || py_in (lit "years old") lower_problem then
    lit "I can help with age problems! For example: 'If John is 5 years older than Mary, and Mary is 20, how old is John?' The answer would be 25 years old."
  else if py_in (lit "cost") lower_problem || py_in (lit "price") lower_problem ||
          py_in (lit "$") problem then
    lit "For money problems, I can help! For example: 'If 3 apples cost $6, how much does 1 apple cost?' The answer would be $2 per apple."
  else
    lit "I can help with word problems! Try rephrasing with specific numbers and operations, like: 'If I have 10 apples and eat 3, how many are left?'".

Definition solve_math (question : pystr) : pystr :=
  (* Clean the question *)
  let clean_q :=
    strip (replace (lit "what is") []
             (replace (lit "calculate") [] (replace (lit "solve") [] (lower question)))) in
  if py_in (lit "%") clean_q || py_in (lit "percent") clean_q then
    _handle_percentage clean_q
  else if negb (py_in (lit "=") clean_q) &&
          negb (any_in (map lit ["x"; "y"; "z"]%string) clean_q) then
    _handle_arithmetic clean_q
  else if py_in (lit "=") clean_q && py_in (lit "x") clean_q then
    _handle_equation clean_q
  else if any_in (map lit ["age"; "years"; "cost"; "price"; "distance"; "speed";
                           "time"]%string) clean_q then
    _handle_word_problem question
  else
    lit "I can help with math! Try asking: 'solve 2x + 5 = 15', 'calculate 25 * 4', or 'what is 20% of 80?'".

End WithRuntime.
End MathHandler.


(** ** [backend/topic_handlers.py]: the other handlers *)

Module EmotionalHandler.
Section WithRuntime.
Context `{PyRuntime}.

Definition responses (greeting : pystr) : list (pystr * list pystr) :=
  [ (lit "sadness",
     [ greeting ++ lit "I can sense that you're going through a tough time right now. ";
       greeting ++ lit "Your feelings are completely valid and it's okay to feel sad. ";
       greeting ++ lit "I'm here with you during this difficult moment. " ]);
    (lit "fear",
     [ greeting ++ lit "I understand you're feeling anxious or worried. ";
       greeting ++ lit "Fear is natural, even when it's uncomfortable. ";
       greeting ++ lit "You're safe here, and we can work through this together. " ]);
    (lit "anger",
     [ greeting ++ lit "I can tell you're feeling frustrated or upset. ";
       greeting ++ lit "Your anger is valid - something important to you has been affected. ";
       greeting ++ lit "Let's talk about what's bothering you. " ]);
    (lit "joy",
     [ greeting ++ lit "I love seeing you happy! ";
       greeting ++ lit "That's wonderful news! ";
       greeting ++ lit "Your positive energy is contagious! " ]) ].

(** [d.get(k, dflt)] on a dict of lists *)
Fixpoint table_get (d : list (pystr * list pystr)) (k : pystr) (dflt : list pystr)
    : list pystr :=
  match d with
  | [] => dflt
  | (k', v) :: d' => if bool_decide (k' = k) then v else table_get d' k dflt
  end.

Definition provide_support (message : pystr) (emotion : EmotionDict)
    (user_profile : UserMemory.Profile) : pystr :=
  let emotion_type := default (lit "neutral") (ed_emotion emotion) in
  let sentiment := default 0.0%Q (ed_sentiment emotion) in
  let baseline :=
    UserMemory.baseline_sentiment (UserMemory.emotional_profile user_profile) in
  let name :=
    default [] (UserMemory.name (UserMemory.personal (UserMemory.memory_facts user_profile))) in
  let greeting := match name with [] => [] | _ :: _ => name ++ lit ", " end in
  let response :=
    hd [] (table_get (responses greeting) emotion_type
             [greeting ++ lit "I'm here to listen. "]) in
  let response :=
    if Qltb baseline (- 0.2) && Qltb sentiment 0
    then response ++ lit "I've noticed this has been a challenging period for you. Remember, you're stronger than you know. "
    else response in
  let lower_msg := lower message in
  if any_in (map lit ["worried"; "anxious"; "stress"]%string) lower_msg then
    response ++ lit "

**What's specifically worrying you?** Sometimes breaking down our concerns helps us see them more clearly. I'm here to help you work through this step by step."
  else if any_in (map lit ["sad"; "depressed"; "down"]%string) lower_msg then
    response ++ lit "

**Would you like to talk about what's making you feel this way?** I'm here to listen without judgment. Sometimes sharing our feelings can lighten the load."
  else if any_in (map lit ["angry"; "frustrated"; "mad"]%string) lower_msg then
    response ++ lit "

**What happened that made you feel this way?** Anger often tells us something important needs attention. Let's work through it together."
  else if any_in (map lit ["lonely"; "alone"; "isolated"]%string) lower_msg then
    response ++ lit "

**You're not truly alone - I'm here with you right now.** Loneliness can feel overwhelming, but remember that this feeling will pass. What's been making you feel disconnected?"
  else if any_in (map lit ["excited"; "happy"; "great"]%string) lower_msg then
    response ++ lit "

**I'd love to hear more about what's making you feel so good!** Your happiness is infectious. What's been going well for you?"
  else response.

End WithRuntime.
End EmotionalHandler.

Module DecisionHandler.
Section WithRuntime.
Context `{PyRuntime}.

Definition help_decide (message : pystr) (user_profile : UserMemory.Profile) : pystr :=
  let risk_tolerance :=
    UserMemory.risk_tolerance (UserMemory.decision_making user_profile) in
  let analytical :=
    UserMemory.analytical_vs_intuitive (UserMemory.decision_making user_profile) in
  let name :=
    default [] (UserMemory.name (UserMemory.personal (UserMemory.memory_facts user_profile))) in
  let greeting := match name with [] => lit "L" | _ :: _ => name ++ lit ", l" end in
  let response := greeting ++ lit "et me help you think through this decision.

" in
  let lower_msg := lower message in
  let response :=
    if py_in (lit "should i") lower_msg then
      let decision_part := strip (nth 1 (split (lit "should i") lower_msg) []) in
      response ++ lit "**You're considering: " ++ decision_part ++ lit "**

"
    else response in
  let response :=
    if Qltb analytical 0.4 then
      response ++ lit "**🎯 Intuitive Approach** (based on your decision-making style):
" ++ lit "1. **Gut feeling**: What does your instinct tell you?
" ++ lit "2. **Excitement test**: Which option makes you feel more energized?
" ++ lit "3. **Future self**: Imagine yourself in 5 years - which choice would you be proud of?
" ++ lit "4. **Values alignment**: Which option aligns better with what matters most to you?

"
    else if Qltb 0.6 analytical then
      response ++ lit "**📊 Analytical Approach** (based on your decision-making style):
" ++ lit "1. **Pros and cons**: List the advantages and disadvantages of each option
" ++ lit "2. **Worst-case scenario**: What's the worst that could happen with each choice?
" ++ lit "3. **Opportunity cost**: What are you giving up with each option?
" ++ lit "4. **Data check**: What evidence supports each choice?

"
    else
      response ++ lit "**⚖️ Balanced Approach**:
" ++ lit "1. **Head vs Heart**: What do logic and emotions each tell you?
" ++ lit "2. **Short vs Long-term**: Consider both immediate and future impacts
" ++ lit "3. **Advice test**: What would you tell a friend in this situation?

" in
  let response :=
    if Qltb risk_tolerance 0.3 then
      response ++ lit "**🛡️ Risk Consideration**: Given your careful nature, I'd suggest:
" ++ lit "- Choose the option with more predictable outcomes
" ++ lit "- Consider what safeguards you can put in place
" ++ lit "- Remember: sometimes the 'safer' choice has hidden risks too"
    else if Qltb 0.7 risk_tolerance then
      response ++ lit "**🚀 Risk Consideration**: You're comfortable with bold moves, so:
" ++ lit "- Don't let fear of failure hold you back
" ++ lit "- The bigger risk might be playing it too safe
" ++ lit "- Trust your ability to handle whatever comes"
    else
      response ++ lit "**⚖️ Risk Consideration**: Balance safety with opportunity:
" ++ lit "- Consider moderate risks that offer reasonable rewards
" ++ lit "- You don't need to choose the extreme option
" ++ lit "- Sometimes the middle path is the wisest" in
  response ++ lit "

**What specific aspect of this decision is most challenging for you?**".

End WithRuntime.
End DecisionHandler.

Module KnowledgeHandler.
Section WithRuntime.
Context `{PyRuntime}.

Definition _handle_science (question : pystr) : pystr :=
  if py_in (lit "gravity") question then
    lit "**Gravity** is a fundamental force that attracts objects with mass toward each other. On Earth, gravity gives weight to physical objects and causes them to fall toward the ground when dropped. It's what keeps us on the planet's surface!

**Fun fact**: Gravity is actually the weakest of the four fundamental forces, but it has infinite range and affects everything with mass."
  else if py_in (lit "atom") question then
    lit "**Atoms** are the basic building blocks of all matter! They consist of:
- **Nucleus**: Contains protons (+) and neutrons (neutral)
- **Electrons**: Orbit around the nucleus (-)

**Amazing fact**: If an atom were the size of a football stadium, the nucleus would be about the size of a marble at the center!"
  else
    lit "Science is fascinating! I'd love to explore this topic with you. Can you be more specific about what aspect interests you most?".

Definition _handle_technology (question : pystr) : pystr :=
  if any_in (map lit ["ai"; "artificial intelligence"]%string) question then
    lit "**Artificial Intelligence (AI)** is technology that enables machines to simulate human intelligence. AI can:
- Learn from data (Machine Learning)
- Understand language (Natural Language Processing)
- Recognize patterns
- Make decisions

**That's me!** I use AI to understand your emotions, remember our conversations, and provide helpful responses tailored to you."
  else if py_in (lit "internet") question then
    lit "**The Internet** is a global network connecting billions of devices worldwide. It allows us to:
- Share information instantly
- Communicate across vast distances
- Access vast libraries of knowledge
- Connect with people globally

**Mind-blowing fact**: Every minute, over 500 hours of video are uploaded to YouTube!"
  else
    lit "Technology is evolving so rapidly! What specific tech topic would you like to explore together?".

Definition _handle_history (question : pystr) : pystr :=
  lit "**History** is full of fascinating stories and lessons! From ancient civilizations to modern times, human history shows us patterns of innovation, conflict, cooperation, and growth.

**Key insight**: Understanding history helps us make better decisions today by learning from past successes and mistakes.

What specific historical period or event interests you most?".

Definition provide_knowledge (question : pystr) : pystr :=
  let lower_q := lower question in
  if any_in (map lit ["gravity"; "physics"; "chemistry"; "biology"; "atom";
                      "molecule"]%string) lower_q then
    _handle_science lower_q
  else if any_in (map lit ["computer"; "internet"; "ai"; "artificial intelligence";
                           "programming"]%string) lower_q then
    _handle_technology lower_q
  else if any_in (map lit ["history"; "war"; "ancient"; "civilization";
                           "empire"]%string) lower_q then
    _handle_history lower_q
  else
    lit "That's an interesting question! While I can provide some insights, I'd encourage you to explore reliable sources for detailed information. What specifically about this topic interests you most?".

End WithRuntime.
End KnowledgeHandler.

Module RandomHandler.
Section WithEnv.
Context `{PyRuntime} (env : Env) {St : Type}.

Definition jokes : list pystr := map lit [
  "Why don't scientists trust atoms? Because they make up everything! 😄";
  "What do you call a fake noodle? An impasta! 🍝";
  "Why did the math book look so sad? Because it had too many problems! 📚";
  "What do you call a bear with no teeth? A gummy bear! 🐻";
  "Why don't eggs tell jokes? They'd crack each other up! 🥚"]%string.

Definition facts : list pystr := map lit [
  "🐙 **Octopuses have three hearts and blue blood!** Two hearts pump blood to the gills, while the third pumps blood to the rest of the body.";
  "🌙 **The Moon is gradually moving away from Earth** at about 3.8 centimeters per year - roughly the same rate your fingernails grow!";
  "🧠 **Your brain uses about 20% of your body's total energy**, even though it only weighs about 2% of your body weight.";
  "🦋 **Butterflies taste with their feet** and smell with their antennae. They have a completely different sensory experience than humans!";
  "⭐ **There are more possible games of chess than there are atoms in the observable universe!** Chess has about 10^120 possible games."]%string.

Definition stories : list pystr := map lit [
  "**The Lighthouse Keeper's Wisdom** 🏮

An old lighthouse keeper was asked how he kept his light shining so bright for 40 years. He smiled and said, 'I just focused on today's ships. I couldn't light the way for every ship that would ever pass, but I could be sure that today's travelers made it safely home.'

*Sometimes the best we can do is focus on helping one person at a time.*";
  "**The Bamboo Tree** 🎋

A farmer planted bamboo and waited. For four years, nothing appeared above ground. He almost gave up, but in the fifth year, the bamboo grew 90 feet in just six weeks! Those four 'empty' years were spent growing strong roots underground.

*Great things often require invisible preparation.*";
  "**The Butterfly Effect** 🦋

A student felt discouraged, thinking their small acts of kindness didn't matter. Their teacher smiled and said, 'A butterfly's wings can't cause a hurricane, but they can be part of the conditions that do.' Every small kindness ripples outward in ways we never see.

*Your small actions create bigger changes than you know.*"]%string.

Definition _get_joke : Py St pystr :=
  r ← PyM.observe (random_draw env);
  mret (lit "**Here's a joke for you:**

" ++ choice r jokes [] ++ lit "

Hope that brought a smile to your face! 😊").

Definition _get_interesting_fact : Py St pystr :=
  r ← PyM.observe (random_draw env);
  mret (lit "**Fascinating Fact:**

" ++ choice r facts [] ++ lit "

Nature and science are amazing, aren't they? 🌟").

Definition _get_mini_story : Py St pystr :=
  r ← PyM.observe (random_draw env);
  mret (choice r stories [] ++ lit "

What did you think of that little story? 😊").

Definition provide_fun_content (message : pystr) : Py St pystr :=
  let lower_msg := lower message in
  if py_in (lit "joke") lower_msg then _get_joke
  else if py_in (lit "fact") lower_msg || py_in (lit "interesting") lower_msg
  then _get_interesting_fact
  else if py_in (lit "story") lower_msg then _get_mini_story
  else
    r ← PyM.observe (random_draw env);
    choice r [_get_joke; _get_interesting_fact; _get_mini_story] _get_joke.

End WithEnv.
End RandomHandler.

(** ** [backend/simple_main.py]: the chat endpoint *)

Module SimpleMain.

Record ChatRequest := {
  message : pystr;
  conversation_id : option pystr;
  use_voice : bool;
  context : list ChatMessage
}.

Record ChatResponse := {
  response : pystr;
  emotion : pystr;
  sentiment : Q;
  confidence : Q;
  response_time : Q;
  timestamp : pystr
}.

Section WithEnv.
Context `{PyRuntime} (env : Env).

Definition _generate_personalized_response (message : pystr)
    (emotion_data : EmotionDict) (user_profile : UserMemory.Profile)
    : Py UserMemory.t pystr :=
  let message_lower := lower message in
  let emotion := default (lit "neutral") (ed_emotion emotion_data) in
  let personal := UserMemory.personal (UserMemory.memory_facts user_profile) in
  let name := default [] (UserMemory.name personal) in
  let formality := UserMemory.formality (UserMemory.personality user_profile) in
  let baseline_sentiment :=
    UserMemory.baseline_sentiment (UserMemory.emotional_profile user_profile) in
  let total_messages :=
    str_of_Z (UserMemory.total_messages (UserMemory.statistics user_profile)) in
  let name_prefix := match name with [] => [] | _ :: _ => name ++ lit ", " end in
  (* [{', ' + name if name else ''}] and [{' ' + name if name else ''}] *)
  let comma_name := match name with [] => [] | _ :: _ => lit ", " ++ name end in
  let space_name := match name with [] => [] | _ :: _ => lit " " ++ name end in
  if any_in (map lit ["hello"; "hi"; "hey"; "greetings"; "good morning";
                      "good afternoon"]%string) message_lower then
    if bool_decide (emotion = lit "joy") then
      mret (name_prefix ++ lit "Hello! I can sense your positive energy today. What's making you so happy?")
    else if bool_decide (emotion = lit "sadness") then
      mret (name_prefix ++ lit "Hi there. I notice you might be going through something difficult. I'm here to listen and support you.")
    else if bool_decide (emotion = lit "fear") then
      mret (name_prefix ++ lit "Hello. I sense some worry in your message. You're safe here with me. What's on your mind?")
    else if Qltb 0.7 formality then
      mret (lit "Good day" ++ comma_name ++ lit "! I'm Buddy, your AI companion. How may I assist you today?")
    else if Qltb formality 0.3 then
      mret (lit "Hey" ++ space_name ++ lit "! 👋 What's up? How are you doing today?")
    else
      mret (lit "Hello" ++ space_name ++ lit "! I'm Buddy, your emotionally intelligent AI companion. How are you feeling today?")
  else if any_in (map lit ["artificial intelligence"; "ai"; "what can you do";
                           "capabilities"]%string) message_lower then
    if bool_decide (UserMemory.vocabulary_level (UserMemory.personality user_profile)
                    = lit "advanced") then
      mret (lit "I'm an advanced AI system utilizing natural language processing, emotion recognition, and personalized memory systems" ++ comma_name ++ lit ". I analyze your communication patterns, remember our conversations, and adapt my responses to your unique personality and needs. What specific aspect of AI interests you?")
    else
      mret (lit "I'm Buddy, your smart AI companion! I can understand your emotions, remember what we talk about, help solve problems, answer questions, and adapt to your communication style" ++ comma_name ++ lit ". I get smarter with every conversation we have. What would you like to explore together?")
  else if bool_decide (emotion ∈ [lit "sadness"; lit "fear"; lit "anger"]) then
    let support_response :=
      name_prefix ++ lit "I can sense you're dealing with " ++ emotion ++ lit "." in
    let support_response :=
      if Qltb baseline_sentiment (- 0.3)
      then support_response ++ lit " I've noticed this has been a challenging time for you lately. "
      else support_response in
    let support_response :=
      if bool_decide (emotion = lit "sadness") then
        support_response ++ lit "Your feelings are completely valid. I'm here to listen and support you through this. What's been weighing on your heart?"
      else if bool_decide (emotion = lit "fear") then
        support_response ++ lit "Anxiety and worry can feel overwhelming. You're safe here with me. What specific concerns are troubling you?"
      else if bool_decide (emotion = lit "anger") then
        support_response ++ lit "Your anger is understandable - something important to you has been affected. Take a deep breath. What happened?"
      else support_response in
    mret support_response
  else if any_in (map lit ["work"; "job"; "career"; "boss"; "office"]%string)
                 message_lower then
    let job := default [] (UserMemory.job personal) in
    let job_context := match job with [] => [] | _ :: _ => lit " as a " ++ job end in
    if bool_decide (emotion = lit "fear") || py_in (lit "stress") message_lower then
      mret (name_prefix ++ lit "Work stress" ++ job_context ++ lit " can be really overwhelming. I understand the pressure you're facing. What specific aspect is bothering you most? Let's work through this together.")
    else if bool_decide (emotion = lit "anger") then
      mret (name_prefix ++ lit "Work frustrations" ++ job_context ++ lit " are so valid. Something at work is really getting to you. Want to tell me what happened? I'm here to listen without judgment.")
    else
      mret (name_prefix ++ lit "How are things going with work" ++ job_context ++ lit "? Are you facing any particular challenges I can help you think through?")
  else if any_in (map lit ["how are you"; "how do you feel"]%string) message_lower then
    mret (lit "Thank you for asking" ++ comma_name ++ lit "! I'm functioning well and genuinely happy to be chatting with you. I remember we've had " ++ total_messages ++ lit " conversations so far, and I'm always learning more about you. How are YOU feeling right now?")
  else if any_in (map lit ["thank"; "thanks"; "appreciate"]%string) message_lower then
    if Qltb 0.7 formality then
      mret (lit "You're most welcome" ++ comma_name ++ lit "! It's my pleasure to be of assistance. Is there anything else I can help you with today?")
    else
      mret (lit "You're so welcome" ++ comma_name ++ lit "! 😊 I genuinely love being helpful. That's what I'm here for. Anything else you want to chat about?")
  else if any_in (map lit ["who are you"; "about yourself"]%string) message_lower then
    mret (lit "I'm Buddy, your emotionally intelligent AI companion" ++ comma_name ++ lit "! I'm designed to understand emotions, remember our conversations, and adapt to your unique communication style. We've chatted " ++ total_messages ++ lit " times, and I've learned that you " ++
          (if Qltb 0.7 formality then lit "prefer formal communication"
           else if Qltb formality 0.3 then lit "like casual conversation"
           else lit "appreciate balanced dialogue") ++
          lit ". I'm here as your supportive friend who's always learning about you. What would you like to know?")
  else if bool_decide (50 < length message) then
    mret (name_prefix ++ lit "You've shared a lot with me, and I can tell this is really important to you. This situation is clearly having a significant impact on your life. What aspect would you most like to focus on or explore further? I'm here to help you work through it.")
  else if bool_decide (10 < length (split_ws message)) then
    mret (name_prefix ++ lit "I can tell you've given this real thought. Your perspective is valuable and I appreciate you sharing it with me. How are you feeling about this situation overall?")
  else
    let responses :=
      if Qltb 0.7 formality then
        [ lit "I would be delighted to hear more about that" ++ comma_name ++ lit ". Could you please elaborate?";
          lit "That sounds quite interesting" ++ comma_name ++ lit ". What are your thoughts on this matter?" ]
      else if Qltb formality 0.3 then
        [ lit "That's cool" ++ comma_name ++ lit "! Tell me more! 😊";
          lit "Interesting! What's your take on it" ++ comma_name ++ lit "?" ]
      else
        [ lit "I'd love to hear more about that" ++ comma_name ++ lit ". What's your experience been like?";
          lit "That's interesting" ++ comma_name ++ lit ". How are you feeling about it?" ] in
    r ← PyM.observe (random_draw env);
    mret (choice r responses []).

Definition generate_ultimate_response (message : pystr) (emotion_data : EmotionDict)
    (uid : pystr) : Py UserMemory.t pystr :=
  (* Step 1: Update user memory and get profile *)
  user_profile ← UserMemory.update_from_message env uid message (Some emotion_data);
  (* Step 2: Detect topic type *)
  let topic := TopicHandler.detect_topic message in
  (* Step 3: Route to specialized handlers *)
  if bool_decide (topic = lit "math") then
    let response := MathHandler.solve_math message in
    if py_in (lit "answer is") (lower response) || py_in (lit "solution:") (lower response)
    then mret response
    else _generate_personalized_response message emotion_data user_profile
  else if bool_decide (topic = lit "emotional") then
    mret (EmotionalHandler.provide_support message emotion_data user_profile)
  else if bool_decide (topic = lit "decision") then
    mret (DecisionHandler.help_decide message user_profile)
  else if bool_decide (topic = lit "knowledge") then
    mret (KnowledgeHandler.provide_knowledge message)
  else if bool_decide (topic = lit "random") then
    RandomHandler.provide_fun_content env message
  else
    (* Step 4: Generate personalized general response *)
    _generate_personalized_response message emotion_data user_profile.

Definition chat (chat_request : ChatRequest) : Py UserMemory.t ChatResponse :=
  start_time ← PyM.observe (time_time env);
  PyM.try_except
    ((* [chat_request.conversation_id or "default"] *)
     let uid :=
       match conversation_id chat_request with
       | Some (c :: cs) => c :: cs
       | _ => lit "default"
       end in
     let emotion_data :=
       EmotionClassifier.analyze_emotion_and_context (message chat_request) in
     ai_response ← generate_ultimate_response (message chat_request) emotion_data uid;
     end_time ← PyM.observe (time_time env);
     now ← PyM.observe (datetime_now env);
     mret {| response := ai_response;
             emotion := default [] (ed_emotion emotion_data);
             sentiment := default 0%Q (ed_sentiment emotion_data);
             confidence := default 0%Q (ed_confidence emotion_data);
             response_time := end_time - start_time;
             timestamp := now |})
    (fun _ =>
       end_time ← PyM.observe (time_time env);
       now ← PyM.observe (datetime_now env);
       mret {| response := lit "I'm experiencing a small hiccup, but I'm still here for you! What would you like to talk about? I can help with math problems, emotional support, decisions, or just have a friendly chat.";
               emotion := lit "neutral";
               sentiment := 0.0;
               confidence := 0.5;
               response_time := end_time - start_time;
               timestamp := now |}).



End WithEnv.
End SimpleMain.

(** ** [backend/main.py]: the endpoints over the Groq engine *)

Module Main.

(** What the endpoint answers: the response model, or the status 500
    that FastAPI makes of the [HTTPException]. *)
Inductive HTTPAnswer :=
| Ok200 (body : SimpleMain.ChatResponse)
| Error500.

Definition technical_difficulties : pystr :=
  lit "I'm experiencing some technical difficulties. Please try again in a moment.".

Section WithEnv.
Context `{PyRuntime} (env : Env).

(** [call_groq] passes neither context nor emotion and leaves [stream]
    at its default. *)
Definition call_groq (message conversation_id : pystr)
    : Py GroqEngine.t GroqEngine.Reply :=
  PyM.try_except
    (GroqEngine.generate_response env message conversation_id [] None false)
    (fun _ => mret (GroqEngine.Text technical_difficulties)).

Definition stream_groq_response (message conversation_id : pystr)
    : Py GroqEngine.t (list GroqEngine.StreamEvent) :=
  GroqEngine.stream_response env message conversation_id [] None.

(** The dict returned by [analyze_emotion], which has the three keys
    in every branch. *)
Definition analyze_emotion (text : pystr) : pystr * Q * Q :=
  let text_lower := lower text in
  if any_in (map lit ["happy"; "joy"; "excited"; "great"; "awesome"]%string) text_lower
  then (lit "joy", 0.8, 0.7)%Q
  else if any_in (map lit ["sad"; "upset"; "down"; "depressed"]%string) text_lower
  then (lit "sadness", 0.2, 0.7)%Q
  else if any_in (map lit ["angry"; "mad"; "furious"; "annoyed"]%string) text_lower
  then (lit "anger", 0.1, 0.7)%Q
  else if any_in (map lit ["worried"; "anxious"; "stressed"; "nervous"]%string) text_lower
  then (lit "fear", 0.3, 0.7)%Q
  else (lit "neutral", 0.5, 0.6)%Q.

(** [POST /api/chat].  A reply that is not a string makes
    [analyze_emotion] raise, which the handler turns into status 500. *)
Definition chat (chat_request : SimpleMain.ChatRequest) : Py GroqEngine.t HTTPAnswer :=
  start_time ← PyM.observe (time_time env);
  ai_response ←
    call_groq (SimpleMain.message chat_request)
      (match SimpleMain.conversation_id chat_request with
       | Some (c :: cs) => c :: cs
       | _ => lit "default"
       end);
  match ai_response with
  | GroqEngine.Text ai_response =>
      let '(emotion, sentiment, confidence) := analyze_emotion ai_response in
      end_time ← PyM.observe (time_time env);
      now ← PyM.observe (datetime_now env);
      mret (Ok200 {| SimpleMain.response := ai_response;
                     SimpleMain.emotion := emotion;
                     SimpleMain.sentiment := sentiment;
                     SimpleMain.confidence := confidence;
                     SimpleMain.response_time := end_time - start_time;
                     SimpleMain.timestamp := now |})
  | GroqEngine.Stream _ => mret Error500
  end.

End WithEnv.
End Main.

(** * Properties *)

(** ** Vocabulary *)

(** The characters that [detect_topic] takes for arithmetic operators. *)
Definition operator_chars : pystr := lit "+-*/=^%".

(** An environment in which the provider is down: the clock advances by
    one second per reading, every draw is 0 and every provider call
    raises. *)
Definition quiet_env : Env := {|
  time_time := fun n => inject_Z (Z.of_nat n);
  datetime_now := fun n => str_of_N (N.of_nat n);
  random_draw := fun _ => 0;
  groq_complete := fun _ _ => None;
  groq_stream := fun _ _ => None
|}.

(** The two accumulators of the classifier and the value of its
    secondary lexicon, as functions of the text. *)
Definition positive_score `{PyRuntime} (text : pystr) : Z :=
  (EmotionClassifier.keyword_score 2 EmotionClassifier.joy_words (lower text) +
   EmotionClassifier.keyword_score 1 EmotionClassifier.surprise_words (lower text))%Z.

Definition negative_score `{PyRuntime} (text : pystr) : Z :=
  (EmotionClassifier.keyword_score 2 EmotionClassifier.sad_words (lower text) +
   EmotionClassifier.keyword_score 2 EmotionClassifier.anger_words (lower text) +
   EmotionClassifier.keyword_score 2 EmotionClassifier.fear_words (lower text))%Z.

Definition lexicon_sentiment `{PyRuntime} (text : pystr) : Q :=
  let pos_count := count_in EmotionClassifier.positive_indicators (lower text) in
  let neg_count := count_in EmotionClassifier.negative_indicators (lower text) in
  if (neg_count <? pos_count)%Z then 0.3
  else if (pos_count <? neg_count)%Z then - 0.3
  else 0.0.

(** The sentiment as the specification words it: the larger accumulator
    gives the sign and the capped magnitude, and the secondary lexicon
    is consulted only when both accumulators are zero. *)
Definition sentiment_as_specified (pos neg : Z) (lexicon : Q) : Q :=
  if (neg <? pos)%Z then py_min 0.8 (inject_Z pos / 10)
  else if (pos <? neg)%Z then - py_min 0.8 (inject_Z neg / 10)
  else if (pos =? 0)%Z && (neg =? 0)%Z then lexicon
  else 0.0.

(** The score table of a text: the five emotions in the order of the
    [scores] dict, each with its keyword score. *)
Definition emotion_scores `{PyRuntime} (text : pystr) : list (pystr * Z) :=
  EmotionClassifier.scores_of (lower text).

(** A request time [ts] lies within the window at time [now] when it is
    later than [now - window]: the test under which [can_make_request]
    keeps it. *)
Definition in_window (now : Q) (window : Z) (ts : Q) : bool :=
  Qltb (now - inject_Z window) ts.

(** The number of recorded request times within the window at [now]. *)
Definition window_count (now : Q) (rl : RateLimiter.t) : Z :=
  Z.of_nat (length (List.filter (in_window now (RateLimiter.time_window rl))
                                (RateLimiter.requests rl))).

(** Request times in the order of a clock that never runs backwards. *)
Definition chronological (reqs : list Q) : Prop :=
  ∀ i j a b, i ≤ j → reqs !! i = Some a → reqs !! j = Some b → (a <= b)%Q.

Definition clock_monotone (env : Env) : Prop :=
  ∀ i j, i ≤ j → (time_time env i <= time_time env j)%Q.

(** The value returned by a computation, its final state and the number
    of observations it leaves behind. *)
Definition outcome {St A} (r : result A * St * nat) : result A := r.1.1.
Definition final {St A} (r : result A * St * nat) : St := r.1.2.
Definition observed {St A} (r : result A * St * nat) : nat := r.2.

(** Three engines used as examples: one whose quota of a single request
    is used up by a request made at time 5, one with the same quota and
    no request yet, and one configured with a quota of zero. *)
Definition busy_engine : GroqEngine.t := {|
  GroqEngine.rate_limiter :=
    {| RateLimiter.max_requests := 1; RateLimiter.time_window := 60;
       RateLimiter.requests := [5%Q] |};
  GroqEngine.model := lit "llama-3.1-8b-instant";
  GroqEngine.conversation_history := ∅
|}.

Definition idle_engine : GroqEngine.t :=
  GroqEngine.init 1 (lit "llama-3.1-8b-instant").

Definition zero_quota_engine : GroqEngine.t :=
  GroqEngine.init 0 (lit "llama-3.1-8b-instant").

(** The engine as [main.py] creates it (30 requests per minute). *)
Definition default_engine : GroqEngine.t :=
  GroqEngine.init 30 (lit "llama-3.1-8b-instant").

(** The provider raises on the request [messages] made as the [k]-th
    observation of the environment. *)
Definition provider_raises (env : Env) (stream : bool) (k : nat)
    (messages : list ChatMessage) : Prop :=
  if stream then groq_stream env k messages = None
  else groq_complete env k messages = None.

(** One call of [update_from_message], and a sequence of such calls
    made by one process, in order. *)
Record Update := {
  upd_user : pystr;
  upd_message : pystr;
  upd_emotion : option EmotionDict
}.

Fixpoint run_updates `{PyRuntime} (env : Env) (us : list Update)
    (m : UserMemory.t) (n : nat) : UserMemory.t * nat :=
  match us with
  | [] => (m, n)
  | u :: us' =>
      run_updates env us'
        (final (UserMemory.update_from_message env (upd_user u) (upd_message u)
                  (upd_emotion u) m n))
        (observed (UserMemory.update_from_message env (upd_user u) (upd_message u)
                     (upd_emotion u) m n))
  end.

(** The messages that a user sent in a sequence of updates. *)
Definition messages_of (uid : pystr) (us : list Update) : list pystr :=
  upd_message <$> List.filter (λ u, bool_decide (upd_user u = uid)) us.

(** The traits that the profile documents as ranging over [0, 1]. *)
Definition unit_interval (x : Q) : Prop := (0 <= x)%Q ∧ (x <= 1)%Q.

Definition traits_bounded (p : UserMemory.Profile) : Prop :=
  unit_interval (UserMemory.formality (UserMemory.personality p)) ∧
  unit_interval (UserMemory.verbosity (UserMemory.personality p)) ∧
  unit_interval (UserMemory.emoji_usage (UserMemory.personality p)) ∧
  unit_interval (UserMemory.humor_preference (UserMemory.personality p)) ∧
  unit_interval (UserMemory.question_frequency (UserMemory.communication_patterns p)).

(** The calls that reach the engine, and a sequence of them.  A caller
    that receives an exception goes on with the engine as the call left
    it. *)
Inductive EngineCall :=
| CallGenerate (message conversation_id : pystr) (context : list ChatMessage)
    (user_emotion : option EmotionDict) (stream : bool)
| CallStream (message conversation_id : pystr) (context : list ChatMessage)
    (user_emotion : option EmotionDict)
| CallClear (conversation_id : pystr)
| CallIsAvailable
| CallWait.

Definition run_call `{PyRuntime} (env : Env) (c : EngineCall) (e : GroqEngine.t) (n : nat)
    : GroqEngine.t * nat :=
  match c with
  | CallGenerate message cid context user_emotion stream =>
      let r := GroqEngine.generate_response env message cid context user_emotion stream e n in
      (final r, observed r)
  | CallStream message cid context user_emotion =>
      let r := GroqEngine.stream_response env message cid context user_emotion e n in
      (final r, observed r)
  | CallClear cid =>
      let r := GroqEngine.clear_conversation cid e n in (final r, observed r)
  | CallIsAvailable =>
      let r := GroqEngine.is_available env e n in (final r, observed r)
  | CallWait =>
      let r := GroqEngine.wait_for_rate_limit env e n in (final r, observed r)
  end.

Fixpoint run_calls `{PyRuntime} (env : Env) (cs : list EngineCall)
    (e : GroqEngine.t) (n : nat) : GroqEngine.t * nat :=
  match cs with
  | [] => (e, n)
  | c :: cs' => run_calls env cs' (run_call env c e n).1 (run_call env c e n).2
  end.

(** What the capacities of the two buffers of a profile require of the
    profile of user [uid] after the updates [us]: at most 100 history
    entries, which are the most recent messages of that user in order,
    and at most 50 emotion readings. *)
Definition buffers_bounded (us : list Update) (uid : pystr) (p : UserMemory.Profile)
    : Prop :=
  length (UserMemory.conversation_history p) ≤ 100 ∧
  UserMemory.he_message <$> UserMemory.conversation_history p
    = last_n 100 (messages_of uid us) ∧
  length (UserMemory.emotion_history (UserMemory.emotional_profile p)) ≤ 50.

(** Every conversation of the engine holds at most 20 exchanges. *)
Definition exchanges_bounded (e : GroqEngine.t) : Prop :=
  map_Forall (λ _ h, length h ≤ 20) (GroqEngine.conversation_history e).

(** The state of the buffers with respect to the updates made so far:
    a stored profile is within its capacities, and a user without a
    stored profile has sent nothing. *)
Definition store_buffers (us : list Update) (m : UserMemory.t) : Prop :=
  ∀ uid,
    match UserMemory.disk m !! uid with
    | Some p => buffers_bounded us uid p
    | None => messages_of uid us = []
    end.

(** How a call may leave the history of the engine [e]: as it was, or
    with one exchange appended to a conversation and the conversation
    truncated. *)
Definition history_step (e e' : GroqEngine.t) : Prop :=
  GroqEngine.conversation_history e' = GroqEngine.conversation_history e ∨
  ∃ cid x,
    GroqEngine.conversation_history e' =
    <[cid := keep_last 20 (default [] (GroqEngine.conversation_history e !! cid) ++ [x])]>
      (GroqEngine.conversation_history e).

(** A computation that returns normally and leaves the object as it is:
    it may only observe the environment. *)
Definition keeps_state {St A} (c : Py St A) : Prop :=
  ∀ s n, ∃ a n', c s n = (Ret a, s, n').




(** The request times of a limiter were all read from the clock, among
    its first [n] readings, and stand in chronological order. *)
Definition recorded (env : Env) (n : nat) (rl : RateLimiter.t) : Prop :=
  chronological (RateLimiter.requests rl) ∧
  ∀ x, x ∈ RateLimiter.requests rl → ∃ i, i < n ∧ x = time_time env i.

(** A computation on the engine that keeps the request times so. *)
Definition keeps_recorded {A} (env : Env) (c : Py GroqEngine.t A) : Prop :=
  ∀ e n,
    recorded env n (GroqEngine.rate_limiter e) →
    n ≤ observed (c e n) ∧
    recorded env (observed (c e n)) (GroqEngine.rate_limiter (final (c e n))).

(** From the [n]-th reading of the clock on, the recorded request times
    that lie within the window are at most the quota ([within_quota]),
    resp. leave a slot of it free ([has_room]).  The reading [k] with
    [n ≤ S k] is the last one taken or a later one. *)
Definition within_quota (env : Env) (n : nat) (rl : RateLimiter.t) : Prop :=
  recorded env n rl ∧
  ∀ k, n ≤ S k →
    (window_count (time_time env k) rl ≤ RateLimiter.max_requests rl)%Z.

Definition has_room (env : Env) (n : nat) (rl : RateLimiter.t) : Prop :=
  recorded env n rl ∧
  ∀ k, n ≤ S k →
    (window_count (time_time env k) rl < RateLimiter.max_requests rl)%Z.

(** A computation on an engine with a quota of at least one that keeps
    the request times within the quota and the quota as configured. *)
Definition keeps_quota {A} (env : Env) (c : Py GroqEngine.t A) : Prop :=
  ∀ e n,
    (1 ≤ RateLimiter.max_requests (GroqEngine.rate_limiter e))%Z →
    within_quota env n (GroqEngine.rate_limiter e) →
    n ≤ observed (c e n) ∧
    RateLimiter.max_requests (GroqEngine.rate_limiter (final (c e n))) =
      RateLimiter.max_requests (GroqEngine.rate_limiter e) ∧
    within_quota env (observed (c e n)) (GroqEngine.rate_limiter (final (c e n))).

(** Three requests in a row to an engine with a quota of two, and a
    look at the wait. *)
Definition three_requests : list EngineCall :=
  [ CallGenerate (lit "hello") (lit "c1") [] None false;
    CallStream (lit "how are you") (lit "c1") [] None;
    CallIsAvailable;
    CallGenerate (lit "bye") (lit "c2") [] None false;
    CallWait ].

(** An environment like [quiet_env] in which the provider answers every
    request with ["Sure."]. *)
Definition answering_env : Env := {|
  time_time := fun n => inject_Z (Z.of_nat n);
  datetime_now := fun n => str_of_N (N.of_nat n);
  random_draw := fun _ => 0;
  groq_complete := fun _ _ => Some (lit "Sure.");
  groq_stream := fun _ _ => Some ([Some (lit "Sure"); None; Some (lit ".")], true)
|}.

(** The two prompt messages that replay an exchange. *)
Definition replayed (x : GroqEngine.Exchange) : list ChatMessage :=
  [ {| role := lit "user"; content := GroqEngine.ex_user x |};
    {| role := lit "assistant"; content := GroqEngine.ex_assistant x |} ].



(** The sentiments of the last 20 emotion readings of a profile, and
    what the baseline is with respect to them: their mean, or zero when
    there is none. *)
Definition recent_sentiments (p : UserMemory.Profile) : list Q :=
  map UserMemory.ee_sentiment
    (last_n 20 (UserMemory.emotion_history (UserMemory.emotional_profile p))).

Definition baseline_is_mean (p : UserMemory.Profile) : Prop :=
  match recent_sentiments p with
  | [] => (UserMemory.baseline_sentiment (UserMemory.emotional_profile p) == 0)%Q
  | _ :: _ =>
      (UserMemory.baseline_sentiment (UserMemory.emotional_profile p) ==
       py_fsum (recent_sentiments p) /
       inject_Z (Z.of_nat (length (recent_sentiments p))))%Q
  end.

(** The personal facts of a profile pass the checks under which
    [_extract_facts] stores them. *)
Definition personal_valid (x : UserMemory.Personal) : Prop :=
  (∀ a, UserMemory.age x = Some a → (5 ≤ a ≤ 120)%Z) ∧
  (∀ l, UserMemory.location x = Some l → length (split_ws l) ≤ 3) ∧
  (∀ j, UserMemory.job x = Some j → length (split_ws j) ≤ 4).

Definition facts_valid (p : UserMemory.Profile) : Prop :=
  personal_valid (UserMemory.personal (UserMemory.memory_facts p)).

(** The parts of a profile that no update writes are those of a new
    profile. *)
Definition never_learned (p : UserMemory.Profile) : Prop :=
  UserMemory.decision_making p =
    {| UserMemory.risk_tolerance := 0.5; UserMemory.decision_speed := 0.5;
       UserMemory.analytical_vs_intuitive := 0.5; UserMemory.past_decisions := [] |} ∧
  UserMemory.learning_style p =
    {| UserMemory.visual := 0.33; UserMemory.auditory := 0.33;
       UserMemory.kinesthetic := 0.34;
       UserMemory.preferred_explanation_style := lit "examples" |} ∧
  UserMemory.preferences p =
    {| UserMemory.favorite_topics := []; UserMemory.interests := [];
       UserMemory.learning_goals := []; UserMemory.time_zone := lit "UTC";
       UserMemory.language := lit "en" |} ∧
  UserMemory.vocabulary_level (UserMemory.personality p) = lit "medium" ∧
  UserMemory.communication_style (UserMemory.personality p) = lit "neutral" ∧
  UserMemory.humor_preference (UserMemory.personality p) = 0.5%Q ∧
  UserMemory.stress_level (UserMemory.emotional_profile p) = 0.0%Q.




(** A computation that returns a text that is not empty and leaves the
    object as it is. *)
Definition answers {St} (c : Py St pystr) : Prop :=
  ∀ s n, ∃ a n', c s n = (Ret a, s, n') ∧ a ≠ [].






(** The profile [p] with the name of the user set to [name]. *)
Definition with_name (name : pystr) (p : UserMemory.Profile) : UserMemory.Profile :=
  UserMemory.set_memory_facts
    (UserMemory.set_personal
       {| UserMemory.name := Some name;
          UserMemory.age := UserMemory.age (UserMemory.personal (UserMemory.memory_facts p));
          UserMemory.location :=
            UserMemory.location (UserMemory.personal (UserMemory.memory_facts p));
          UserMemory.job := UserMemory.job (UserMemory.personal (UserMemory.memory_facts p)) |}
       (UserMemory.memory_facts p)) p.

(** ** Topic routing and the math handler *)

Lemma py_in_singleton (c : N) (s : pystr) : py_in [c] s = true ↔ c ∈ s.
Proof.
  induction s as [|d s IH]; simpl.
  - split; [discriminate | intros Hin; inversion Hin].
  - rewrite orb_true_iff, andb_true_r, N.eqb_eq, IH, elem_of_cons. tauto.
Qed.

Lemma any_in_elem (words : list pystr) (w s : pystr) :
  w ∈ words → py_in w s = true → any_in words s = true.
Proof.
  intros Hw Hin. unfold any_in. apply existsb_exists.
  exists w. split; [by apply list_elem_of_In | done].
Qed.

(** C10.  A message that holds one of the characters [+ - * / = ^ %] is
    classified as math, whatever else it holds. *)
Theorem detect_topic_operator_is_math `{PyRuntime} (message : pystr) (c : N) :
  c ∈ operator_chars → c ∈ message →
  TopicHandler.detect_topic message = lit "math".
Proof.
  intros Hop Hmsg. unfold TopicHandler.detect_topic.
  assert (any_in TopicHandler.math_operators message = true) as ->; [|done].
  apply (any_in_elem _ [c]).
  - unfold operator_chars in Hop.
    repeat (apply elem_of_cons in Hop as [-> | Hop];
            [vm_compute; set_solver |]).
    inversion Hop.
  - by apply py_in_singleton.
Qed.

(** A conversational message with a hyphen goes to math, not to the
    emotional topic its words would select. *)
Lemma detect_topic_operator_is_math_witness :
  @TopicHandler.detect_topic ascii_runtime (lit "i feel so sad - and lonely") = lit "math".
Proof.
  apply (@detect_topic_operator_is_math ascii_runtime _ 45%N);
    vm_compute; set_solver.
Defined.

(** C5.  ["2x + 5 = 15"] is classified as math, the equation solver
    finds the float 5.0, and the reply of [solve_math] states it as
    [Solution: x = 5.0]. *)
Theorem solve_linear_equation_example `{PyRuntime} :
  TopicHandler.detect_topic (lit "2x + 5 = 15") = lit "math" ∧
  MathHandler.solve_linear (lit "2x + 5 = 15") = Some 5%float ∧
  MathHandler.solve_math (lit "2x + 5 = 15") = lit "**Solution: x = 5.0**

Step by step:
1. Original equation: 2x + 5 = 15
2. Solving for x: x = 5.0

Verification: Substitute x = 5.0 back into the equation to check!" ∧
  py_in (lit "Solution: x = 5") (MathHandler.solve_math (lit "2x + 5 = 15")) = true.
Proof. split; [|split; [|split]]; vm_compute; reflexivity. Qed.

(** C6, as the code has it.  For ["What is 20% of 80?"] the percentage
    handler computes the float 16.0 and prints operands and result as
    floats: the reply opens with [**20.0% of 80.0 = 16.0**]. *)
Theorem solve_percentage_example `{PyRuntime} :
  ((20 / 100) * 80 = 16)%float ∧
  MathHandler.solve_math (lit "What is 20% of 80?") = lit "**20.0% of 80.0 = 16.0**

Calculation: (20.0 ÷ 100) × 80.0 = 16.0".
Proof. split; vm_compute; reflexivity. Qed.

(** C6, as stated, fails: the reply is not the text [20% of 80 = 16],
    and does not even contain it. *)
Lemma solve_percentage_text_counterexample :
  @MathHandler.solve_math ascii_runtime (lit "What is 20% of 80?") ≠ lit "20% of 80 = 16" ∧
  py_in (lit "20% of 80 = 16")
    (@MathHandler.solve_math ascii_runtime (lit "What is 20% of 80?")) = false.
Proof. split; [vm_compute; discriminate | vm_compute; reflexivity]. Qed.

(** ** The emotion classifier *)

Lemma fold_left_Zadd (xs : list Z) (a : Z) :
  fold_left Z.add xs a = (a + fold_left Z.add xs 0)%Z.
Proof.
  revert a. induction xs as [|x xs IH]; intros a; simpl; [lia|].
  rewrite (IH (a + x)%Z), (IH (0 + x)%Z). lia.
Qed.

Lemma keyword_score_nonneg (w : Z) (words : list pystr) (s : pystr) :
  (0 ≤ w)%Z → (0 ≤ EmotionClassifier.keyword_score w words s)%Z.
Proof.
  intros Hw. unfold EmotionClassifier.keyword_score, py_sum.
  induction words as [|x words IH]; simpl; [lia|].
  rewrite fold_left_Zadd. destruct (py_in x s); lia.
Qed.

(** [max(xs, key=...)] returns the first element whose key is maximal. *)
Lemma max_by_go_first {A} (key : A → Z) (best : A) (rest : list A) :
  ∃ i, (best :: rest) !! i = Some (EmotionClassifier.max_by_go key best rest) ∧
       (∀ x, x ∈ best :: rest →
             (key x ≤ key (EmotionClassifier.max_by_go key best rest))%Z) ∧
       (∀ j y, j < i → (best :: rest) !! j = Some y →
               (key y < key (EmotionClassifier.max_by_go key best rest))%Z).
Proof.
  revert best. induction rest as [|a rest IH]; intros best; simpl.
  - exists 0. split; [done|]. split.
    + intros x Hx. apply list_elem_of_singleton in Hx as ->. lia.
    + intros j y Hj. lia.
  - destruct (Z.ltb_spec (key best) (key a)) as [Hlt | Hge].
    + destruct (IH a) as (i & Hi & Hmax & Hbefore).
      exists (S i). split; [done|]. split.
      * intros x Hx. apply elem_of_cons in Hx as [-> | Hx]; [|by apply Hmax].
        specialize (Hmax a ltac:(left)). lia.
      * intros j y Hj Hy. destruct j as [|j]; simpl in Hy.
        -- injection Hy as <-. specialize (Hmax a ltac:(left)). lia.
        -- apply (Hbefore j); [lia | done].
    + destruct (IH best) as (i & Hi & Hmax & Hbefore).
      destruct i as [|i].
      * exists 0. simpl in Hi. split; [done|]. split; [|intros; lia].
        injection Hi as Hi. rewrite <- Hi.
        intros x Hx. apply elem_of_cons in Hx as [-> | Hx]; [lia|].
        apply elem_of_cons in Hx as [-> | Hx]; [lia|].
        rewrite Hi. apply Hmax. by right.
      * exists (S (S i)). split; [done|]. split.
        -- intros x Hx. apply elem_of_cons in Hx as [-> | Hx]; [apply Hmax; left|].
           apply elem_of_cons in Hx as [-> | Hx]; [|apply Hmax; by right].
           specialize (Hbefore 0 best ltac:(lia) eq_refl). lia.
        -- intros j y Hj Hy. destruct j as [|[|j]]; simpl in Hy.
           ++ injection Hy as <-. apply (Hbefore 0); [lia | done].
           ++ injection Hy as <-.
              specialize (Hbefore 0 best ltac:(lia) eq_refl). lia.
           ++ apply (Hbefore (S j)); [lia | done].
Qed.

Lemma emotion_scores_nonneg `{PyRuntime} (text : pystr) (kv : pystr * Z) :
  kv ∈ emotion_scores text → (0 ≤ kv.2)%Z.
Proof.
  unfold emotion_scores, EmotionClassifier.scores_of. intros Hin.
  repeat (apply elem_of_cons in Hin as [-> | Hin];
          [cbn [snd]; by apply keyword_score_nonneg |]).
  inversion Hin.
Qed.

Lemma emotion_scores_keys `{PyRuntime} (text : pystr) :
  (emotion_scores text).*1 =
  [lit "joy"; lit "sadness"; lit "anger"; lit "fear"; lit "surprise"].
Proof. reflexivity. Qed.

(** C7, as the code has it.  The classifier returns ["neutral"] when
    all scores are zero; an emotion whose score is strictly above all
    others is returned; and in general, when some score is positive, the
    result is the first emotion, in the order joy, sadness, anger, fear,
    surprise, among those that share the highest score. *)
Theorem classify_emotion_first_highest `{PyRuntime} (text : pystr) :
  ∃ e, ed_emotion (EmotionClassifier.analyze_emotion_and_context text) = Some e ∧
    ((∀ kv, kv ∈ emotion_scores text → kv.2 = 0%Z) → e = lit "neutral") ∧
    (∀ i k v, emotion_scores text !! i = Some (k, v) →
       (∀ j kv, j ≠ i → emotion_scores text !! j = Some kv → (kv.2 < v)%Z) →
       e = k) ∧
    ((∃ kv, kv ∈ emotion_scores text ∧ (0 < kv.2)%Z) →
     ∃ i v, emotion_scores text !! i = Some (e, v) ∧ (0 < v)%Z ∧
       (∀ kv, kv ∈ emotion_scores text → (kv.2 ≤ v)%Z) ∧
       (∀ j kv, j < i → emotion_scores text !! j = Some kv → (kv.2 < v)%Z)).
Proof.
  pose proof (emotion_scores_nonneg text) as Hnonneg.
  pose proof (emotion_scores_keys text) as Hkeys.
  unfold EmotionClassifier.analyze_emotion_and_context. cbv zeta. cbn [ed_emotion].
  fold (emotion_scores text).
  destruct (emotion_scores text) as [|kv0 rest] eqn:Hsc; [discriminate|].
  unfold EmotionClassifier.max_value, EmotionClassifier.max_key.
  destruct (max_by_go_first snd kv0 rest) as (i0 & Hi0 & Hmax & Hbefore).
  set (r := EmotionClassifier.max_by_go snd kv0 rest) in *.
  assert (r ∈ kv0 :: rest) as Hr by (by eapply list_elem_of_lookup_2).
  eexists. split; [reflexivity|]. split; [|split].
  - intros Hzero. rewrite (Hzero r Hr). reflexivity.
  - intros i k v Hi Hstrict.
    assert (0 < v)%Z as Hv.
    { destruct rest as [|kv1 rest']; [discriminate|].
      destruct i as [|i].
      - specialize (Hstrict 1 kv1 ltac:(lia) eq_refl).
        specialize (Hnonneg kv1 ltac:(right; left)). lia.
      - specialize (Hstrict 0 kv0 ltac:(lia) eq_refl).
        specialize (Hnonneg kv0 ltac:(left)). lia. }
    destruct (decide (i0 = i)) as [-> | Hne].
    + rewrite Hi in Hi0. injection Hi0 as Hi0. rewrite <- Hi0. cbn [fst snd].
      destruct (Z.ltb_spec 0 v); [reflexivity | lia].
    + specialize (Hstrict i0 r Hne Hi0).
      specialize (Hmax (k, v) ltac:(by eapply list_elem_of_lookup_2)).
      cbn [snd] in Hmax. lia.
  - intros (kv & Hkv & Hpos).
    specialize (Hmax kv Hkv) as Hle.
    destruct (Z.ltb_spec 0 r.2); [|lia].
    exists i0, r.2. split; [by destruct r|]. split; [assumption|]. split; assumption.
Qed.
(** C7, as stated, fails on a tie: in ["happy sad"] joy and sadness
    share the highest score 2, and the classifier answers ["joy"]. *)
Lemma classify_emotion_tie_counterexample :
  @emotion_scores ascii_runtime (lit "happy sad") =
    [(lit "joy", 2%Z); (lit "sadness", 2%Z); (lit "anger", 0%Z); (lit "fear", 0%Z);
     (lit "surprise", 0%Z)] ∧
  ed_emotion (@EmotionClassifier.analyze_emotion_and_context ascii_runtime (lit "happy sad"))
    = Some (lit "joy") ∧
  lit "joy" ≠ lit "neutral".
Proof.
  split; [|split].
  - vm_compute. reflexivity.
  - vm_compute. reflexivity.
  - vm_compute. discriminate.
Qed.

Lemma Qltb_true (a b : Q) : Qltb a b = true ↔ (a < b)%Q.
Proof.
  unfold Qltb. rewrite negb_true_iff, <- not_true_iff_false, Qle_bool_iff.
  split; [apply Qnot_le_lt | apply Qlt_not_le].
Qed.

Lemma Qltb_false (a b : Q) : Qltb a b = false ↔ (b <= a)%Q.
Proof. unfold Qltb. by rewrite negb_false_iff, Qle_bool_iff. Qed.

Lemma py_min_spec (a b : Q) :
  ((b < a)%Q ∧ py_min a b = b) ∨ ((a <= b)%Q ∧ py_min a b = a).
Proof.
  unfold py_min. destruct (Qltb b a) eqn:E.
  - left. by apply Qltb_true in E.
  - right. by apply Qltb_false in E.
Qed.

Lemma py_max_spec (a b : Q) :
  ((a < b)%Q ∧ py_max a b = b) ∨ ((b <= a)%Q ∧ py_max a b = a).
Proof.
  unfold py_max. destruct (Qltb a b) eqn:E.
  - left. by apply Qltb_true in E.
  - right. by apply Qltb_false in E.
Qed.

(** Linear arithmetic over [Q] after division by a numeral is turned
    into a product. *)
Ltac q_lra :=
  unfold Qdiv in *;
  change (/ 10)%Q with (1 # 10)%Q in *;
  lra.

Lemma capped_tenth_bounds (n : Z) :
  (0 < n)%Z →
  (0 < py_min 0.8 (inject_Z n / 10))%Q ∧
  (py_min 0.8 (inject_Z n / 10) <= 0.8)%Q ∧
  ((n ≤ 8)%Z → (py_min 0.8 (inject_Z n / 10) == inject_Z n / 10)%Q) ∧
  ((8 ≤ n)%Z → (py_min 0.8 (inject_Z n / 10) == 0.8)%Q).
Proof.
  intros Hn. rewrite Zlt_Qlt in Hn.
  assert (∀ m, (n ≤ m)%Z → (inject_Z n <= inject_Z m)%Q) as Hle
    by (intros m Hm; by rewrite <- Zle_Qle).
  assert (∀ m, (m ≤ n)%Z → (inject_Z m <= inject_Z n)%Q) as Hge
    by (intros m Hm; by rewrite <- Zle_Qle).
  specialize (Hle 8%Z). specialize (Hge 8%Z).
  change (inject_Z 0) with 0%Q in Hn. change (inject_Z 8) with 8%Q in Hle, Hge.
  generalize dependent (inject_Z n). intros q Hq Hle Hge.
  destruct (py_min_spec 0.8 (q / 10)) as [[Hlt ->] | [Hlt ->]].
  - split; [q_lra|]. split; [q_lra|]. split; [reflexivity|].
    intros H8. specialize (Hge H8). q_lra.
  - split; [q_lra|]. split; [q_lra|]. split; [|reflexivity].
    intros H8. specialize (Hle H8). q_lra.
Qed.

Lemma analyze_sentiment `{PyRuntime} (text : pystr) :
  ed_sentiment (EmotionClassifier.analyze_emotion_and_context text) =
  Some (EmotionClassifier.sentiment_of (positive_score text) (negative_score text)
          (count_in EmotionClassifier.positive_indicators (lower text))
          (count_in EmotionClassifier.negative_indicators (lower text))).
Proof.
  unfold EmotionClassifier.analyze_emotion_and_context, positive_score, negative_score.
  cbv zeta. cbn [ed_sentiment]. reflexivity.
Qed.

(** C8, as the code has it.  The sentiment has the sign of the larger
    accumulator, its magnitude is a tenth of that accumulator capped at
    0.8, and whenever the two accumulators are equal, zero or not, it is
    the value of the secondary lexicon: 0.3, -0.3 or 0.0. *)
Theorem sentiment_by_accumulators `{PyRuntime} (text : pystr) :
  ∃ s, ed_sentiment (EmotionClassifier.analyze_emotion_and_context text) = Some s ∧
    ((negative_score text < positive_score text)%Z →
       s = py_min 0.8 (inject_Z (positive_score text) / 10) ∧
       (0 < s)%Q ∧ (s <= 0.8)%Q ∧
       ((positive_score text ≤ 8)%Z → (s == inject_Z (positive_score text) / 10)%Q) ∧
       ((8 ≤ positive_score text)%Z → (s == 0.8)%Q)) ∧
    ((positive_score text < negative_score text)%Z →
       s = (- py_min 0.8 (inject_Z (negative_score text) / 10))%Q ∧
       (s < 0)%Q ∧ (- 0.8 <= s)%Q ∧
       ((negative_score text ≤ 8)%Z → (s == - (inject_Z (negative_score text) / 10))%Q) ∧
       ((8 ≤ negative_score text)%Z → (s == - 0.8)%Q)) ∧
    (positive_score text = negative_score text → s = lexicon_sentiment text).
Proof.
  assert (0 ≤ positive_score text)%Z as Hpos.
  { unfold positive_score.
    pose proof (keyword_score_nonneg 2 EmotionClassifier.joy_words (lower text)).
    pose proof (keyword_score_nonneg 1 EmotionClassifier.surprise_words (lower text)).
    lia. }
  assert (0 ≤ negative_score text)%Z as Hneg.
  { unfold negative_score.
    pose proof (keyword_score_nonneg 2 EmotionClassifier.sad_words (lower text)).
    pose proof (keyword_score_nonneg 2 EmotionClassifier.anger_words (lower text)).
    pose proof (keyword_score_nonneg 2 EmotionClassifier.fear_words (lower text)).
    lia. }
  rewrite analyze_sentiment.
  eexists. split; [reflexivity|].
  unfold EmotionClassifier.sentiment_of, lexicon_sentiment. cbv zeta.
  generalize dependent (positive_score text). intros pos Hpos.
  generalize dependent (negative_score text). intros neg Hneg.
  generalize (count_in EmotionClassifier.positive_indicators (lower text)).
  generalize (count_in EmotionClassifier.negative_indicators (lower text)).
  intros nc pc.
  destruct (Z.ltb_spec neg pos) as [Hlt | Hge].
  - split; [|split]; [|intros; lia|intros; lia]. intros _.
    destruct (capped_tenth_bounds pos) as (? & ? & ? & ?); [lia|].
    auto.
  - destruct (Z.ltb_spec pos neg) as [Hlt | Hge'].
    + split; [|split]; [intros; lia| |intros; lia]. intros _.
      destruct (capped_tenth_bounds neg) as (H0 & H1 & H2 & H3); [lia|].
      split; [reflexivity|]. split; [lra|]. split; [lra|].
      split; intros Hb; [rewrite (H2 Hb) | rewrite (H3 Hb)]; reflexivity.
    + split; [|split]; [intros; lia|intros; lia|]. intros _.
      reflexivity.
Qed.

(** C8, as stated, fails on a tie of non-zero accumulators: in
    ["happy sad good"] both accumulators are 2 and the secondary lexicon
    is consulted all the same, giving 0.3 where the specification's
    wording gives 0.0. *)
Lemma sentiment_tie_counterexample :
  @positive_score ascii_runtime (lit "happy sad good") = 2%Z ∧
  @negative_score ascii_runtime (lit "happy sad good") = 2%Z ∧
  ed_sentiment (@EmotionClassifier.analyze_emotion_and_context ascii_runtime
                  (lit "happy sad good")) = Some 0.3%Q ∧
  sentiment_as_specified 2 2 (@lexicon_sentiment ascii_runtime (lit "happy sad good"))
    = 0.0%Q ∧
  ¬ (0.3 == 0.0)%Q.
Proof.
  split; [|split; [|split; [|split]]].
  - vm_compute. reflexivity.
  - vm_compute. reflexivity.
  - vm_compute. reflexivity.
  - vm_compute. reflexivity.
  - intros Heq. discriminate Heq.
Qed.

(** ** The sliding-window limiter *)

Lemma evict_drop (bound : Q) (reqs : list Q) :
  ∃ k, RateLimiter.evict bound reqs = drop k reqs.
Proof.
  induction reqs as [|r rest [k Hk]]; simpl.
  - by exists 0.
  - destruct (Qle_bool r bound); [by exists (S k) | by exists 0].
Qed.

Lemma evict_head (bound : Q) (reqs : list Q) (h : Q) (t : list Q) :
  RateLimiter.evict bound reqs = h :: t → Qltb bound h = true.
Proof.
  induction reqs as [|r rest IH]; simpl; [discriminate|].
  destruct (Qle_bool r bound) eqn:E; [done|].
  intros [= -> ->]. unfold Qltb. by rewrite E.
Qed.

Lemma evict_filter (now : Q) (w : Z) (reqs : list Q) :
  List.filter (in_window now w) (RateLimiter.evict (now - inject_Z w) reqs) =
  List.filter (in_window now w) reqs.
Proof.
  induction reqs as [|r rest IH]; simpl; [done|].
  destruct (Qle_bool r (now - inject_Z w)) eqn:E.
  - assert (in_window now w r = false) as ->; [|done].
    unfold in_window, Qltb. by rewrite E.
  - done.
Qed.

Lemma evict_in_window (bound : Q) (reqs : list Q) (x : Q) :
  chronological reqs → x ∈ RateLimiter.evict bound reqs → Qltb bound x = true.
Proof.
  intros Hsorted Hx.
  destruct (evict_drop bound reqs) as [k Hk].
  destruct (RateLimiter.evict bound reqs) as [|h t] eqn:E; [inversion Hx|].
  apply evict_head in E.
  apply list_elem_of_lookup in Hx as [j Hj].
  assert (reqs !! (k + 0) = Some h) as Hh by (by rewrite <- lookup_drop, <- Hk).
  assert (reqs !! (k + j) = Some x) as Hxj by (by rewrite <- lookup_drop, <- Hk).
  specialize (Hsorted (k + 0) (k + j) h x ltac:(lia) Hh Hxj).
  apply Qltb_true in E. apply Qltb_true. lra.
Qed.

Lemma filter_all {A} (f : A → bool) (l : list A) :
  (∀ x, x ∈ l → f x = true) → List.filter f l = l.
Proof.
  induction l as [|a l IH]; intros Hall; simpl; [done|].
  rewrite (Hall a) by left. f_equal. apply IH. intros x Hx. apply Hall. by right.
Qed.

(** Under a clock that never runs backwards the check keeps exactly the
    request times within the window. *)
Lemma can_make_request_chronological (now : Q) (rl : RateLimiter.t) :
  chronological (RateLimiter.requests rl) →
  (RateLimiter.can_make_request now rl).1 =
  (window_count now rl <? RateLimiter.max_requests rl)%Z.
Proof.
  intros Hsorted. unfold RateLimiter.can_make_request, window_count. cbn [fst].
  rewrite <- evict_filter, filter_all; [done|].
  intros x Hx. by eapply evict_in_window.
Qed.

Lemma can_make_request_saturated (now : Q) (rl : RateLimiter.t) :
  (RateLimiter.max_requests rl ≤ window_count now rl)%Z →
  (RateLimiter.can_make_request now rl).1 = false.
Proof.
  intros Hsat. unfold RateLimiter.can_make_request. cbn [fst].
  apply Z.ltb_ge. unfold window_count in Hsat. rewrite <- evict_filter in Hsat.
  pose proof (filter_length_le (in_window now (RateLimiter.time_window rl))
                (RateLimiter.evict (now - inject_Z (RateLimiter.time_window rl))
                   (RateLimiter.requests rl))).
  lia.
Qed.

(** [wait_for_rate_limit] in closed form: [t1] is the reading taken by
    the check, [t2] the reading from which the wait is computed. *)
Lemma wait_for_rate_limit_run (env : Env) (e : GroqEngine.t) (n : nat) :
  GroqEngine.wait_for_rate_limit env e n =
  let checked := RateLimiter.can_make_request (time_time env n) (GroqEngine.rate_limiter e) in
  let e' := GroqEngine.set_rate_limiter checked.2 e in
  if checked.1 then (Ret 0%Q, e', S n)
  else match RateLimiter.requests checked.2 with
       | oldest :: _ =>
           (Ret (py_max 0 (oldest + inject_Z (RateLimiter.time_window checked.2)
                           - time_time env (S n))), e', S (S n))
       | [] => (Ret 0%Q, e', S n)
       end.
Proof.
  unfold GroqEngine.wait_for_rate_limit, GroqEngine.can_make_request.
  unfold mbind, py_mbind, mret, py_mret, PyM.bind, PyM.ret, PyM.observe, PyM.get, PyM.put.
  cbv zeta.
  destruct (RateLimiter.can_make_request (time_time env n) (GroqEngine.rate_limiter e))
    as [ok rl] eqn:Hcheck.
  cbn [fst snd]. destruct ok; [reflexivity|].
  cbn [GroqEngine.rate_limiter GroqEngine.set_rate_limiter].
  destruct (RateLimiter.requests rl); reflexivity.
Qed.

Lemma evict_kept (bound h : Q) (t : list Q) :
  Qltb bound h = true → RateLimiter.evict bound (h :: t) = h :: t.
Proof.
  intros Hh. simpl. unfold Qltb in Hh. apply negb_true_iff in Hh. by rewrite Hh.
Qed.

Lemma in_window_earlier (t t' : Q) (w : Z) (ts : Q) :
  (t <= t')%Q → in_window t' w ts = true → in_window t w ts = true.
Proof. unfold in_window. rewrite !Qltb_true. lra. Qed.

(** A second check made while the oldest retained request time is still
    within the window evicts nothing and refuses again. *)
Lemma can_make_request_again (now now' : Q) (rl : RateLimiter.t) (oldest : Q)
    (rest : list Q) :
  RateLimiter.requests (RateLimiter.can_make_request now rl).2 = oldest :: rest →
  (RateLimiter.can_make_request now rl).1 = false →
  in_window now' (RateLimiter.time_window rl) oldest = true →
  RateLimiter.can_make_request now' (RateLimiter.can_make_request now rl).2 =
  (false, (RateLimiter.can_make_request now rl).2).
Proof.
  destruct rl as [quota w reqs]. unfold RateLimiter.can_make_request.
  cbn [fst snd RateLimiter.requests RateLimiter.time_window RateLimiter.max_requests].
  intros Hkept Hrefused Hin. rewrite Hkept in *.
  by rewrite (evict_kept _ _ _ Hin), Hrefused.
Qed.

Section RateLimit.
Context (env : Env) (e : GroqEngine.t) (n : nat).

Local Abbreviation rl := (GroqEngine.rate_limiter e).
Local Abbreviation quota := (RateLimiter.max_requests (GroqEngine.rate_limiter e)).
Local Abbreviation w := (RateLimiter.time_window (GroqEngine.rate_limiter e)).
Local Abbreviation t1 := (time_time env n).
Local Abbreviation t2 := (time_time env (S n)).
Local Abbreviation t4 := (time_time env (S (S (S n)))).
Local Abbreviation checked := (RateLimiter.can_make_request (time_time env n)
                             (GroqEngine.rate_limiter e)).
Local Abbreviation first_wait := (GroqEngine.wait_for_rate_limit env e n).

(** C2, as the code has it.  [t1] is the clock reading taken by the
    check inside [wait_for_rate_limit], [t2] the next reading, from
    which the wait is computed.
    - A check only evicts: the request times it leaves are a suffix of
      those it found.
    - With at least [max_requests] request times within the window,
      the check answers false.
    - If moreover [max_requests] is at least 1, the wait is
      [max(0, oldest + window - t2)] for the oldest request time
      retained; it is that difference itself, and positive, as long as
      the oldest request time is still within the window at [t2]; and
      a second call made while this remains so returns a smaller
      positive wait when the clock has advanced.
    - With fewer than [max_requests] request times within the window
      the wait is zero. *)
Theorem rate_limit_check_and_wait :
  (∃ k, RateLimiter.requests checked.2 = drop k (RateLimiter.requests rl)) ∧
  ((quota ≤ window_count t1 rl)%Z → checked.1 = false) ∧
  ((1 ≤ quota)%Z → (quota ≤ window_count t1 rl)%Z →
   ∃ oldest rest,
     RateLimiter.requests checked.2 = oldest :: rest ∧
     in_window t1 w oldest = true ∧
     outcome first_wait = Ret (py_max 0 (oldest + inject_Z w - t2)) ∧
     (in_window t2 w oldest = true →
      py_max 0 (oldest + inject_Z w - t2) = (oldest + inject_Z w - t2)%Q ∧
      (0 < oldest + inject_Z w - t2)%Q) ∧
     (clock_monotone env → in_window t4 w oldest = true →
      outcome (GroqEngine.wait_for_rate_limit env (final first_wait) (observed first_wait))
        = Ret (oldest + inject_Z w - t4)%Q ∧
      (0 < oldest + inject_Z w - t4)%Q ∧
      ((t2 < t4)%Q → (oldest + inject_Z w - t4 < oldest + inject_Z w - t2)%Q))) ∧
  (chronological (RateLimiter.requests rl) → (window_count t1 rl < quota)%Z →
   outcome first_wait = Ret 0%Q).
Proof.
  split; [|split; [|split]].
  - apply evict_drop.
  - apply can_make_request_saturated.
  - intros Hquota Hsat.
    pose proof (can_make_request_saturated _ _ Hsat) as Hrefused.
    assert (quota ≤ Z.of_nat (length (RateLimiter.requests checked.2)))%Z as Hlen.
    { unfold RateLimiter.can_make_request in Hrefused |- *. cbn [fst snd] in *.
      cbn [RateLimiter.requests]. by apply Z.ltb_ge in Hrefused. }
    destruct (RateLimiter.requests checked.2) as [|oldest rest] eqn:Hkept;
      [simpl in Hlen; lia|].
    exists oldest, rest. split; [done|].
    assert (in_window t1 w oldest = true) as Hin1.
    { unfold RateLimiter.can_make_request in Hkept. cbn [snd RateLimiter.requests] in Hkept.
      by apply evict_head in Hkept. }
    split; [done|].
    assert (first_wait =
            (Ret (py_max 0 (oldest + inject_Z w - t2)),
             GroqEngine.set_rate_limiter checked.2 e, S (S n))) as Hrun.
    { rewrite wait_for_rate_limit_run. cbv zeta. rewrite Hrefused, Hkept. done. }
    split; [by rewrite Hrun|].
    assert (∀ t, in_window t w oldest = true →
                 py_max 0 (oldest + inject_Z w - t) = (oldest + inject_Z w - t)%Q ∧
                 (0 < oldest + inject_Z w - t)%Q) as Hpositive.
    { intros t Hin. unfold in_window in Hin. apply Qltb_true in Hin.
      assert (0 < oldest + inject_Z w - t)%Q as Hpos by lra.
      split; [|done]. unfold py_max. by rewrite (proj2 (Qltb_true _ _) Hpos). }
    split; [apply Hpositive|].
    intros Hmono Hin4.
    rewrite Hrun. unfold final, observed. cbn [fst snd].
    rewrite wait_for_rate_limit_run. cbv zeta.
    cbn [GroqEngine.rate_limiter GroqEngine.set_rate_limiter].
    assert (in_window (time_time env (S (S n))) w oldest = true) as Hin3.
    { eapply in_window_earlier; [|exact Hin4]. apply Hmono. lia. }
    rewrite (can_make_request_again _ _ _ _ _ Hkept Hrefused Hin3).
    cbn [fst snd]. rewrite Hkept. unfold outcome. cbn [fst].
    change (RateLimiter.time_window checked.2) with w.
    destruct (Hpositive _ Hin4) as [-> Hpos4].
    split; [done|]. split; [done|]. intros Hlt. lra.
  - intros Hsorted Hfree. unfold outcome.
    rewrite wait_for_rate_limit_run. cbv zeta.
    rewrite can_make_request_chronological by done.
    by rewrite (proj2 (Z.ltb_lt _ _) Hfree).
Qed.

End RateLimit.

Lemma quiet_env_monotone : clock_monotone quiet_env.
Proof.
  intros i j Hij. unfold quiet_env. cbn [time_time].
  rewrite <- Zle_Qle. lia.
Qed.

(** The theorem at work: the quota of [busy_engine] is used up by the
    request made at time 5, so at readings 10 and 11 the wait is
    5 + 60 - 11, and a second call, which reads the clock at 12 and 13,
    waits 5 + 60 - 13; [idle_engine] does not wait. *)
Lemma rate_limit_check_and_wait_witness :
  outcome (GroqEngine.wait_for_rate_limit quiet_env busy_engine 10)
    = Ret (5 + inject_Z 60 - inject_Z 11)%Q ∧
  (0 < 5 + inject_Z 60 - inject_Z 11)%Q ∧
  outcome (GroqEngine.wait_for_rate_limit quiet_env
             (final (GroqEngine.wait_for_rate_limit quiet_env busy_engine 10))
             (observed (GroqEngine.wait_for_rate_limit quiet_env busy_engine 10)))
    = Ret (5 + inject_Z 60 - inject_Z 13)%Q ∧
  (5 + inject_Z 60 - inject_Z 13 < 5 + inject_Z 60 - inject_Z 11)%Q ∧
  outcome (GroqEngine.wait_for_rate_limit quiet_env idle_engine 10) = Ret 0%Q.
Proof.
  destruct (rate_limit_check_and_wait quiet_env busy_engine 10)
    as (_ & _ & Hbusy & _).
  destruct Hbusy as (oldest & rest & Hkept & _ & Hout & Hpos & Hsecond).
  { vm_compute. discriminate. }
  { vm_compute. discriminate. }
  vm_compute in Hkept. injection Hkept as <- <-.
  destruct Hpos as [Hmax Hpos]; [vm_compute; reflexivity|].
  destruct Hsecond as (Hout2 & Hpos2 & Hless);
    [apply quiet_env_monotone | vm_compute; reflexivity |].
  rewrite Hmax in Hout.
  split; [exact Hout|]. split; [exact Hpos|]. split; [exact Hout2|].
  split; [apply Hless; vm_compute; reflexivity|].
  destruct (rate_limit_check_and_wait quiet_env idle_engine 10) as (_ & _ & _ & Hidle).
  apply Hidle.
  - intros i j a b _ Hi. vm_compute in Hi. discriminate.
  - vm_compute. reflexivity.
Defined.

(** C2, as stated, fails for a limiter configured with a quota of zero:
    zero request times within the window are at least [max_requests],
    the check answers false, and the wait is 0, not a positive time. *)
Lemma wait_zero_quota_counterexample :
  (RateLimiter.max_requests (GroqEngine.rate_limiter zero_quota_engine)
   ≤ window_count (time_time quiet_env 0) (GroqEngine.rate_limiter zero_quota_engine))%Z ∧
  (RateLimiter.can_make_request (time_time quiet_env 0)
     (GroqEngine.rate_limiter zero_quota_engine)).1 = false ∧
  outcome (GroqEngine.wait_for_rate_limit quiet_env zero_quota_engine 0) = Ret 0%Q ∧
  ¬ (0 < 0)%Q.
Proof.
  split; [|split; [|split]].
  - vm_compute. discriminate.
  - vm_compute. reflexivity.
  - vm_compute. reflexivity.
  - intros Hlt. vm_compute in Hlt. discriminate.
Qed.

(** ** The provider fallback *)

(** Unfolding of the operations of [Py]. *)
Ltac py_run :=
  unfold mbind, py_mbind, mret, py_mret, PyM.bind, PyM.ret, PyM.observe, PyM.get,
    PyM.put, PyM.modify, PyM.raise, PyM.try_except in *.

Lemma choice_elem {A} (r : nat) (xs : list A) (d : A) :
  xs ≠ [] → choice r xs d ∈ xs.
Proof.
  intros Hne. unfold choice. apply list_elem_of_In, nth_In.
  apply Nat.mod_upper_bound. by destruct xs.
Qed.

(** Every fallback table holds three or four templates, none empty. *)
Lemma fallback_table_templates `{PyRuntime} (user_emotion : option EmotionDict) :
  GroqEngine.fallback_table user_emotion ≠ [] ∧
  ∀ s, s ∈ GroqEngine.fallback_table user_emotion → s ≠ [].
Proof.
  pose (table_ok :=
    ltac:(exact (λ t : list pystr, t ≠ [] ∧ ∀ s, s ∈ t → s ≠ []))).
  change (table_ok (GroqEngine.fallback_table user_emotion)).
  unfold GroqEngine.fallback_table.
  destruct (dict_truthy user_emotion); repeat case_bool_decide;
    (split;
     [ vm_compute; discriminate
     | intros s Hs; vm_compute in Hs;
       repeat (apply elem_of_cons in Hs as [-> | Hs]; [discriminate|]);
       inversion Hs ]).
Qed.

(** The rate check returns normally and touches the limiter only. *)
Lemma rate_check_run (env : Env) (e : GroqEngine.t) (n : nat) :
  ∃ refused rl n',
    GroqEngine.rate_check env e n = (Ret refused, GroqEngine.set_rate_limiter rl e, n').
Proof.
  unfold GroqEngine.rate_check. py_run.
  unfold GroqEngine.can_make_request at 1. py_run.
  destruct (RateLimiter.can_make_request (time_time env n) (GroqEngine.rate_limiter e))
    as [ok rl] eqn:Hcheck.
  destruct ok; [by eexists _, _, _|].
  rewrite wait_for_rate_limit_run. cbv zeta.
  set (e1 := GroqEngine.set_rate_limiter rl e).
  assert (∀ rl', GroqEngine.set_rate_limiter rl' e1 = GroqEngine.set_rate_limiter rl' e)
    as Hset by done.
  destruct (RateLimiter.can_make_request (time_time env (S n)) (GroqEngine.rate_limiter e1))
    as [ok2 rl2].
  cbn [fst snd]. rewrite Hset.
  destruct ok2; [|destruct (RateLimiter.requests rl2)];
    match goal with |- context [Qltb ?a ?b] => destruct (Qltb a b) end;
    by eexists _, _, _.
Qed.

Lemma build_messages_limiter `{PyRuntime} (rl : RateLimiter.t) (e : GroqEngine.t)
    (message conversation_id : pystr) (context : list ChatMessage)
    (user_emotion : option EmotionDict) :
  GroqEngine._build_messages (GroqEngine.set_rate_limiter rl e) message conversation_id
    context user_emotion =
  GroqEngine._build_messages e message conversation_id context user_emotion.
Proof. reflexivity. Qed.

(** The rate check only evicts, and a wait that it reports is positive. *)
Lemma rate_check_refusal (env : Env) (e : GroqEngine.t) (n : nat) :
  ∃ refused rl n' k,
    GroqEngine.rate_check env e n = (Ret refused, GroqEngine.set_rate_limiter rl e, n') ∧
    RateLimiter.requests rl = drop k (RateLimiter.requests (GroqEngine.rate_limiter e)) ∧
    ∀ w, refused = Some w → (0 < w)%Q.
Proof.
  unfold GroqEngine.rate_check. py_run.
  unfold GroqEngine.can_make_request at 1. py_run.
  unfold RateLimiter.can_make_request at 1.
  destruct (evict_drop (time_time env n -
                        inject_Z (RateLimiter.time_window (GroqEngine.rate_limiter e)))
              (RateLimiter.requests (GroqEngine.rate_limiter e))) as [k1 Hk1].
  rewrite Hk1.
  set (rl1 := {| RateLimiter.max_requests := _; RateLimiter.time_window := _;
                 RateLimiter.requests := drop k1 _ |}).
  destruct (_ <? _)%Z.
  { exists None, rl1, (S n), k1. split; [done|]. split; [done|]. intros w [=]. }
  rewrite wait_for_rate_limit_run. cbv zeta.
  set (e1 := GroqEngine.set_rate_limiter rl1 e).
  assert (∀ rl', GroqEngine.set_rate_limiter rl' e1 = GroqEngine.set_rate_limiter rl' e)
    as Hset by done.
  change (GroqEngine.rate_limiter e1) with rl1.
  unfold RateLimiter.can_make_request. cbn [fst snd].
  destruct (evict_drop (time_time env (S n) - inject_Z (RateLimiter.time_window rl1))
              (RateLimiter.requests rl1)) as [k2 Hk2].
  rewrite Hk2. rewrite Hset.
  set (rl2 := {| RateLimiter.max_requests := _; RateLimiter.time_window := _;
                 RateLimiter.requests := drop k2 _ |}).
  assert (RateLimiter.requests rl2 =
          drop (k1 + k2) (RateLimiter.requests (GroqEngine.rate_limiter e))) as Hsuffix.
  { unfold rl2, rl1. cbn [RateLimiter.requests]. by rewrite drop_drop. }
  destruct (_ <? _)%Z.
  { assert (Qltb 0 0 = false) as -> by done.
    exists None, rl2, (S (S n)), (k1 + k2). split; [done|]. split; [done|]. intros w [=]. }
  destruct (RateLimiter.requests rl2) as [|oldest rest] eqn:Hreqs.
  { assert (Qltb 0 0 = false) as -> by done.
    exists None, rl2, (S (S n)), (k1 + k2). split; [done|]. split; [congruence|].
    intros w [=]. }
  match goal with |- context [Qltb 0 ?x] => destruct (Qltb 0 x) eqn:Hwait end.
  - eexists (Some _), rl2, (S (S (S n))), (k1 + k2). split; [done|]. split; [congruence|].
    intros w [= <-]. by apply Qltb_true.
  - exists None, rl2, (S (S (S n))), (k1 + k2). split; [done|]. split; [congruence|].
    intros w [=].
Qed.

(** C1, as the code has it.  [check] is the rate check that opens the
    call.  When it admits the call and the provider raises on the
    request, which is made right after the request is recorded,
    [generate_response] returns one of the templates of the fallback
    table selected by the emotion reading, which is not empty; the
    request is recorded in the limiter, whose window is then what the
    check retained of the earlier window followed by the clock reading
    of this call; and the conversation history is left as it was. *)
Theorem generate_response_fallback `{PyRuntime} (env : Env) (e : GroqEngine.t) (n : nat)
    (message conversation_id : pystr) (context : list ChatMessage)
    (user_emotion : option EmotionDict) (stream : bool) :
  let check := GroqEngine.rate_check env e n in
  let r :=
    GroqEngine.generate_response env message conversation_id context user_emotion
      stream e n in
  outcome check = Ret None →
  provider_raises env stream (S (observed check))
    (GroqEngine._build_messages e message conversation_id context user_emotion) →
  ∃ reply,
    outcome r = Ret (GroqEngine.Text reply) ∧
    reply ∈ GroqEngine.fallback_table user_emotion ∧
    reply ≠ [] ∧
    GroqEngine.conversation_history (final r) = GroqEngine.conversation_history e ∧
    RateLimiter.requests (GroqEngine.rate_limiter (final r)) =
      RateLimiter.requests (GroqEngine.rate_limiter (final check)) ++
      [time_time env (observed check)] ∧
    ∃ k, RateLimiter.requests (GroqEngine.rate_limiter (final check)) =
         drop k (RateLimiter.requests (GroqEngine.rate_limiter e)).
Proof.
  cbv zeta. intros Hadmit Hraise.
  destruct (rate_check_refusal env e n) as (refused & rl & n1 & k & Hrc & Hsuffix & _).
  rewrite Hrc in Hadmit, Hraise. unfold outcome in Hadmit. cbn [fst] in Hadmit.
  injection Hadmit as ->.
  unfold observed in Hraise. cbn [snd] in Hraise.
  destruct (fallback_table_templates user_emotion) as [Hne Hstrings].
  exists (choice (random_draw env (S (S n1))) (GroqEngine.fallback_table user_emotion) []).
  assert (GroqEngine.generate_response env message conversation_id context
            user_emotion stream e n
          = (Ret (GroqEngine.Text
                    (choice (random_draw env (S (S n1)))
                       (GroqEngine.fallback_table user_emotion) [])),
             GroqEngine.set_rate_limiter
               (RateLimiter.add_request (time_time env n1) rl) e,
             S (S (S n1)))) as ->.
  { unfold GroqEngine.generate_response. py_run. rewrite Hrc.
    unfold GroqEngine.add_request, GroqEngine._get_fallback_response. py_run.
    rewrite !build_messages_limiter.
    unfold provider_raises in Hraise.
    destruct stream; rewrite Hraise; reflexivity. }
  rewrite Hrc. unfold outcome, final, observed. cbn [fst snd].
  split; [reflexivity|]. split; [by apply choice_elem|].
  split; [apply Hstrings; by apply choice_elem|].
  split; [reflexivity|].
  split; [reflexivity|].
  by exists k.
Qed.

(** The theorem at work: the provider of [quiet_env] is down and the
    limiter of a new engine admits the call; the check reads the clock
    at 0 and the request is recorded at 1. *)
Lemma generate_response_fallback_witness :
  ∃ reply,
    outcome (@GroqEngine.generate_response ascii_runtime quiet_env (lit "hello")
               (lit "default") [] None false default_engine 0)
      = Ret (GroqEngine.Text reply) ∧
    reply ∈ @GroqEngine.fallback_table ascii_runtime None ∧
    reply ≠ [] ∧
    GroqEngine.conversation_history
      (final (@GroqEngine.generate_response ascii_runtime quiet_env (lit "hello")
                (lit "default") [] None false default_engine 0))
    = GroqEngine.conversation_history default_engine ∧
    RateLimiter.requests
      (GroqEngine.rate_limiter
         (final (@GroqEngine.generate_response ascii_runtime quiet_env (lit "hello")
                   (lit "default") [] None false default_engine 0)))
    = [] ++ [time_time quiet_env 1].
Proof.
  destruct (@generate_response_fallback ascii_runtime quiet_env default_engine 0
              (lit "hello") (lit "default") [] None false eq_refl eq_refl)
    as (reply & Hout & Hin & Hne & Hhist & Hreqs & _).
  exists reply. split; [exact Hout|]. split; [exact Hin|]. split; [exact Hne|].
  split; [exact Hhist | exact Hreqs].
Defined.

(** C1, as stated, fails in its last part: after a provider failure the
    reply is a fallback template, and the history of the conversation
    holds no exchange at all. *)
Lemma fallback_history_counterexample :
  outcome (@GroqEngine.generate_response ascii_runtime quiet_env (lit "hello")
             (lit "default") [] None false default_engine 0)
    = Ret (GroqEngine.Text (lit "I'm here to help! What would you like to talk about?")) ∧
  GroqEngine.conversation_history
    (final (@GroqEngine.generate_response ascii_runtime quiet_env (lit "hello")
              (lit "default") [] None false default_engine 0)) !! lit "default"
    = None.
Proof.
  split.
  - vm_compute. reflexivity.
  - vm_compute. reflexivity.
Qed.

(** ** Bounded histories *)

Lemma last_n_all {A} (k : nat) (xs : list A) : length xs ≤ k → last_n k xs = xs.
Proof. intros Hle. unfold last_n. by replace (length xs - k) with 0 by lia. Qed.

Lemma keep_last_last_n {A} (k : nat) (xs : list A) : keep_last k xs = last_n k xs.
Proof.
  unfold keep_last. case_bool_decide; [done|]. symmetry. apply last_n_all. lia.
Qed.

Lemma last_n_length {A} (k : nat) (xs : list A) : length (last_n k xs) ≤ k.
Proof. unfold last_n. rewrite length_drop. lia. Qed.

Lemma keep_last_length {A} (k : nat) (xs : list A) : length (keep_last k xs) ≤ k.
Proof. rewrite keep_last_last_n. apply last_n_length. Qed.

(** Appending to a truncated history and truncating again keeps the
    same entries as truncating the whole sequence once: the oldest
    entries are the ones dropped. *)
Lemma last_n_snoc {A} (k : nat) (xs : list A) (x : A) :
  0 < k → last_n k (last_n k xs ++ [x]) = last_n k (xs ++ [x]).
Proof.
  intros Hk. destruct (decide (length xs ≤ k)) as [Hle | Hgt].
  - by rewrite (last_n_all k xs).
  - unfold last_n. rewrite !length_app, length_drop. cbn [length].
    rewrite !drop_app_le by (rewrite ?length_drop; lia).
    rewrite drop_drop. f_equal. f_equal. lia.
Qed.

Lemma last_n_fmap {A B} (f : A → B) (k : nat) (xs : list A) :
  f <$> last_n k xs = last_n k (f <$> xs).
Proof. unfold last_n. by rewrite fmap_drop, length_fmap. Qed.

(** ** The profile store *)

Lemma load_profile_run `{PyRuntime} (env : Env) (uid : pystr) (m : UserMemory.t) (n : nat) :
  ∃ p0 n0,
    UserMemory.load_profile env uid m n = (Ret p0, m, n0) ∧
    (UserMemory.disk m !! uid = Some p0 ∨
     (UserMemory.disk m !! uid = None ∧
      outcome (UserMemory._create_new_profile env uid m n) = Ret p0)).
Proof.
  unfold UserMemory.load_profile. py_run.
  destruct (UserMemory.disk m !! uid) as [p|] eqn:Hlook.
  - exists p, n. by split; [|left].
  - eexists _, _. split; [reflexivity|]. right. by split.
Qed.

Lemma update_emotional_profile_run (env : Env) (p : UserMemory.Profile)
    (em : option EmotionDict) (m : UserMemory.t) (n : nat) :
  ∃ ep n',
    UserMemory._update_emotional_profile env p em m n
    = (Ret (UserMemory.set_emotional_profile ep p), m, n') ∧
    ∃ entry,
      UserMemory.emotion_history ep =
      if dict_truthy em
      then keep_last 50 (UserMemory.emotion_history (UserMemory.emotional_profile p) ++ [entry])
      else UserMemory.emotion_history (UserMemory.emotional_profile p).
Proof.
  unfold UserMemory._update_emotional_profile. py_run.
  destruct (dict_truthy em).
  - cbv zeta.
    match goal with |- context [map UserMemory.ee_sentiment ?l] =>
      destruct (map UserMemory.ee_sentiment l) end;
      eexists _, _; (split; [reflexivity|]); eexists; reflexivity.
  - exists (UserMemory.emotional_profile p), n. split; [by destruct p|].
    by exists {| UserMemory.ee_timestamp := []; UserMemory.ee_emotion := [];
                 UserMemory.ee_sentiment := 0 |}.
Qed.

Lemma extract_facts_run `{PyRuntime} (env : Env) (p : UserMemory.Profile)
    (message : pystr) (m : UserMemory.t) (n : nat) :
  ∃ mf n',
    UserMemory._extract_facts env p message m n
    = (Ret (UserMemory.set_memory_facts mf p), m, n').
Proof.
  unfold UserMemory._extract_facts. py_run. cbv zeta.
  destruct (any_in UserMemory.goal_keywords (lower message));
    destruct (any_in UserMemory.challenge_keywords (lower message));
    destruct (any_in UserMemory.achievement_keywords (lower message));
    by eexists _, _.
Qed.

(** One update in closed form: the profile [p0] that is loaded, the
    profile [p'] that is written and returned, and how the second is
    made from the first. *)
Lemma update_from_message_run `{PyRuntime} (env : Env) (uid message : pystr)
    (em : option EmotionDict) (m : UserMemory.t) (n : nat) :
  ∃ p0 p' n',
    (UserMemory.disk m !! uid = Some p0 ∨
     (UserMemory.disk m !! uid = None ∧
      outcome (UserMemory._create_new_profile env uid m n) = Ret p0)) ∧
    UserMemory.update_from_message env uid message em m n
    = (Ret p', {| UserMemory.disk := <[uid := p']> (UserMemory.disk m) |}, n') ∧
    UserMemory.personality p'
    = UserMemory.personality (UserMemory._analyze_communication_style p0 message) ∧
    UserMemory.communication_patterns p'
    = UserMemory.communication_patterns (UserMemory._analyze_communication_style p0 message) ∧
    (∃ entry,
       UserMemory.he_message entry = message ∧ UserMemory.he_emotion entry = em ∧
       UserMemory.conversation_history p'
       = keep_last 100 (UserMemory.conversation_history p0 ++ [entry])) ∧
    (∃ entry,
       UserMemory.emotion_history (UserMemory.emotional_profile p') =
       if dict_truthy em
       then keep_last 50
              (UserMemory.emotion_history (UserMemory.emotional_profile p0) ++ [entry])
       else UserMemory.emotion_history (UserMemory.emotional_profile p0)) ∧
    UserMemory.total_messages (UserMemory.statistics p')
    = (UserMemory.total_messages (UserMemory.statistics p0) + 1)%Z.
Proof.
  destruct (load_profile_run env uid m n) as (p0 & n0 & Hload & Hp0).
  exists p0.
  unfold UserMemory.update_from_message. py_run. rewrite Hload. cbv zeta.
  match goal with |- context [UserMemory._update_emotional_profile env ?p em m n0] =>
    destruct (update_emotional_profile_run env p em m n0) as (ep & n1 & -> & Hep)
  end.
  match goal with |- context [UserMemory._extract_facts env ?p message m n1] =>
    destruct (extract_facts_run env p message m n1) as (mf & n2 & ->)
  end.
  unfold UserMemory.save_profile. py_run. cbv zeta.
  eexists _, _. split; [exact Hp0|]. split; [reflexivity|].
  split; [reflexivity|]. split; [reflexivity|].
  split.
  { eexists {| UserMemory.he_timestamp := _; UserMemory.he_message := message;
               UserMemory.he_emotion := em |}.
    split; [reflexivity|]. split; reflexivity. }
  split; [exact Hep|]. reflexivity.
Qed.

(** ** Traits stay within the unit interval *)

Lemma unit_interval_smooth (a b : Q) :
  unit_interval a → unit_interval b → unit_interval (a * 0.9 + b * 0.1).
Proof. unfold unit_interval. intros [? ?] [? ?]. split; lra. Qed.

Lemma unit_interval_question (a : Q) (is_question : bool) :
  unit_interval a →
  unit_interval (a * 0.95 + (if is_question then 1.0 else 0.0) * 0.05).
Proof. unfold unit_interval. intros [? ?]. destruct is_question; split; lra. Qed.

Lemma unit_interval_nudge_up (a d : Q) :
  (0 <= d)%Q → unit_interval a → unit_interval (py_min (a + d) 1.0).
Proof.
  unfold unit_interval. intros Hd [? ?].
  destruct (py_min_spec (a + d) 1.0) as [[? ->] | [? ->]]; split; lra.
Qed.

Lemma unit_interval_nudge_down (a d : Q) :
  (0 <= d)%Q → unit_interval a → unit_interval (py_max (a - d) 0.0).
Proof.
  unfold unit_interval. intros Hd [? ?].
  destruct (py_max_spec (a - d) 0.0) as [[? ->] | [? ->]]; split; lra.
Qed.

(** The share of the code points of a message that satisfy a test. *)
Lemma unit_interval_share (count len : Z) :
  (0 ≤ count ≤ len)%Z → unit_interval (inject_Z count / inject_Z (Z.max len 1)).
Proof.
  intros Hcount.
  assert (0 < inject_Z (Z.max len 1))%Q as Hpos.
  { change 0%Q with (inject_Z 0). rewrite <- Zlt_Qlt. lia. }
  split.
  - apply Qle_shift_div_l; [done|]. rewrite Qmult_0_l.
    change 0%Q with (inject_Z 0). rewrite <- Zle_Qle. lia.
  - apply Qle_shift_div_r; [done|]. rewrite Qmult_1_l. rewrite <- Zle_Qle. lia.
Qed.

Lemma analyze_traits_bounded `{PyRuntime} (p : UserMemory.Profile) (message : pystr) :
  traits_bounded p →
  traits_bounded (UserMemory._analyze_communication_style p message).
Proof.
  intros (Hf & Hv & He & Hh & Hq).
  unfold UserMemory._analyze_communication_style. cbv zeta.
  match goal with |- context [(inject_Z ?c / inject_Z (Z.max ?l 1))%Q] =>
    assert (unit_interval (inject_Z c / inject_Z (Z.max l 1))) as Hshare;
    [ apply unit_interval_share; split; [lia|];
      apply inj_le, length_filter
    | generalize dependent (inject_Z c / inject_Z (Z.max l 1))%Q; intros share Hshare ]
  end.
  generalize (endswith (lit "?") (strip message)). intros is_question.
  generalize (count_in UserMemory.formal_words (lower message)),
             (count_in UserMemory.casual_words (lower message)),
             (Z.of_nat (length (split_ws message))).
  intros formal_count casual_count word_count.
  pose proof (unit_interval_smooth _ _ He Hshare).
  pose proof (unit_interval_question _ is_question Hq).
  pose proof (unit_interval_nudge_up _ 0.1 ltac:(lra) Hf).
  pose proof (unit_interval_nudge_down _ 0.1 ltac:(lra) Hf).
  pose proof (unit_interval_nudge_up _ 0.05 ltac:(lra) Hv).
  pose proof (unit_interval_nudge_down _ 0.05 ltac:(lra) Hv).
  unfold traits_bounded.
  destruct (casual_count <? formal_count)%Z, (formal_count <? casual_count)%Z,
           (30 <? word_count)%Z, (word_count <? 10)%Z,
           (Qeq_bool (UserMemory.average_message_length
                        (UserMemory.communication_patterns p)) 0);
    cbn [UserMemory.formality UserMemory.verbosity UserMemory.emoji_usage
         UserMemory.humor_preference UserMemory.question_frequency
         UserMemory.personality UserMemory.communication_patterns
         UserMemory.set_communication_patterns UserMemory.set_personality
         UserMemory.set_emoji_usage UserMemory.set_formality UserMemory.set_verbosity
         UserMemory.set_average_message_length UserMemory.set_question_frequency];
    split_and!; assumption.
Qed.

Lemma traits_bounded_ext (p p' : UserMemory.Profile) :
  UserMemory.personality p' = UserMemory.personality p →
  UserMemory.communication_patterns p' = UserMemory.communication_patterns p →
  traits_bounded p → traits_bounded p'.
Proof. unfold traits_bounded. by intros -> ->. Qed.

Lemma create_new_profile_run (env : Env) (uid : pystr) (m : UserMemory.t) (n : nat)
    (p0 : UserMemory.Profile) :
  outcome (UserMemory._create_new_profile env uid m n) = Ret p0 →
  traits_bounded p0 ∧
  UserMemory.conversation_history p0 = [] ∧
  UserMemory.emotion_history (UserMemory.emotional_profile p0) = [].
Proof.
  unfold UserMemory._create_new_profile, outcome. py_run. cbn [fst].
  intros [= <-].
  cbn [UserMemory.conversation_history UserMemory.emotion_history
       UserMemory.emotional_profile].
  split; [|done].
  unfold traits_bounded, unit_interval.
  cbn [UserMemory.formality UserMemory.verbosity UserMemory.emoji_usage
       UserMemory.humor_preference UserMemory.question_frequency
       UserMemory.personality UserMemory.communication_patterns].
  split_and!; lra.
Qed.

(** The traits after one update, whatever the store held before. *)
Lemma update_traits_bounded `{PyRuntime} (env : Env) (uid message : pystr)
    (em : option EmotionDict) (m : UserMemory.t) (n : nat) :
  map_Forall (λ _, traits_bounded) (UserMemory.disk m) →
  ∃ p',
    outcome (UserMemory.update_from_message env uid message em m n) = Ret p' ∧
    traits_bounded p' ∧
    map_Forall (λ _, traits_bounded)
      (UserMemory.disk (final (UserMemory.update_from_message env uid message em m n))).
Proof.
  intros Hstore.
  destruct (update_from_message_run env uid message em m n)
    as (p0 & p' & n' & Hp0 & -> & Hpers & Hcomm & _).
  assert (traits_bounded p0) as Hb0.
  { destruct Hp0 as [Hlook | [_ Hnew]]; [by eapply Hstore|].
    by apply create_new_profile_run in Hnew as [? _]. }
  assert (traits_bounded p') as Hb'.
  { eapply traits_bounded_ext; [exact Hpers | exact Hcomm |].
    by apply analyze_traits_bounded. }
  exists p'. unfold outcome, final. cbn [fst snd UserMemory.disk].
  split; [done|]. split; [done|]. by apply map_Forall_insert_2.
Qed.

Lemma run_updates_traits `{PyRuntime} (env : Env) (us : list Update)
    (m : UserMemory.t) (n : nat) :
  map_Forall (λ _, traits_bounded) (UserMemory.disk m) →
  map_Forall (λ _, traits_bounded) (UserMemory.disk (run_updates env us m n).1).
Proof.
  revert m n. induction us as [|u us IH]; intros m n Hstore; [done|].
  cbn [run_updates]. apply IH.
  by destruct (update_traits_bounded env (upd_user u) (upd_message u) (upd_emotion u)
                 m n Hstore) as (? & _ & _ & ?).
Qed.

(** C3.  Start from an empty store, so that every profile starts as a
    new one, and make any sequence of updates, for any users: every
    stored profile has its five traits within [0, 1]; and one more
    update, for any user, returns such a profile. *)
Theorem traits_stay_bounded `{PyRuntime} (env : Env) (us : list Update) (n : nat)
    (uid message : pystr) (em : option EmotionDict) :
  map_Forall (λ _, traits_bounded)
    (UserMemory.disk (run_updates env us UserMemory.init n).1) ∧
  ∃ p',
    outcome (UserMemory.update_from_message env uid message em
               (run_updates env us UserMemory.init n).1
               (run_updates env us UserMemory.init n).2) = Ret p' ∧
    traits_bounded p'.
Proof.
  assert (map_Forall (λ _, traits_bounded)
            (UserMemory.disk (run_updates env us UserMemory.init n).1)) as Hstore.
  { apply run_updates_traits. apply map_Forall_empty. }
  split; [done|].
  destruct (update_traits_bounded env uid message em _
              (run_updates env us UserMemory.init n).2 Hstore) as (p' & ? & ? & _).
  by exists p'.
Qed.

(** ** Capacities of the history buffers *)

Lemma messages_of_app (uid : pystr) (us vs : list Update) :
  messages_of uid (us ++ vs) = messages_of uid us ++ messages_of uid vs.
Proof. unfold messages_of. by rewrite List.filter_app, fmap_app. Qed.

Lemma messages_of_one (uid : pystr) (u : Update) :
  messages_of uid [u] = if bool_decide (upd_user u = uid) then [upd_message u] else [].
Proof. unfold messages_of. cbn [List.filter]. by case_bool_decide. Qed.

Lemma update_store_buffers `{PyRuntime} (env : Env) (us : list Update) (u : Update)
    (m : UserMemory.t) (n : nat) :
  store_buffers us m →
  store_buffers (us ++ [u])
    (final (UserMemory.update_from_message env (upd_user u) (upd_message u)
              (upd_emotion u) m n)).
Proof.
  intros Hstore.
  destruct (update_from_message_run env (upd_user u) (upd_message u) (upd_emotion u) m n)
    as (p0 & p' & n' & Hp0 & -> & _ & _ & (entry & Hmsg & _ & Hhist) & (ee & Hemo) & _).
  unfold final. cbn [fst snd]. intros uid. cbn [UserMemory.disk].
  destruct (decide (upd_user u = uid)) as [<- | Hne].
  - rewrite lookup_insert_eq. unfold buffers_bounded.
    rewrite messages_of_app, messages_of_one, bool_decide_eq_true_2 by done.
    assert (UserMemory.he_message <$> UserMemory.conversation_history p0
            = last_n 100 (messages_of (upd_user u) us) ∧
            length (UserMemory.emotion_history (UserMemory.emotional_profile p0)) ≤ 50)
      as [Hold Hold_emo].
    { specialize (Hstore (upd_user u)).
      destruct Hp0 as [Hlook | [Hlook Hnew]]; rewrite Hlook in Hstore.
      - by destruct Hstore as (_ & ? & ?).
      - apply create_new_profile_run in Hnew as (_ & -> & ->).
        rewrite Hstore. split; [done | cbn; lia]. }
    split; [rewrite Hhist; apply keep_last_length|]. split.
    + rewrite Hhist, keep_last_last_n, last_n_fmap, fmap_app, Hold. cbn [fmap list_fmap].
      rewrite Hmsg. apply last_n_snoc. lia.
    + rewrite Hemo. destruct (dict_truthy (upd_emotion u)); [apply keep_last_length | done].
  - rewrite lookup_insert_ne by done.
    specialize (Hstore uid). unfold buffers_bounded in *.
    by rewrite messages_of_app, messages_of_one, bool_decide_eq_false_2, app_nil_r.
Qed.

Lemma run_updates_buffers `{PyRuntime} (env : Env) (us vs : list Update)
    (m : UserMemory.t) (n : nat) :
  store_buffers us m → store_buffers (us ++ vs) (run_updates env vs m n).1.
Proof.
  revert us m n. induction vs as [|v vs IH]; intros us m n Hstore.
  - by rewrite app_nil_r.
  - cbn [run_updates]. rewrite (cons_middle v us vs), app_assoc.
    apply IH. by apply update_store_buffers.
Qed.

Lemma history_step_bounded (e e' : GroqEngine.t) :
  history_step e e' → exchanges_bounded e → exchanges_bounded e'.
Proof.
  unfold exchanges_bounded. intros [-> | (cid & x & ->)] Hb; [done|].
  apply map_Forall_insert_2; [apply keep_last_length | done].
Qed.

Lemma update_conversation_run (env : Env) (cid user_message ai_response : pystr)
    (e : GroqEngine.t) (n : nat) :
  ∃ x,
    GroqEngine._update_conversation env cid user_message ai_response e n =
    (Ret tt,
     GroqEngine.set_history
       (<[cid := keep_last 20
                   (default [] (GroqEngine.conversation_history e !! cid) ++ [x])]>
          (GroqEngine.conversation_history e)) e,
     S n) ∧
    GroqEngine.ex_user x = user_message ∧ GroqEngine.ex_assistant x = ai_response.
Proof.
  unfold GroqEngine._update_conversation. py_run. cbv zeta.
  by eexists {| GroqEngine.ex_user := user_message; GroqEngine.ex_assistant := ai_response;
                GroqEngine.ex_timestamp := _ |}.
Qed.

Lemma generate_response_history `{PyRuntime} (env : Env) (message cid : pystr)
    (context : list ChatMessage) (user_emotion : option EmotionDict) (stream : bool)
    (e : GroqEngine.t) (n : nat) :
  history_step e
    (final (GroqEngine.generate_response env message cid context user_emotion stream e n)).
Proof.
  destruct (rate_check_run env e n) as (refused & rl & n1 & Hrc).
  unfold GroqEngine.generate_response. py_run. rewrite Hrc.
  destruct refused; [by left|].
  unfold GroqEngine.add_request, GroqEngine._get_fallback_response. py_run.
  rewrite !build_messages_limiter.
  destruct stream.
  - destruct (groq_stream env (S n1) _); by left.
  - destruct (groq_complete env (S n1) _) as [reply|]; [|by left].
    match goal with |- context [GroqEngine._update_conversation env cid message reply ?e1 ?k] =>
      destruct (update_conversation_run env cid message reply e1 k) as (x & -> & _)
    end.
    right. by exists cid, x.
Qed.

Lemma stream_response_history `{PyRuntime} (env : Env) (message cid : pystr)
    (context : list ChatMessage) (user_emotion : option EmotionDict)
    (e : GroqEngine.t) (n : nat) :
  history_step e
    (final (GroqEngine.stream_response env message cid context user_emotion e n)).
Proof.
  destruct (rate_check_run env e n) as (refused & rl & n1 & Hrc).
  unfold GroqEngine.stream_response. py_run. rewrite Hrc.
  destruct refused; [by left|].
  unfold GroqEngine.add_request, GroqEngine._get_fallback_response. py_run.
  rewrite !build_messages_limiter.
  destruct (groq_stream env (S n1) _) as [[chunks []]|]; [|by left..].
  destruct (GroqEngine.stream_tokens chunks) as [events full_response].
  match goal with |- context [GroqEngine._update_conversation env cid message ?r ?e1 ?k] =>
    destruct (update_conversation_run env cid message r e1 k) as (x & -> & _)
  end.
  right. by exists cid, x.
Qed.

Lemma is_available_history (env : Env) (e : GroqEngine.t) (n : nat) :
  GroqEngine.conversation_history (final (GroqEngine.is_available env e n))
  = GroqEngine.conversation_history e.
Proof.
  unfold GroqEngine.is_available, GroqEngine.can_make_request, GroqEngine.add_request.
  py_run.
  destruct (RateLimiter.can_make_request (time_time env n) (GroqEngine.rate_limiter e))
    as [[] rl]; [|done].
  by destruct (groq_complete env (S (S n)) _).
Qed.

Lemma run_call_bounded `{PyRuntime} (env : Env) (c : EngineCall) (e : GroqEngine.t)
    (n : nat) :
  exchanges_bounded e → exchanges_bounded (run_call env c e n).1.
Proof.
  intros Hb. destruct c; cbn [run_call fst].
  - eapply history_step_bounded; [apply generate_response_history | done].
  - eapply history_step_bounded; [apply stream_response_history | done].
  - unfold exchanges_bounded, GroqEngine.clear_conversation, final. py_run.
    cbn [fst snd GroqEngine.conversation_history GroqEngine.set_history].
    by apply map_Forall_delete.
  - unfold exchanges_bounded. by rewrite is_available_history.
  - unfold exchanges_bounded. rewrite wait_for_rate_limit_run. cbv zeta.
    by repeat case_match.
Qed.

Lemma run_calls_bounded `{PyRuntime} (env : Env) (cs : list EngineCall)
    (e : GroqEngine.t) (n : nat) :
  exchanges_bounded e → exchanges_bounded (run_calls env cs e n).1.
Proof.
  revert e n. induction cs as [|c cs IH]; intros e n Hb; [done|].
  cbn [run_calls]. apply IH. by apply run_call_bounded.
Qed.

(** C4.  Start from an empty store and a new engine.  After any
    sequence of updates, the stored profile of every user holds at most
    100 history entries, which are the most recent messages of that user
    in the order received (the oldest are the ones evicted), and at most
    50 emotion readings; after any sequence of calls, every conversation
    of the engine holds at most 20 exchanges. *)
Theorem history_buffers_bounded `{PyRuntime} (env : Env) (us : list Update) (n : nat)
    (cs : list EngineCall) (quota : Z) (model : pystr) (k : nat) :
  map_Forall (buffers_bounded us)
    (UserMemory.disk (run_updates env us UserMemory.init n).1) ∧
  exchanges_bounded (run_calls env cs (GroqEngine.init quota model) k).1.
Proof.
  split.
  - assert (store_buffers ([] ++ us) (run_updates env us UserMemory.init n).1) as Hstore.
    { apply run_updates_buffers. intros uid. unfold UserMemory.init.
      cbn [UserMemory.disk]. by rewrite lookup_empty. }
    intros uid p Hlook. specialize (Hstore uid). by rewrite Hlook in Hstore.
  - apply run_calls_bounded. apply map_Forall_empty.
Qed.

(** ** The chat endpoint *)

Lemma keeps_state_ret {St A} (a : A) : keeps_state (mret a : Py St A).
Proof. intros s n. by exists a, n. Qed.

Lemma keeps_state_observe {St A} (f : nat → A) : keeps_state (PyM.observe f : Py St A).
Proof. intros s n. by exists (f n), (S n). Qed.

Lemma keeps_state_bind {St A B} (c : Py St A) (k : A → Py St B) :
  keeps_state c → (∀ a, keeps_state (k a)) → keeps_state (c ≫= k).
Proof.
  intros Hc Hk s n. destruct (Hc s n) as (a & n1 & Hrun).
  destruct (Hk a s n1) as (b & n2 & Hrun2).
  exists b, n2. unfold mbind, py_mbind, PyM.bind. by rewrite Hrun.
Qed.


(** Closes a goal [keeps_state c] by following the shape of [c]. *)
Ltac keeps_state :=
  repeat lazymatch goal with
    | |- keeps_state (mret _) => apply keeps_state_ret
    | |- keeps_state (PyM.observe _) => apply keeps_state_observe
    | |- keeps_state (mbind _ _) => apply keeps_state_bind; [|intros ?]
    | |- keeps_state (if ?b then _ else _) => destruct b
    | |- keeps_state (let x := _ in _) => cbv zeta
    end.





(** *** The empty message *)








(** ** Request times of a reachable engine *)

Lemma recorded_later (env : Env) (n n' : nat) (rl : RateLimiter.t) :
  n ≤ n' → recorded env n rl → recorded env n' rl.
Proof.
  intros Hle [Hsorted Hread]. split; [done|].
  intros x Hx. destruct (Hread x Hx) as (i & Hi & ->). exists i. split; [lia | done].
Qed.

Lemma recorded_checked (env : Env) (n : nat) (now : Q) (rl : RateLimiter.t) :
  recorded env n rl → recorded env n (RateLimiter.can_make_request now rl).2.
Proof.
  intros [Hsorted Hread]. unfold RateLimiter.can_make_request.
  cbn [snd]. unfold recorded. cbn [RateLimiter.requests].
  destruct (evict_drop (now - inject_Z (RateLimiter.time_window rl))
              (RateLimiter.requests rl)) as [k ->].
  split.
  - intros i j a b Hij Ha Hb. rewrite lookup_drop in Ha, Hb.
    apply (Hsorted (k + i) (k + j)); [lia | done | done].
  - intros x Hx. apply Hread.
    apply list_elem_of_lookup in Hx as [j Hj]. rewrite lookup_drop in Hj.
    by eapply list_elem_of_lookup_2.
Qed.

Lemma recorded_added (env : Env) (n : nat) (rl : RateLimiter.t) :
  clock_monotone env → recorded env n rl →
  recorded env (S n) (RateLimiter.add_request (time_time env n) rl).
Proof.
  intros Hmono [Hsorted Hread]. unfold RateLimiter.add_request, recorded.
  cbn [RateLimiter.requests]. split.
  - intros i j a b Hij Ha Hb.
    destruct (decide (j < length (RateLimiter.requests rl))) as [Hj | Hj].
    + rewrite lookup_app_l in Ha, Hb by lia. exact (Hsorted i j a b Hij Ha Hb).
    + rewrite lookup_app_r in Hb by lia.
      apply list_lookup_singleton_Some in Hb as [_ <-].
      apply list_elem_of_lookup_2, elem_of_app in Ha as [Ha | Ha].
      * destruct (Hread a Ha) as (k & Hk & ->). apply Hmono. lia.
      * apply list_elem_of_singleton in Ha as ->. lra.
  - intros x Hx. apply elem_of_app in Hx as [Hx | Hx].
    + destruct (Hread x Hx) as (k & Hk & ->). exists k. split; [lia | done].
    + apply list_elem_of_singleton in Hx as ->. exists n. split; [lia | done].
Qed.

Lemma keeps_recorded_ret {A} (env : Env) (a : A) :
  keeps_recorded env (mret a : Py GroqEngine.t A).
Proof. intros e n Hrec. by split. Qed.

Lemma keeps_recorded_raise {A} (env : Env) (x : pyexn) :
  keeps_recorded env (PyM.raise x : Py GroqEngine.t A).
Proof. intros e n Hrec. by split. Qed.

Lemma keeps_recorded_get (env : Env) : keeps_recorded env (PyM.get : Py GroqEngine.t _).
Proof. intros e n Hrec. by split. Qed.

Lemma keeps_recorded_observe {A} (env : Env) (f : nat → A) :
  keeps_recorded env (PyM.observe f : Py GroqEngine.t A).
Proof.
  intros e n Hrec. unfold observed, final, PyM.observe. cbn [fst snd].
  split; [lia|]. eapply recorded_later; [|done]. lia.
Qed.

Lemma keeps_recorded_bind {A B} (env : Env) (c : Py GroqEngine.t A)
    (k : A → Py GroqEngine.t B) :
  keeps_recorded env c → (∀ a, keeps_recorded env (k a)) →
  keeps_recorded env (c ≫= k).
Proof.
  intros Hc Hk e n Hrec. specialize (Hc e n Hrec).
  unfold mbind, py_mbind, PyM.bind, observed, final in *.
  destruct (c e n) as [[[a | x] e1] n1]; cbn [fst snd] in *; [|done].
  destruct Hc as [Hle Hrec1]. specialize (Hk a e1 n1 Hrec1).
  unfold observed, final in Hk.
  destruct (k a e1 n1) as [[r e2] n2]. cbn [fst snd] in *.
  split; [lia | tauto].
Qed.

Lemma keeps_recorded_try {A} (env : Env) (c : Py GroqEngine.t A)
    (h : pyexn → Py GroqEngine.t A) :
  keeps_recorded env c → (∀ x, keeps_recorded env (h x)) →
  keeps_recorded env (PyM.try_except c h).
Proof.
  intros Hc Hh e n Hrec. specialize (Hc e n Hrec).
  unfold PyM.try_except, observed, final in *.
  destruct (c e n) as [[[a | x] e1] n1]; cbn [fst snd] in *; [done|].
  destruct Hc as [Hle Hrec1]. specialize (Hh x e1 n1 Hrec1).
  unfold observed, final in Hh.
  destruct (h x e1 n1) as [[r e2] n2]. cbn [fst snd] in *.
  split; [lia | tauto].
Qed.

Lemma keeps_recorded_history (env : Env) (f : GroqEngine.t → gmap pystr (list GroqEngine.Exchange)) :
  keeps_recorded env (PyM.modify (λ e, GroqEngine.set_history (f e) e)).
Proof. intros e n Hrec. by split. Qed.

Lemma can_make_request_keeps (env : Env) :
  keeps_recorded env (GroqEngine.can_make_request env).
Proof.
  intros e n Hrec. unfold GroqEngine.can_make_request. py_run.
  pose proof (recorded_checked env n (time_time env n) _ Hrec) as Hrec'.
  destruct (RateLimiter.can_make_request (time_time env n) (GroqEngine.rate_limiter e))
    as [ok rl].
  unfold observed, final. cbn [fst snd GroqEngine.rate_limiter GroqEngine.set_rate_limiter] in *.
  split; [lia|]. eapply recorded_later; [|done]. lia.
Qed.

Lemma add_request_keeps (env : Env) :
  clock_monotone env → keeps_recorded env (GroqEngine.add_request env).
Proof.
  intros Hmono e n Hrec. unfold GroqEngine.add_request. py_run.
  unfold observed, final. cbn [fst snd GroqEngine.rate_limiter GroqEngine.set_rate_limiter].
  split; [lia|]. by apply recorded_added.
Qed.

(** Closes a goal [keeps_recorded env c] by following the shape of [c]. *)
Ltac keeps_recorded :=
  repeat lazymatch goal with
    | |- keeps_recorded _ (mret _) => apply keeps_recorded_ret
    | |- keeps_recorded _ (PyM.raise _) => apply keeps_recorded_raise
    | |- keeps_recorded _ PyM.get => apply keeps_recorded_get
    | |- keeps_recorded _ (PyM.observe _) => apply keeps_recorded_observe
    | |- keeps_recorded _ (PyM.modify _) => apply keeps_recorded_history
    | |- keeps_recorded _ (GroqEngine.can_make_request _) => apply can_make_request_keeps
    | |- keeps_recorded _ (GroqEngine.add_request _) => by apply add_request_keeps
    | |- keeps_recorded _ (mbind _ _) => apply keeps_recorded_bind; [|intros ?]
    | |- keeps_recorded _ (PyM.try_except _ _) => apply keeps_recorded_try; [|intros ?]
    | |- keeps_recorded _ (if ?b then _ else _) => destruct b
    | |- keeps_recorded _ (match ?x with _ => _ end) => destruct x
    | |- keeps_recorded _ (let x := _ in _) => cbv zeta
    end.

Lemma wait_for_rate_limit_keeps (env : Env) :
  keeps_recorded env (GroqEngine.wait_for_rate_limit env).
Proof. unfold GroqEngine.wait_for_rate_limit. keeps_recorded. Qed.

Lemma rate_check_keeps (env : Env) : keeps_recorded env (GroqEngine.rate_check env).
Proof.
  unfold GroqEngine.rate_check.
  apply keeps_recorded_bind; [apply can_make_request_keeps|]. intros [|]; [keeps_recorded|].
  apply keeps_recorded_bind; [apply wait_for_rate_limit_keeps|]. intros w. keeps_recorded.
Qed.

Lemma run_call_recorded `{PyRuntime} (env : Env) (c : EngineCall) (e : GroqEngine.t)
    (n : nat) :
  clock_monotone env →
  recorded env n (GroqEngine.rate_limiter e) →
  recorded env (run_call env c e n).2 (GroqEngine.rate_limiter (run_call env c e n).1).
Proof.
  intros Hmono Hrec.
  assert (∀ A (k : Py GroqEngine.t A), keeps_recorded env k →
            recorded env (observed (k e n)) (GroqEngine.rate_limiter (final (k e n))))
    as Hkeep by (intros A k Hk; by apply Hk).
  destruct c; cbn [run_call fst snd]; apply Hkeep.
  - unfold GroqEngine.generate_response.
    apply keeps_recorded_bind; [apply rate_check_keeps|]. intros [w|]; [keeps_recorded|].
    unfold GroqEngine._update_conversation, GroqEngine._get_fallback_response.
    keeps_recorded.
  - unfold GroqEngine.stream_response.
    apply keeps_recorded_bind; [apply rate_check_keeps|]. intros [w|]; [keeps_recorded|].
    unfold GroqEngine._update_conversation, GroqEngine._get_fallback_response.
    keeps_recorded.
  - unfold GroqEngine.clear_conversation. keeps_recorded.
  - unfold GroqEngine.is_available. keeps_recorded.
  - apply wait_for_rate_limit_keeps.
Qed.

(** Under a clock that never runs backwards, the request times of an
    engine are in chronological order after any sequence of calls. *)
Lemma run_calls_chronological `{PyRuntime} (env : Env) (cs : list EngineCall)
    (quota : Z) (model : pystr) (k : nat) :
  clock_monotone env →
  chronological
    (RateLimiter.requests
       (GroqEngine.rate_limiter (run_calls env cs (GroqEngine.init quota model) k).1)).
Proof.
  intros Hmono.
  assert (∀ e n, recorded env n (GroqEngine.rate_limiter e) →
                 recorded env (run_calls env cs e n).2
                   (GroqEngine.rate_limiter (run_calls env cs e n).1)) as Hrun.
  { induction cs as [|c cs IH]; intros e n Hrec; [done|].
    cbn [run_calls]. apply IH. by apply run_call_recorded. }
  apply (Hrun (GroqEngine.init quota model) k).
  unfold recorded, GroqEngine.init, RateLimiter.init.
  cbn [GroqEngine.rate_limiter RateLimiter.requests]. split.
  - intros i j a b _ Ha. by rewrite lookup_nil in Ha.
  - intros x Hx. inversion Hx.
Qed.

(** ** The model at work *)

(** Fact extraction on a message that states a name, an age, a place
    and a job. *)
Example extract_facts_example :
  (λ r, UserMemory.personal (UserMemory.memory_facts r)) <$>
    (match outcome (@UserMemory.update_from_message ascii_runtime quiet_env (lit "u")
                      (lit "Hey! My name is alice o'neil, i am 30 years old and i live in new york city. i work as a software engineer")
                      None UserMemory.init 0) with
     | Ret p => Some p
     | Exc _ => None
     end)
  = Some {| UserMemory.name := Some (lit "Alice"); UserMemory.age := Some 30%Z;
            UserMemory.location := Some (lit "New York City");
            UserMemory.job := Some (lit "Software Engineer") |}.
Proof. vm_compute. reflexivity. Qed.

(** The numbers found by the pattern of the percentage handler. *)
Example findall_numbers_example :
  Re.findall (@MathHandler.number_pattern ascii_runtime) (lit "what is 12.5% of 3.x 80.")
  = [lit "12.5"; lit "3"; lit "80"].
Proof. vm_compute. reflexivity. Qed.

(** An equation with a subtraction. *)
Example solve_subtraction_example `{PyRuntime} :
  MathHandler.solve_linear (lit "3x - 7 = 20") = Some 9%float.
Proof. vm_compute. reflexivity. Qed.

(** A limiter with room: two requests at times 1 and 2, a quota of
    three, checked at time 61: the first request is evicted. *)
Example can_make_request_example :
  RateLimiter.can_make_request 61
    {| RateLimiter.max_requests := 3; RateLimiter.time_window := 60;
       RateLimiter.requests := [1%Q; 2%Q] |}
  = (true, {| RateLimiter.max_requests := 3; RateLimiter.time_window := 60;
              RateLimiter.requests := [2%Q] |}).
Proof. vm_compute. reflexivity. Qed.

(** ** The quota of the rate limiter *)

Lemma within_quota_later (env : Env) (n n' : nat) (rl : RateLimiter.t) :
  n ≤ n' → within_quota env n rl → within_quota env n' rl.
Proof.
  intros Hle [Hrec Hq]. split; [by eapply recorded_later|].
  intros k Hk. apply Hq. lia.
Qed.

Lemma has_room_within (env : Env) (n : nat) (rl : RateLimiter.t) :
  has_room env n rl → within_quota env n rl.
Proof.
  intros [Hrec Hq]. split; [done|]. intros k Hk. specialize (Hq k Hk). lia.
Qed.

Lemma window_count_length (now : Q) (rl : RateLimiter.t) :
  (window_count now rl ≤ Z.of_nat (length (RateLimiter.requests rl)))%Z.
Proof.
  unfold window_count.
  pose proof (List.filter_length_le (in_window now (RateLimiter.time_window rl))
                (RateLimiter.requests rl)).
  lia.
Qed.

(** A check made at the reading [n] keeps the request times within the
    quota; what it retains is what was within the window, and when it
    admits the request a slot is free. *)
Lemma within_quota_checked (env : Env) (n : nat) (rl : RateLimiter.t) :
  within_quota env n rl →
  let c := RateLimiter.can_make_request (time_time env n) rl in
  RateLimiter.max_requests c.2 = RateLimiter.max_requests rl ∧
  (Z.of_nat (length (RateLimiter.requests c.2)) ≤ RateLimiter.max_requests rl)%Z ∧
  within_quota env (S n) c.2 ∧
  (c.1 = true → has_room env (S n) c.2).
Proof.
  intros [Hrec Hq] c.
  assert (Z.of_nat (length (RateLimiter.requests c.2)) =
          window_count (time_time env n) rl) as Hlen.
  { unfold c, RateLimiter.can_make_request, window_count.
    cbn [snd RateLimiter.requests].
    rewrite <- evict_filter, filter_all; [done|].
    intros x Hx. eapply evict_in_window; [|done]. apply Hrec. }
  assert (recorded env (S n) c.2) as Hrec'.
  { eapply recorded_later; [|by apply recorded_checked]. lia. }
  assert (RateLimiter.max_requests c.2 = RateLimiter.max_requests rl) as Hmax by done.
  pose proof (Hq n ltac:(lia)) as Hn.
  split; [done|]. split; [lia|]. split.
  - split; [done|]. intros k Hk.
    pose proof (window_count_length (time_time env k) c.2). lia.
  - intros Hok. split; [done|]. intros k Hk.
    pose proof (window_count_length (time_time env k) c.2).
    assert ((Z.of_nat (length (RateLimiter.requests c.2)) <?
             RateLimiter.max_requests rl)%Z = true) as Hlt by exact Hok.
    apply Z.ltb_lt in Hlt. lia.
Qed.

(** A request recorded while a slot is free keeps the quota. *)
Lemma within_quota_added (env : Env) (n : nat) (rl : RateLimiter.t) :
  clock_monotone env → has_room env n rl →
  within_quota env (S n) (RateLimiter.add_request (time_time env n) rl).
Proof.
  intros Hmono [Hrec Hq]. split; [by apply recorded_added|].
  intros k Hk. specialize (Hq k ltac:(lia)).
  unfold window_count, RateLimiter.add_request in *.
  cbn [RateLimiter.requests RateLimiter.time_window RateLimiter.max_requests].
  rewrite List.filter_app, length_app. cbn [List.filter].
  destruct (in_window (time_time env k) (RateLimiter.time_window rl) (time_time env n));
    cbn [length]; lia.
Qed.

(** When the wait computed at the reading [n] is not positive, the
    oldest request time retained has left the window, which frees a
    slot. *)
Lemma has_room_expired (env : Env) (n : nat) (rl : RateLimiter.t) (oldest : Q)
    (rest : list Q) :
  clock_monotone env → recorded env n rl →
  RateLimiter.requests rl = oldest :: rest →
  (Z.of_nat (length (RateLimiter.requests rl)) ≤ RateLimiter.max_requests rl)%Z →
  Qltb 0 (py_max 0 (oldest + inject_Z (RateLimiter.time_window rl) - time_time env n))
    = false →
  has_room env (S n) rl.
Proof.
  intros Hmono Hrec Hreqs Hlen Hwait.
  split; [eapply recorded_later; [|done]; lia|].
  intros k Hk. specialize (Hmono n k ltac:(lia)).
  apply Qltb_false in Hwait.
  assert (oldest + inject_Z (RateLimiter.time_window rl) - time_time env n <= 0)%Q
    as Hexp.
  { destruct (py_max_spec 0 (oldest + inject_Z (RateLimiter.time_window rl) -
                              time_time env n)) as [[? Heq] | [? Heq]];
      rewrite Heq in Hwait; lra. }
  unfold window_count. rewrite Hreqs in *. cbn [List.filter length] in *.
  assert (in_window (time_time env k) (RateLimiter.time_window rl) oldest = false)
    as ->.
  { unfold in_window. apply Qltb_false. lra. }
  pose proof (List.filter_length_le
                (in_window (time_time env k) (RateLimiter.time_window rl)) rest).
  lia.
Qed.

Lemma keeps_quota_ret {A} (env : Env) (a : A) :
  keeps_quota env (mret a : Py GroqEngine.t A).
Proof. intros e n Hq Hin. by split. Qed.

Lemma keeps_quota_raise {A} (env : Env) (x : pyexn) :
  keeps_quota env (PyM.raise x : Py GroqEngine.t A).
Proof. intros e n Hq Hin. by split. Qed.

Lemma keeps_quota_get (env : Env) : keeps_quota env (PyM.get : Py GroqEngine.t _).
Proof. intros e n Hq Hin. by split. Qed.

Lemma keeps_quota_observe {A} (env : Env) (f : nat → A) :
  keeps_quota env (PyM.observe f : Py GroqEngine.t A).
Proof.
  intros e n Hq Hin. unfold observed, final, PyM.observe. cbn [fst snd].
  split; [lia|]. split; [done|]. eapply within_quota_later; [|done]. lia.
Qed.

Lemma keeps_quota_history (env : Env)
    (f : GroqEngine.t → gmap pystr (list GroqEngine.Exchange)) :
  keeps_quota env (PyM.modify (λ e, GroqEngine.set_history (f e) e)).
Proof. intros e n Hq Hin. by split. Qed.

Lemma keeps_quota_bind {A B} (env : Env) (c : Py GroqEngine.t A)
    (k : A → Py GroqEngine.t B) :
  keeps_quota env c → (∀ a, keeps_quota env (k a)) → keeps_quota env (c ≫= k).
Proof.
  intros Hc Hk e n Hq Hin. specialize (Hc e n Hq Hin).
  unfold mbind, py_mbind, PyM.bind, observed, final in *.
  destruct (c e n) as [[[a | x] e1] n1]; cbn [fst snd] in *; [|done].
  destruct Hc as (Hle & Hmax & Hin1).
  specialize (Hk a e1 n1 ltac:(by rewrite Hmax) Hin1).
  unfold observed, final in Hk.
  destruct (k a e1 n1) as [[r e2] n2]. cbn [fst snd] in *.
  destruct Hk as (Hle2 & Hmax2 & Hin2).
  split; [lia|]. split; [congruence | done].
Qed.

Lemma keeps_quota_try {A} (env : Env) (c : Py GroqEngine.t A)
    (h : pyexn → Py GroqEngine.t A) :
  keeps_quota env c → (∀ x, keeps_quota env (h x)) →
  keeps_quota env (PyM.try_except c h).
Proof.
  intros Hc Hh e n Hq Hin. specialize (Hc e n Hq Hin).
  unfold PyM.try_except, observed, final in *.
  destruct (c e n) as [[[a | x] e1] n1]; cbn [fst snd] in *; [done|].
  destruct Hc as (Hle & Hmax & Hin1).
  specialize (Hh x e1 n1 ltac:(by rewrite Hmax) Hin1).
  unfold observed, final in Hh.
  destruct (h x e1 n1) as [[r e2] n2]. cbn [fst snd] in *.
  destruct Hh as (Hle2 & Hmax2 & Hin2).
  split; [lia|]. split; [congruence | done].
Qed.

Lemma can_make_request_quota (env : Env) :
  keeps_quota env (GroqEngine.can_make_request env).
Proof.
  intros e n Hq Hin. unfold GroqEngine.can_make_request. py_run.
  destruct (within_quota_checked env n _ Hin) as (Hmax & _ & Hin' & _).
  destruct (RateLimiter.can_make_request (time_time env n) (GroqEngine.rate_limiter e))
    as [ok rl].
  unfold observed, final.
  cbn [fst snd GroqEngine.rate_limiter GroqEngine.set_rate_limiter] in *.
  split; [lia|]. by split.
Qed.

(** Closes a goal [keeps_quota env c] for a computation that records no
    request, by following the shape of [c]. *)
Ltac keeps_quota :=
  repeat lazymatch goal with
    | |- keeps_quota _ (mret _) => apply keeps_quota_ret
    | |- keeps_quota _ (PyM.raise _) => apply keeps_quota_raise
    | |- keeps_quota _ PyM.get => apply keeps_quota_get
    | |- keeps_quota _ (PyM.observe _) => apply keeps_quota_observe
    | |- keeps_quota _ (PyM.modify _) => apply keeps_quota_history
    | |- keeps_quota _ (GroqEngine.can_make_request _) => apply can_make_request_quota
    | |- keeps_quota _ (mbind _ _) => apply keeps_quota_bind; [|intros ?]
    | |- keeps_quota _ (PyM.try_except _ _) => apply keeps_quota_try; [|intros ?]
    | |- keeps_quota _ (if ?b then _ else _) => destruct b
    | |- keeps_quota _ (match ?x with _ => _ end) => destruct x
    | |- keeps_quota _ (let x := _ in _) => cbv zeta
    end.

Lemma wait_for_rate_limit_quota (env : Env) :
  keeps_quota env (GroqEngine.wait_for_rate_limit env).
Proof. unfold GroqEngine.wait_for_rate_limit. keeps_quota. Qed.

(** The rate check on an engine within its quota: when it does not
    refuse, a slot is free. *)
Lemma rate_check_quota (env : Env) (e : GroqEngine.t) (n : nat) :
  clock_monotone env →
  (1 ≤ RateLimiter.max_requests (GroqEngine.rate_limiter e))%Z →
  within_quota env n (GroqEngine.rate_limiter e) →
  ∃ refused rl n',
    GroqEngine.rate_check env e n = (Ret refused, GroqEngine.set_rate_limiter rl e, n') ∧
    n ≤ n' ∧
    RateLimiter.max_requests rl = RateLimiter.max_requests (GroqEngine.rate_limiter e) ∧
    within_quota env n' rl ∧
    (refused = None → has_room env n' rl).
Proof.
  intros Hmono Hq Hin.
  unfold GroqEngine.rate_check. py_run.
  unfold GroqEngine.can_make_request at 1. py_run.
  destruct (within_quota_checked env n _ Hin) as (Hmax1 & _ & Hin1 & Hroom1).
  destruct (RateLimiter.can_make_request (time_time env n) (GroqEngine.rate_limiter e))
    as [ok rl1] eqn:Hcheck.
  cbn [fst snd] in *.
  destruct ok.
  { eexists None, rl1, (S n). split; [done|]. split; [lia|]. split; [done|].
    split; [done|]. intros _. by apply Hroom1. }
  rewrite wait_for_rate_limit_run. cbv zeta.
  set (e1 := GroqEngine.set_rate_limiter rl1 e).
  assert (∀ rl', GroqEngine.set_rate_limiter rl' e1 = GroqEngine.set_rate_limiter rl' e)
    as Hset by done.
  change (GroqEngine.rate_limiter e1) with rl1.
  destruct (within_quota_checked env (S n) _ Hin1) as (Hmax2 & Hlen2 & Hin2 & Hroom2).
  destruct (RateLimiter.can_make_request (time_time env (S n)) rl1) as [ok2 rl2] eqn:Hcheck2.
  cbn [fst snd] in *. rewrite Hset.
  assert (RateLimiter.max_requests rl2 = RateLimiter.max_requests (GroqEngine.rate_limiter e))
    as Hmax by congruence.
  destruct ok2.
  { assert (Qltb 0 0 = false) as -> by done.
    eexists None, rl2, (S (S n)). split; [done|]. split; [lia|]. split; [done|].
    split; [done|]. intros _. by apply Hroom2. }
  destruct (RateLimiter.requests rl2) as [|oldest rest] eqn:Hreqs.
  { exfalso.
    assert ((RateLimiter.can_make_request (time_time env (S n)) rl1).1 = false) as Hno
      by (by rewrite Hcheck2).
    unfold RateLimiter.can_make_request in Hno, Hcheck2. cbn [fst] in Hno.
    injection Hcheck2 as _ Hrl2. rewrite <- Hrl2 in Hreqs. cbn [RateLimiter.requests] in Hreqs.
    rewrite Hreqs in Hno. cbn [length] in Hno. apply Z.ltb_ge in Hno. lia. }
  destruct (Qltb 0 (py_max 0 (oldest + inject_Z (RateLimiter.time_window rl2) -
                              time_time env (S (S n))))) eqn:Hwait.
  - eexists (Some _), rl2, (S (S (S n))). split; [done|]. split; [lia|]. split; [done|].
    split; [|done]. eapply within_quota_later; [|done]. lia.
  - assert (has_room env (S (S (S n))) rl2) as Hroom.
    { eapply has_room_expired; [done | | done | | done].
      - apply Hin2.
      - rewrite Hmax2, Hreqs. exact Hlen2. }
    eexists None, rl2, (S (S (S n))). split; [done|]. split; [lia|]. split; [done|].
    split; [by apply has_room_within | done].
Qed.

Lemma add_request_quota (env : Env) (e : GroqEngine.t) (n : nat) :
  clock_monotone env → has_room env n (GroqEngine.rate_limiter e) →
  ∃ e', GroqEngine.add_request env e n = (Ret tt, e', S n) ∧
        RateLimiter.max_requests (GroqEngine.rate_limiter e') =
          RateLimiter.max_requests (GroqEngine.rate_limiter e) ∧
        within_quota env (S n) (GroqEngine.rate_limiter e').
Proof.
  intros Hmono Hroom. unfold GroqEngine.add_request. py_run.
  eexists. split; [done|]. split; [done|].
  cbn [GroqEngine.rate_limiter GroqEngine.set_rate_limiter].
  by apply within_quota_added.
Qed.

(** The opening of [generate_response] and [stream_response]: the rate
    check, and the request recorded when it does not refuse. *)
Lemma keeps_quota_admitted {A} (env : Env) (refuse : Q → Py GroqEngine.t A)
    (k : Py GroqEngine.t A) :
  clock_monotone env →
  (∀ w, keeps_quota env (refuse w)) → keeps_quota env k →
  keeps_quota env
    (refused ← GroqEngine.rate_check env;
     match refused with
     | Some wait_time => refuse wait_time
     | None => GroqEngine.add_request env;; k
     end).
Proof.
  intros Hmono Hrefuse Hk e n Hq Hin.
  destruct (rate_check_quota env e n Hmono Hq Hin)
    as (refused & rl & n1 & Hrun & Hle & Hmax & Hin1 & Hroom).
  unfold mbind, py_mbind, PyM.bind. rewrite Hrun.
  set (e1 := GroqEngine.set_rate_limiter rl e) in *.
  destruct refused as [w|]; cbv beta iota.
  - specialize (Hrefuse w e1 n1 ltac:(cbn; lia) Hin1).
    destruct Hrefuse as (Hle' & Hmax' & Hin').
    split; [lia|]. split; [|done]. rewrite Hmax'. exact Hmax.
  - destruct (add_request_quota env e1 n1 Hmono (Hroom eq_refl)) as (e2 & Hadd & Hmax2 & Hin2).
    unfold mbind, py_mbind, PyM.bind. rewrite Hadd. cbv beta iota.
    assert (RateLimiter.max_requests (GroqEngine.rate_limiter e2) =
            RateLimiter.max_requests (GroqEngine.rate_limiter e)) as Hmax' by
      (rewrite Hmax2; exact Hmax).
    specialize (Hk e2 (S n1) ltac:(lia) Hin2).
    destruct Hk as (Hle' & Hmax'' & Hin').
    split; [lia|]. split; [congruence | done].
Qed.

(** The opening of [is_available]: one check, and the request recorded
    when it admits. *)
Lemma keeps_quota_available {A} (env : Env) (k k' : Py GroqEngine.t A) :
  clock_monotone env → keeps_quota env k → keeps_quota env k' →
  keeps_quota env
    (ok ← GroqEngine.can_make_request env;
     if ok : bool then GroqEngine.add_request env;; k else k').
Proof.
  intros Hmono Hk Hk' e n Hq Hin.
  destruct (within_quota_checked env n _ Hin) as (Hmax1 & _ & Hin1 & Hroom1).
  unfold GroqEngine.can_make_request. py_run.
  destruct (RateLimiter.can_make_request (time_time env n) (GroqEngine.rate_limiter e))
    as [ok rl1].
  cbn [fst snd] in *.
  set (e1 := GroqEngine.set_rate_limiter rl1 e) in *.
  destruct ok.
  - destruct (add_request_quota env e1 (S n) Hmono (Hroom1 eq_refl))
      as (e2 & Hadd & Hmax2 & Hin2).
    rewrite Hadd. cbv beta iota.
    assert (RateLimiter.max_requests (GroqEngine.rate_limiter e2) =
            RateLimiter.max_requests (GroqEngine.rate_limiter e)) as Hmax' by
      (rewrite Hmax2; exact Hmax1).
    specialize (Hk e2 (S (S n)) ltac:(lia) Hin2).
    destruct Hk as (Hle' & Hmax'' & Hin').
    split; [lia|]. split; [congruence | done].
  - specialize (Hk' e1 (S n) ltac:(cbn; lia) Hin1).
    destruct Hk' as (Hle' & Hmax' & Hin').
    split; [lia|]. split; [|done]. rewrite Hmax'. exact Hmax1.
Qed.

Lemma run_call_quota `{PyRuntime} (env : Env) (c : EngineCall) :
  clock_monotone env →
  keeps_quota env (λ e n, (Ret tt, (run_call env c e n).1, (run_call env c e n).2)).
Proof.
  intros Hmono.
  assert (∀ A (k : Py GroqEngine.t A), keeps_quota env k →
            keeps_quota env (λ e n, (Ret tt, final (k e n), observed (k e n))))
    as Hkeep by (intros A k Hk e n Hq Hin; exact (Hk e n Hq Hin)).
  destruct c; cbn [run_call fst snd]; apply Hkeep.
  - unfold GroqEngine.generate_response.
    apply keeps_quota_admitted; [done | intros w; keeps_quota |].
    unfold GroqEngine._update_conversation, GroqEngine._get_fallback_response.
    keeps_quota.
  - unfold GroqEngine.stream_response.
    apply keeps_quota_admitted; [done | intros w; keeps_quota |].
    unfold GroqEngine._update_conversation, GroqEngine._get_fallback_response.
    keeps_quota.
  - unfold GroqEngine.clear_conversation. keeps_quota.
  - unfold GroqEngine.is_available.
    apply keeps_quota_try; [|intros x; keeps_quota].
    apply keeps_quota_available; [done | keeps_quota | keeps_quota].
  - apply wait_for_rate_limit_quota.
Qed.

Lemma run_calls_quota `{PyRuntime} (env : Env) (cs : list EngineCall) (e : GroqEngine.t)
    (n : nat) :
  clock_monotone env →
  (1 ≤ RateLimiter.max_requests (GroqEngine.rate_limiter e))%Z →
  within_quota env n (GroqEngine.rate_limiter e) →
  RateLimiter.max_requests (GroqEngine.rate_limiter (run_calls env cs e n).1) =
    RateLimiter.max_requests (GroqEngine.rate_limiter e) ∧
  within_quota env (run_calls env cs e n).2
    (GroqEngine.rate_limiter (run_calls env cs e n).1).
Proof.
  intros Hmono. revert e n.
  induction cs as [|c cs IH]; intros e n Hq Hin; [done|].
  cbn [run_calls].
  destruct (run_call_quota env c Hmono e n Hq Hin) as (_ & Hmax & Hin').
  unfold observed, final in Hmax, Hin'. cbn [fst snd] in Hmax, Hin'.
  destruct (IH _ _ ltac:(by rewrite Hmax) Hin') as [Hmax' Hin''].
  split; [congruence | done].
Qed.

(** X1.  An engine created with a quota of at least one request, driven
    by any sequence of calls under a clock that never runs backwards,
    never holds more request times within the window than its quota:
    at the last reading of the clock and at every later one, the
    requests recorded during the preceding window are at most the quota,
    which is still the one configured.  Every call of the provider is
    preceded by the recording of a request. *)
Theorem quota_respected `{PyRuntime} (env : Env) (cs : list EngineCall) (quota : Z)
    (model : pystr) (n k : nat) :
  clock_monotone env →
  (1 ≤ quota)%Z →
  (run_calls env cs (GroqEngine.init quota model) n).2 ≤ S k →
  RateLimiter.max_requests
    (GroqEngine.rate_limiter (run_calls env cs (GroqEngine.init quota model) n).1) = quota ∧
  (window_count (time_time env k)
     (GroqEngine.rate_limiter (run_calls env cs (GroqEngine.init quota model) n).1)
   ≤ quota)%Z.
Proof.
  intros Hmono Hq Hk.
  assert (within_quota env n (GroqEngine.rate_limiter (GroqEngine.init quota model)))
    as Hin.
  { unfold within_quota, recorded, window_count, GroqEngine.init, RateLimiter.init.
    cbn [GroqEngine.rate_limiter RateLimiter.requests RateLimiter.max_requests
         List.filter length].
    split; [split|].
    - intros i j a b _ Ha. by rewrite lookup_nil in Ha.
    - intros x Hx. inversion Hx.
    - intros j _. lia. }
  destruct (run_calls_quota env cs (GroqEngine.init quota model) n Hmono Hq Hin)
    as [Hmax [_ Hcount]].
  change (RateLimiter.max_requests (GroqEngine.rate_limiter (GroqEngine.init quota model)))
    with quota in Hmax.
  split; [exact Hmax|].
  specialize (Hcount k Hk). rewrite Hmax in Hcount. exact Hcount.
Qed.

(** The theorem at work: an engine with a quota of two that is asked
    for three replies and an availability check in a row, the clock
    advancing by a second per reading. *)
Lemma quota_respected_witness :
  RateLimiter.max_requests
    (GroqEngine.rate_limiter
       (@run_calls ascii_runtime quiet_env three_requests
          (GroqEngine.init 2 (lit "llama-3.1-8b-instant")) 0).1) = 2%Z ∧
  (window_count (time_time quiet_env 20)
     (GroqEngine.rate_limiter
        (@run_calls ascii_runtime quiet_env three_requests
           (GroqEngine.init 2 (lit "llama-3.1-8b-instant")) 0).1)
   ≤ 2)%Z.
Proof.
  apply (@quota_respected ascii_runtime quiet_env three_requests 2
           (lit "llama-3.1-8b-instant") 0 20).
  - exact quiet_env_monotone.
  - lia.
  - vm_compute. lia.
Defined.

(** ** The protocol of [stream_response] *)

Lemma stream_tokens_events (chunks : list (option pystr)) :
  GroqEngine.stream_tokens chunks =
  ((λ token, GroqEngine.TokenEvent token false) <$> omap id chunks,
   concat (omap id chunks)).
Proof.
  unfold GroqEngine.stream_tokens. f_equal.
  induction chunks as [|[token|] chunks IH]; cbn; [done | by f_equal | done].
Qed.

(** X2.  [stream_response] never raises; what it sends is decided by
    the rate check [check] that opens it and by the provider's stream.
    The check only evicts.
    - When the check refuses: the single error event, with the wait of
      the check, which is positive; no request is recorded and the
      history is as it was.
    - Otherwise one request is recorded, at the clock reading that
      follows the check, and the provider is called with the prompt of
      the message.
      - When the stream is read to its end: one event per text delta of
        the stream, in order and none marked done, then one done event
        with an empty token; the exchange stored for the conversation
        holds the message and the concatenation of the text deltas.
      - When the stream raises while it is read: the events of the
        text deltas read so far, then one done event that carries a
        template of the fallback table; the history is as it was.
      - When the call itself raises: one done event that carries a
        template of the fallback table; the history is as it was. *)
Theorem stream_response_protocol `{PyRuntime} (env : Env) (message cid : pystr)
    (context : list ChatMessage) (user_emotion : option EmotionDict)
    (e : GroqEngine.t) (n : nat) :
  let r := GroqEngine.stream_response env message cid context user_emotion e n in
  let check := GroqEngine.rate_check env e n in
  let kept := RateLimiter.requests (GroqEngine.rate_limiter (final check)) in
  let reqs' := RateLimiter.requests (GroqEngine.rate_limiter (final r)) in
  let prompt := GroqEngine._build_messages e message cid context user_emotion in
  let sent chunks := (λ token, GroqEngine.TokenEvent token false) <$> omap id chunks in
  (∃ k, kept = drop k (RateLimiter.requests (GroqEngine.rate_limiter e))) ∧
  match outcome check with
  | Ret (Some wait_time) =>
      (0 < wait_time)%Q ∧
      outcome r = Ret [GroqEngine.ErrorEvent wait_time] ∧
      reqs' = kept ∧
      GroqEngine.conversation_history (final r) = GroqEngine.conversation_history e
  | Ret None =>
      reqs' = kept ++ [time_time env (observed check)] ∧
      match groq_stream env (S (observed check)) prompt with
      | Some (chunks, true) =>
          outcome r = Ret (sent chunks ++ [GroqEngine.TokenEvent [] true]) ∧
          ∃ x,
            GroqEngine.ex_user x = message ∧
            GroqEngine.ex_assistant x = concat (omap id chunks) ∧
            GroqEngine.conversation_history (final r) =
              <[cid := keep_last 20
                         (default [] (GroqEngine.conversation_history e !! cid) ++ [x])]>
                (GroqEngine.conversation_history e)
      | Some (chunks, false) =>
          ∃ fallback,
            outcome r = Ret (sent chunks ++ [GroqEngine.TokenEvent fallback true]) ∧
            fallback ∈ GroqEngine.fallback_table user_emotion ∧
            GroqEngine.conversation_history (final r) = GroqEngine.conversation_history e
      | None =>
          ∃ fallback,
            outcome r = Ret [GroqEngine.TokenEvent fallback true] ∧
            fallback ∈ GroqEngine.fallback_table user_emotion ∧
            GroqEngine.conversation_history (final r) = GroqEngine.conversation_history e
      end
  | Exc _ => False
  end.
Proof.
  cbv zeta.
  destruct (rate_check_refusal env e n) as (refused & rl & n1 & k & Hrc & Hsuffix & Hpos).
  unfold GroqEngine.stream_response. py_run. rewrite Hrc.
  unfold outcome at 1. unfold final at 1 2 3, observed at 1 2. cbn [fst snd].
  change (RateLimiter.requests (GroqEngine.rate_limiter (GroqEngine.set_rate_limiter rl e)))
    with (RateLimiter.requests rl).
  split; [by exists k|].
  destruct refused as [w|].
  { split; [by apply Hpos|]. by split. }
  unfold GroqEngine.add_request, GroqEngine._get_fallback_response. py_run.
  rewrite !build_messages_limiter.
  destruct (groq_stream env (S n1) _) as [[chunks []]|].
  - rewrite stream_tokens_events.
    match goal with |- context [GroqEngine._update_conversation env cid message ?r ?e1 ?j] =>
      destruct (update_conversation_run env cid message r e1 j) as (x & -> & Hu & Ha)
    end.
    unfold outcome, final. cbn [fst snd].
    split; [done|]. split; [done|]. by exists x.
  - rewrite stream_tokens_events. cbn [fst].
    unfold outcome, final. cbn [fst snd].
    split; [done|]. eexists. split; [reflexivity|]. split; [|done].
    apply choice_elem, fallback_table_templates.
  - unfold outcome, final. cbn [fst snd].
    split; [done|]. eexists. split; [reflexivity|]. split; [|done].
    apply choice_elem, fallback_table_templates.
Qed.

(** ** The prompt *)

Lemma flat_map_length_2 {A B} (f : A → list B) (l : list A) :
  (∀ a, length (f a) = 2) → length (flat_map f l) = 2 * length l.
Proof.
  intros Hf. induction l as [|a l IH]; [done|].
  cbn [flat_map]. rewrite length_app, Hf, IH. cbn [length]. lia.
Qed.

(** X3.  The prompt built for a request opens with the system prompt,
    followed by at most one more system message (the emotion context),
    then replays the last ten exchanges stored for the conversation,
    oldest first, each as a user and an assistant message, and closes
    with the message of the request: at most 23 messages.  The context
    passed by the caller does not enter the prompt. *)
Theorem build_messages_shape (self : GroqEngine.t) (message cid : pystr)
    (context : list ChatMessage) (user_emotion : option EmotionDict) :
  let prompt := GroqEngine._build_messages self message cid context user_emotion in
  (∃ emotion_context,
     prompt =
       {| role := lit "system"; content := GroqEngine.system_prompt |} ::
       emotion_context ++
       flat_map replayed
         (last_n 10 (default [] (GroqEngine.conversation_history self !! cid))) ++
       [ {| role := lit "user"; content := message |} ] ∧
     length emotion_context ≤ 1 ∧
     Forall (λ m, role m = lit "system") emotion_context) ∧
  length prompt ≤ 23 ∧
  prompt = GroqEngine._build_messages self message cid [] user_emotion.
Proof.
  cbv zeta.
  assert (∀ h : list GroqEngine.Exchange, length (flat_map replayed (last_n 10 h)) ≤ 20)
    as Hreplay.
  { intros h. rewrite (flat_map_length_2 replayed) by done.
    pose proof (last_n_length 10 h). lia. }
  unfold GroqEngine._build_messages. cbv zeta.
  generalize GroqEngine.system_prompt. intros sp.
  set (sys := {| role := lit "system"; content := sp |}).
  match goal with |- context [if ?b then _ else _] => destruct b end;
    (destruct (GroqEngine.conversation_history self !! cid) as [h|] eqn:Hh;
     cbn [default];
     [ specialize (Hreplay h) | ]);
    (split; [|split; [|reflexivity]]).
  - eexists [_]. split; [|split].
    + rewrite <- !app_assoc. reflexivity.
    + cbn [length]. lia.
    + constructor; [reflexivity | constructor].
  - rewrite !length_app. cbn [length].
    change (flat_map _ (last_n 10 h)) with (flat_map replayed (last_n 10 h)). lia.
  - eexists [_]. split; [|split].
    + reflexivity.
    + cbn [length]. lia.
    + constructor; [reflexivity | constructor].
  - cbn [length app]. lia.
  - exists []. split; [|split].
    + reflexivity.
    + cbn [length]. lia.
    + constructor.
  - rewrite !length_app. cbn [length].
    change (flat_map _ (last_n 10 h)) with (flat_map replayed (last_n 10 h)). lia.
  - exists []. split; [|split].
    + reflexivity.
    + cbn [length]. lia.
    + constructor.
  - cbn [length app]. lia.
Qed.

(** ** A reply of the provider *)

Lemma rate_check_admits (env : Env) (e : GroqEngine.t) (n : nat) :
  (RateLimiter.can_make_request (time_time env n) (GroqEngine.rate_limiter e)).1 = true →
  GroqEngine.rate_check env e n =
  (Ret None,
   GroqEngine.set_rate_limiter
     (RateLimiter.can_make_request (time_time env n) (GroqEngine.rate_limiter e)).2 e,
   S n).
Proof.
  intros Hok. unfold GroqEngine.rate_check, GroqEngine.can_make_request. py_run.
  destruct (RateLimiter.can_make_request (time_time env n) (GroqEngine.rate_limiter e))
    as [ok rl].
  cbn [fst snd] in *. by rewrite Hok.
Qed.

Lemma last_n_snoc_last {A} (k : nat) (xs : list A) (x : A) :
  0 < k → ∃ before, last_n k (xs ++ [x]) = before ++ [x].
Proof.
  intros Hk. unfold last_n. rewrite length_app. cbn [length].
  exists (drop (length xs + 1 - k) xs).
  rewrite drop_app_le by lia. done.
Qed.

Lemma last_n_last_n {A} (j k : nat) (xs : list A) :
  j ≤ k → last_n j (last_n k xs) = last_n j xs.
Proof.
  intros Hjk. unfold last_n. rewrite length_drop, drop_drop. f_equal. lia.
Qed.

(** The parts of a prompt. *)
Lemma build_messages_parts (self : GroqEngine.t) (message cid : pystr)
    (context : list ChatMessage) (user_emotion : option EmotionDict) :
  ∃ opening,
    GroqEngine._build_messages self message cid context user_emotion =
    opening ++
    flat_map replayed
      (last_n 10 (default [] (GroqEngine.conversation_history self !! cid))) ++
    [ {| role := lit "user"; content := message |} ].
Proof.
  unfold GroqEngine._build_messages. cbv zeta.
  generalize GroqEngine.system_prompt. intros sp.
  match goal with |- context [if ?b then _ else _] => destruct b end;
    destruct (GroqEngine.conversation_history self !! cid) as [h|] eqn:Hh.
  - eexists [_; _]. rewrite <- !app_assoc. reflexivity.
  - eexists [_; _]. reflexivity.
  - eexists [_]. reflexivity.
  - eexists [_]. reflexivity.
Qed.

(** X4.  When the limiter has a free slot and the provider answers,
    [generate_response] returns the provider's text and stores the
    exchange, stamped with the current time, as the last one of the
    conversation, which is truncated to 20 exchanges; the other
    conversations are left as they were.  The next prompt built for
    the conversation ends with the replay of this exchange, followed
    by the new message. *)
Theorem generate_response_success `{PyRuntime} (env : Env) (message cid : pystr)
    (context : list ChatMessage) (user_emotion : option EmotionDict)
    (e : GroqEngine.t) (n : nat) (reply : pystr) :
  (RateLimiter.can_make_request (time_time env n) (GroqEngine.rate_limiter e)).1 = true →
  groq_complete env (S (S n))
    (GroqEngine._build_messages e message cid context user_emotion) = Some reply →
  let r := GroqEngine.generate_response env message cid context user_emotion false e n in
  let x := {| GroqEngine.ex_user := message; GroqEngine.ex_assistant := reply;
              GroqEngine.ex_timestamp := datetime_now env (S (S (S n))) |} in
  outcome r = Ret (GroqEngine.Text reply) ∧
  GroqEngine.conversation_history (final r) !! cid =
    Some (keep_last 20 (default [] (GroqEngine.conversation_history e !! cid) ++ [x])) ∧
  (∀ cid', cid' ≠ cid →
     GroqEngine.conversation_history (final r) !! cid' =
     GroqEngine.conversation_history e !! cid') ∧
  ∀ message' context' user_emotion',
    ∃ before,
      GroqEngine._build_messages (final r) message' cid context' user_emotion' =
      before ++ replayed x ++ [ {| role := lit "user"; content := message' |} ].
Proof.
  intros Hok Hreply. cbv zeta.
  set (x := {| GroqEngine.ex_user := message; GroqEngine.ex_assistant := reply;
               GroqEngine.ex_timestamp := datetime_now env (S (S (S n))) |}).
  assert (GroqEngine.generate_response env message cid context user_emotion false e n =
          (Ret (GroqEngine.Text reply),
           GroqEngine.set_history
             (<[cid := keep_last 20
                         (default [] (GroqEngine.conversation_history e !! cid) ++ [x])]>
                (GroqEngine.conversation_history e))
             (GroqEngine.set_rate_limiter
                (RateLimiter.add_request (time_time env (S n))
                   (RateLimiter.can_make_request (time_time env n)
                      (GroqEngine.rate_limiter e)).2) e),
           S (S (S (S n))))) as Hrun.
  { unfold GroqEngine.generate_response.
    unfold mbind at 1. unfold py_mbind, PyM.bind. rewrite (rate_check_admits env e n Hok).
    unfold GroqEngine.add_request. py_run.
    rewrite !build_messages_limiter, Hreply.
    unfold GroqEngine._update_conversation. py_run. reflexivity. }
  rewrite Hrun. unfold outcome, final. cbn [fst snd].
  split; [done|].
  assert (∀ h rl e0, GroqEngine.conversation_history
                       (GroqEngine.set_history h (GroqEngine.set_rate_limiter rl e0)) = h)
    as Hhist by done.
  rewrite Hhist.
  split; [by rewrite lookup_insert_eq|].
  split; [intros cid' Hne; by rewrite lookup_insert_ne|].
  intros message' context' user_emotion'.
  set (h0 := default [] (GroqEngine.conversation_history e !! cid)).
  destruct (build_messages_parts
              (GroqEngine.set_history (<[cid := keep_last 20 (h0 ++ [x])]>
                                         (GroqEngine.conversation_history e))
                 (GroqEngine.set_rate_limiter
                    (RateLimiter.add_request (time_time env (S n))
                       (RateLimiter.can_make_request (time_time env n)
                          (GroqEngine.rate_limiter e)).2) e))
              message' cid context' user_emotion') as [opening ->].
  rewrite Hhist, lookup_insert_eq.
  change (default [] (Some (keep_last 20 (h0 ++ [x])))) with (keep_last 20 (h0 ++ [x])).
  rewrite keep_last_last_n, last_n_last_n by lia.
  destruct (last_n_snoc_last 10 h0 x ltac:(lia)) as [before ->].
  rewrite flat_map_app. cbn [flat_map]. rewrite app_nil_r.
  exists (opening ++ flat_map replayed before).
  rewrite <- !app_assoc. reflexivity.
Qed.

(** The theorem at work: the provider of [answering_env] answers the
    first request made to a new engine, and the prompt of the second
    request replays the exchange. *)
Lemma generate_response_success_witness :
  outcome (@GroqEngine.generate_response ascii_runtime answering_env (lit "hello")
             (lit "c1") [] None false default_engine 0)
    = Ret (GroqEngine.Text (lit "Sure.")) ∧
  ∃ before,
    GroqEngine._build_messages
      (final (@GroqEngine.generate_response ascii_runtime answering_env (lit "hello")
                (lit "c1") [] None false default_engine 0))
      (lit "and then?") (lit "c1") [] None =
    before ++
    [ {| role := lit "user"; content := lit "hello" |};
      {| role := lit "assistant"; content := lit "Sure." |};
      {| role := lit "user"; content := lit "and then?" |} ].
Proof.
  destruct (@generate_response_success ascii_runtime answering_env (lit "hello") (lit "c1")
              [] None default_engine 0 (lit "Sure.") eq_refl eq_refl)
    as (Hout & _ & _ & Hnext).
  split; [exact Hout|].
  exact (Hnext (lit "and then?") [] None).
Defined.

Lemma build_messages_history (self self' : GroqEngine.t) (message cid : pystr)
    (context context' : list ChatMessage) (user_emotion : option EmotionDict) :
  GroqEngine.conversation_history self !! cid =
    GroqEngine.conversation_history self' !! cid →
  GroqEngine._build_messages self message cid context user_emotion =
  GroqEngine._build_messages self' message cid context' user_emotion.
Proof.
  intros Hsame. unfold GroqEngine._build_messages. cbv zeta. by rewrite Hsame.
Qed.

(** X5.  [clear_conversation] forgets one conversation and nothing
    else: the prompt built for it afterwards is that of an engine
    without any history, the prompts of the other conversations are
    as before, the requests recorded by the limiter stay recorded, and
    clearing a second time changes nothing. *)
Theorem clear_conversation_forgets (cid : pystr) (e : GroqEngine.t) (n : nat) :
  let r := GroqEngine.clear_conversation cid e n in
  outcome r = Ret tt ∧
  GroqEngine.rate_limiter (final r) = GroqEngine.rate_limiter e ∧
  (∀ message context user_emotion,
     GroqEngine._build_messages (final r) message cid context user_emotion =
     GroqEngine._build_messages (GroqEngine.set_history ∅ e) message cid context
       user_emotion) ∧
  (∀ cid' message context user_emotion,
     cid' ≠ cid →
     GroqEngine._build_messages (final r) message cid' context user_emotion =
     GroqEngine._build_messages e message cid' context user_emotion) ∧
  final (GroqEngine.clear_conversation cid (final r) (observed r)) = final r.
Proof.
  cbv zeta. unfold GroqEngine.clear_conversation, PyM.modify, outcome, final, observed.
  cbn [fst snd].
  split; [done|]. split; [done|]. split; [|split].
  - intros message context user_emotion. apply build_messages_history.
    cbn [GroqEngine.conversation_history GroqEngine.set_history].
    by rewrite lookup_delete_eq, lookup_empty.
  - intros cid' message context user_emotion Hne. apply build_messages_history.
    cbn [GroqEngine.conversation_history GroqEngine.set_history].
    by rewrite lookup_delete_ne.
  - unfold GroqEngine.set_history.
    cbn [GroqEngine.conversation_history GroqEngine.rate_limiter GroqEngine.model].
    by rewrite delete_delete_eq.
Qed.

(** ** The statistics of the engine *)

Lemma can_make_request_suffix (now : Q) (rl : RateLimiter.t) :
  ∃ k, RateLimiter.requests (RateLimiter.can_make_request now rl).2 =
       drop k (RateLimiter.requests rl).
Proof.
  unfold RateLimiter.can_make_request. cbn [snd RateLimiter.requests].
  apply evict_drop.
Qed.

(** A check that admits is followed by checks that admit, as long as no
    request is recorded. *)
Lemma can_make_request_still (now now' : Q) (rl : RateLimiter.t) :
  (RateLimiter.can_make_request now rl).1 = true →
  (RateLimiter.can_make_request now' (RateLimiter.can_make_request now rl).2).1 = true.
Proof.
  destruct (can_make_request_suffix now' (RateLimiter.can_make_request now rl).2)
    as [k Hk].
  unfold RateLimiter.can_make_request in *.
  cbn [fst snd RateLimiter.requests RateLimiter.max_requests RateLimiter.time_window] in *.
  rewrite Hk, length_drop. rewrite !Z.ltb_lt. lia.
Qed.

(** [get_stats] in closed form on an engine with a free slot. *)
Lemma get_stats_run (env : Env) (e : GroqEngine.t) (n : nat) :
  (RateLimiter.can_make_request (time_time env n) (GroqEngine.rate_limiter e)).1 = true →
  let c1 := RateLimiter.can_make_request (time_time env n) (GroqEngine.rate_limiter e) in
  let c2 := RateLimiter.can_make_request (time_time env (S n)) c1.2 in
  let c3 := RateLimiter.can_make_request (time_time env (S (S n))) c2.2 in
  GroqEngine.get_stats env e n =
  (Ret {| GroqEngine.st_model := GroqEngine.model e;
          GroqEngine.st_rate_limit :=
            {| GroqEngine.rs_max_requests :=
                 RateLimiter.max_requests (GroqEngine.rate_limiter e);
               GroqEngine.rs_current_requests :=
                 Z.of_nat (length (RateLimiter.requests (GroqEngine.rate_limiter e)));
               GroqEngine.rs_can_make_request := true;
               GroqEngine.rs_wait_time := 0%Q |};
          GroqEngine.st_conversations :=
            Z.of_nat (size (GroqEngine.conversation_history e));
          GroqEngine.st_available :=
            match groq_complete env (S (S (S (S n))))
                    [ {| role := lit "user"; content := lit "Hi" |} ] with
            | Some text => bool_decide (text ≠ [])
            | None => false
            end |},
   GroqEngine.set_rate_limiter
     (RateLimiter.add_request (time_time env (S (S (S n)))) c3.2) e,
   S (S (S (S (S n))))).
Proof.
  intros Hok1. cbv zeta.
  set (rl0 := GroqEngine.rate_limiter e) in *.
  set (c1 := RateLimiter.can_make_request (time_time env n) rl0) in *.
  set (c2 := RateLimiter.can_make_request (time_time env (S n)) c1.2).
  set (c3 := RateLimiter.can_make_request (time_time env (S (S n))) c2.2).
  assert (c2.1 = true) as Hok2 by (by apply can_make_request_still).
  assert (c3.1 = true) as Hok3 by (by apply can_make_request_still).
  unfold GroqEngine.get_stats.
  unfold mbind at 1 2. unfold py_mbind, PyM.bind, PyM.get.
  unfold GroqEngine.can_make_request at 1. py_run.
  fold rl0. fold c1. clearbody c1. destruct c1 as [ok1 rl1]. cbn [fst snd] in *. subst ok1.
  rewrite wait_for_rate_limit_run. cbv zeta.
  change (GroqEngine.rate_limiter (GroqEngine.set_rate_limiter rl1 e)) with rl1.
  fold c2. clearbody c2. destruct c2 as [ok2 rl2]. cbn [fst snd] in *. subst ok2.
  unfold GroqEngine.is_available, GroqEngine.can_make_request, GroqEngine.add_request.
  py_run.
  change (GroqEngine.rate_limiter
            (GroqEngine.set_rate_limiter rl2 (GroqEngine.set_rate_limiter rl1 e)))
    with rl2.
  fold c3. clearbody c3. destruct c3 as [ok3 rl3]. cbn [fst snd] in *. subst ok3.
  destruct (groq_complete env (S (S (S (S n)))) _) as [text|]; reflexivity.
Qed.

(** X6.  Asking for the statistics is itself a request.  On an engine
    whose limiter has a free slot, [get_stats] returns normally; it
    reports the number of request times held before any eviction, that
    a request can be made and a wait of zero; its availability check
    then records one request and calls the provider, and the engine is
    reported available exactly when the provider answers with a text
    that is not empty.  The conversations are left as they were. *)
Theorem get_stats_records_request (env : Env) (e : GroqEngine.t) (n : nat) :
  (RateLimiter.can_make_request (time_time env n) (GroqEngine.rate_limiter e)).1 = true →
  let r := GroqEngine.get_stats env e n in
  ∃ stats k,
    outcome r = Ret stats ∧
    GroqEngine.st_model stats = GroqEngine.model e ∧
    GroqEngine.st_conversations stats =
      Z.of_nat (size (GroqEngine.conversation_history e)) ∧
    GroqEngine.rs_max_requests (GroqEngine.st_rate_limit stats) =
      RateLimiter.max_requests (GroqEngine.rate_limiter e) ∧
    GroqEngine.rs_current_requests (GroqEngine.st_rate_limit stats) =
      Z.of_nat (length (RateLimiter.requests (GroqEngine.rate_limiter e))) ∧
    GroqEngine.rs_can_make_request (GroqEngine.st_rate_limit stats) = true ∧
    GroqEngine.rs_wait_time (GroqEngine.st_rate_limit stats) = 0%Q ∧
    GroqEngine.st_available stats =
      match groq_complete env (S (S (S (S n))))
              [ {| role := lit "user"; content := lit "Hi" |} ] with
      | Some text => bool_decide (text ≠ [])
      | None => false
      end ∧
    RateLimiter.requests (GroqEngine.rate_limiter (final r)) =
      drop k (RateLimiter.requests (GroqEngine.rate_limiter e)) ++
      [time_time env (S (S (S n)))] ∧
    GroqEngine.conversation_history (final r) = GroqEngine.conversation_history e.
Proof.
  intros Hok1. cbv zeta. rewrite (get_stats_run env e n Hok1). cbv zeta.
  set (rl0 := GroqEngine.rate_limiter e).
  set (c1 := RateLimiter.can_make_request (time_time env n) rl0).
  set (c2 := RateLimiter.can_make_request (time_time env (S n)) c1.2).
  set (c3 := RateLimiter.can_make_request (time_time env (S (S n))) c2.2).
  assert (∃ k, RateLimiter.requests c3.2 = drop k (RateLimiter.requests rl0)) as [k Hk].
  { destruct (can_make_request_suffix (time_time env n) rl0) as [k1 Hk1].
    destruct (can_make_request_suffix (time_time env (S n)) c1.2) as [k2 Hk2].
    destruct (can_make_request_suffix (time_time env (S (S n))) c2.2) as [k3 Hk3].
    exists (k1 + k2 + k3). fold c1 in Hk1. fold c2 in Hk2. fold c3 in Hk3.
    rewrite Hk3, Hk2, Hk1, !drop_drop. f_equal. lia. }
  eexists _, k. unfold outcome, final. cbn [fst snd].
  split; [reflexivity|].
  cbn [GroqEngine.st_model GroqEngine.st_conversations GroqEngine.st_rate_limit
       GroqEngine.st_available GroqEngine.rs_max_requests
       GroqEngine.rs_current_requests GroqEngine.rs_can_make_request
       GroqEngine.rs_wait_time GroqEngine.rate_limiter GroqEngine.set_rate_limiter
       GroqEngine.conversation_history GroqEngine.model
       RateLimiter.add_request RateLimiter.requests].
  rewrite Hk. done.
Qed.

(** The theorem at work: the statistics of a new engine whose provider
    answers; one request is recorded by the time they are returned. *)
Lemma get_stats_records_request_witness :
  ∃ stats k,
    outcome (GroqEngine.get_stats answering_env default_engine 0) = Ret stats ∧
    GroqEngine.rs_current_requests (GroqEngine.st_rate_limit stats) = 0%Z ∧
    GroqEngine.st_available stats = true ∧
    RateLimiter.requests
      (GroqEngine.rate_limiter (final (GroqEngine.get_stats answering_env default_engine 0)))
    = drop k [] ++ [time_time answering_env 3].
Proof.
  destruct (get_stats_records_request answering_env default_engine 0 eq_refl)
    as (stats & k & Hout & _ & _ & _ & Hcur & _ & _ & Havail & Hreqs & _).
  exists stats, k. split; [exact Hout|]. split; [exact Hcur|].
  split; [exact Havail | exact Hreqs].
Defined.

(** ** [backend/main.py]: the chat endpoint over the engine *)



(** ** The bookkeeping of the profile store *)

(** One update step by step: the profile [p0] that is loaded, the
    emotional profile [ep] and the facts [mf] computed from it, and the
    profile that is written and returned. *)
Lemma update_from_message_trace `{PyRuntime} (env : Env) (uid message : pystr)
    (em : option EmotionDict) (m : UserMemory.t) (n : nat) :
  ∃ p0 n0 ep n1 mf n2,
    (UserMemory.disk m !! uid = Some p0 ∨
     (UserMemory.disk m !! uid = None ∧
      outcome (UserMemory._create_new_profile env uid m n) = Ret p0)) ∧
    let pa :=
      UserMemory._analyze_communication_style
        (UserMemory.set_statistics
           (UserMemory.set_total_messages
              (UserMemory.total_messages (UserMemory.statistics p0) + 1)
              (UserMemory.statistics p0)) p0) message in
    UserMemory._update_emotional_profile env pa em m n0 =
      (Ret (UserMemory.set_emotional_profile ep pa), m, n1) ∧
    UserMemory._extract_facts env (UserMemory.set_emotional_profile ep pa) message m n1 =
      (Ret (UserMemory.set_memory_facts mf (UserMemory.set_emotional_profile ep pa)), m, n2) ∧
    let p' :=
      UserMemory.set_statistics
        (UserMemory.set_last_interaction (Some (datetime_now env (S n2)))
           (UserMemory.statistics pa))
        (UserMemory.set_conversation_history
           (keep_last 100
              (UserMemory.conversation_history p0 ++
               [ {| UserMemory.he_timestamp := datetime_now env n2;
                    UserMemory.he_message := message;
                    UserMemory.he_emotion := em |} ]))
           (UserMemory.set_memory_facts mf (UserMemory.set_emotional_profile ep pa))) in
    UserMemory.update_from_message env uid message em m n =
      (Ret p', {| UserMemory.disk := <[uid := p']> (UserMemory.disk m) |}, S (S n2)).
Proof.
  destruct (load_profile_run env uid m n) as (p0 & n0 & Hload & Hp0).
  exists p0, n0. cbv zeta.
  set (pa := UserMemory._analyze_communication_style _ message).
  destruct (update_emotional_profile_run env pa em m n0) as (ep & n1 & Hep & _).
  destruct (extract_facts_run env (UserMemory.set_emotional_profile ep pa) message m n1)
    as (mf & n2 & Hmf).
  exists ep, n1, mf, n2.
  split; [exact Hp0|]. split; [exact Hep|]. split; [exact Hmf|].
  unfold UserMemory.update_from_message. py_run. rewrite Hload. cbv zeta.
  fold pa. rewrite Hep, Hmf.
  unfold UserMemory.save_profile. py_run. cbv zeta. reflexivity.
Qed.

Lemma create_new_profile_value (env : Env) (uid : pystr) (m : UserMemory.t) (n : nat)
    (p0 : UserMemory.Profile) :
  outcome (UserMemory._create_new_profile env uid m n) = Ret p0 →
  UserMemory.user_id p0 = uid ∧
  UserMemory.statistics p0 =
    {| UserMemory.total_messages := 0; UserMemory.total_conversations := 0;
       UserMemory.average_session_length := 0; UserMemory.last_interaction := None;
       UserMemory.topics_discussed := [] |} ∧
  UserMemory.emotional_profile p0 =
    {| UserMemory.baseline_sentiment := 0.0; UserMemory.emotion_history := [];
       UserMemory.stress_level := 0.0; UserMemory.common_emotions := [] |} ∧
  UserMemory.memory_facts p0 =
    {| UserMemory.personal :=
         {| UserMemory.name := None; UserMemory.age := None;
            UserMemory.location := None; UserMemory.job := None |};
       UserMemory.relationships := []; UserMemory.goals := [];
       UserMemory.challenges := []; UserMemory.achievements := [];
       UserMemory.mf_preferences :=
         {| UserMemory.likes := None; UserMemory.dislikes := None |} |} ∧
  UserMemory.conversation_history p0 = [] ∧
  UserMemory.personality p0 =
    {| UserMemory.communication_style := lit "neutral";
       UserMemory.vocabulary_level := lit "medium";
       UserMemory.emoji_usage := 0.0; UserMemory.humor_preference := 0.5;
       UserMemory.formality := 0.5; UserMemory.verbosity := 0.5 |} ∧
  never_learned p0.
Proof.
  unfold UserMemory._create_new_profile, outcome. py_run. cbn [fst].
  intros [= <-]. unfold never_learned.
  cbn [UserMemory.user_id UserMemory.statistics UserMemory.emotional_profile
       UserMemory.memory_facts UserMemory.conversation_history UserMemory.personality
       UserMemory.decision_making UserMemory.learning_style UserMemory.preferences
       UserMemory.vocabulary_level UserMemory.communication_style
       UserMemory.humor_preference UserMemory.stress_level].
  split_and!; reflexivity.
Qed.





(** ** The baseline sentiment *)

Lemma baseline_is_mean_ext (p p' : UserMemory.Profile) :
  UserMemory.emotional_profile p' = UserMemory.emotional_profile p →
  baseline_is_mean p → baseline_is_mean p'.
Proof. unfold baseline_is_mean, recent_sentiments. by intros ->. Qed.

(** An update of the emotional profile leaves the baseline as the mean
    of the recent sentiments. *)
Lemma update_emotional_profile_baseline (env : Env) (p : UserMemory.Profile)
    (em : option EmotionDict) (m : UserMemory.t) (n : nat) :
  baseline_is_mean p →
  ∃ q n',
    UserMemory._update_emotional_profile env p em m n = (Ret q, m, n') ∧
    baseline_is_mean q.
Proof.
  intros Hp. unfold UserMemory._update_emotional_profile. py_run.
  destruct (dict_truthy em); [|by exists p, n].
  cbv zeta.
  set (hist := keep_last 50 (UserMemory.emotion_history (UserMemory.emotional_profile p) ++ _)).
  assert (∃ s rest, map UserMemory.ee_sentiment (last_n 20 hist) = s :: rest)
    as (s & rest & Hrecent).
  { unfold hist. rewrite keep_last_last_n, last_n_last_n by lia.
    match goal with |- context [last_n 20 (?l ++ [?x])] =>
      destruct (last_n_snoc_last 20 l x ltac:(lia)) as [before ->]
    end.
    rewrite map_app. cbn [map].
    destruct (map UserMemory.ee_sentiment before); by eexists _, _. }
  rewrite Hrecent.
  eexists _, _. split; [reflexivity|].
  unfold baseline_is_mean, recent_sentiments.
  cbn [UserMemory.emotional_profile UserMemory.set_emotional_profile
       UserMemory.emotion_history UserMemory.set_baseline_sentiment
       UserMemory.set_emotion_history UserMemory.baseline_sentiment].
  rewrite Hrecent. reflexivity.
Qed.

Lemma update_store_baseline `{PyRuntime} (env : Env) (uid message : pystr)
    (em : option EmotionDict) (m : UserMemory.t) (n : nat) :
  map_Forall (λ _, baseline_is_mean) (UserMemory.disk m) →
  map_Forall (λ _, baseline_is_mean)
    (UserMemory.disk (final (UserMemory.update_from_message env uid message em m n))).
Proof.
  intros Hstore.
  destruct (update_from_message_trace env uid message em m n)
    as (p0 & n0 & ep & n1 & mf & n2 & Hp0 & Hep & _ & Hrun).
  cbv zeta in Hep, Hrun. rewrite Hrun. clear Hrun.
  unfold final. cbn [fst snd UserMemory.disk].
  apply map_Forall_insert_2; [|done].
  assert (baseline_is_mean p0) as Hb0.
  { destruct Hp0 as [Hlook | [_ Hnew]]; [by eapply Hstore|].
    apply create_new_profile_value in Hnew as (_ & _ & Hnew & _).
    unfold baseline_is_mean, recent_sentiments. rewrite Hnew.
    cbn [UserMemory.emotion_history UserMemory.baseline_sentiment]. cbn. reflexivity. }
  match type of Hep with UserMemory._update_emotional_profile env ?pa em m n0 = _ =>
    destruct (update_emotional_profile_baseline env pa em m n0) as (q & n' & Hq & Hbq);
      [by eapply baseline_is_mean_ext; [|exact Hb0]|]
  end.
  rewrite Hep in Hq. injection Hq as <- _.
  by eapply baseline_is_mean_ext; [|exact Hbq].
Qed.

Lemma run_updates_baseline `{PyRuntime} (env : Env) (us : list Update)
    (m : UserMemory.t) (n : nat) :
  map_Forall (λ _, baseline_is_mean) (UserMemory.disk m) →
  map_Forall (λ _, baseline_is_mean) (UserMemory.disk (run_updates env us m n).1).
Proof.
  revert m n. induction us as [|u us IH]; intros m n Hstore; [done|].
  cbn [run_updates]. apply IH. by apply update_store_baseline.
Qed.

(** X9.  Start from an empty store and make any sequence of updates,
    for any users, with or without an emotion reading.  In every stored
    profile the baseline sentiment is the mean of the sentiments of the
    last 20 emotion readings kept in the profile, and zero when the
    profile holds no reading. *)
Theorem baseline_is_recent_mean `{PyRuntime} (env : Env) (us : list Update) (n : nat) :
  map_Forall (λ _, baseline_is_mean)
    (UserMemory.disk (run_updates env us UserMemory.init n).1).
Proof. apply run_updates_baseline, map_Forall_empty. Qed.

(** ** The personal facts *)

Lemma for_patterns_keeps (P : UserMemory.Personal → Prop) (patterns : list Re.regex)
    (lower_msg : pystr) (store : pystr → UserMemory.Personal → UserMemory.Personal)
    (x : UserMemory.Personal) :
  (∀ g y, P y → P (store g y)) → P x →
  P (UserMemory.for_patterns patterns lower_msg store x).
Proof.
  intros Hstore. unfold UserMemory.for_patterns. revert x.
  induction patterns as [|pattern patterns IH]; intros x Hx; [done|].
  cbn [fold_left]. apply IH. destruct (Re.search pattern lower_msg); [by apply Hstore | done].
Qed.

Lemma store_name_valid `{PyRuntime} (g : pystr) (x : UserMemory.Personal) :
  personal_valid x → personal_valid (UserMemory.store_name g x).
Proof. unfold UserMemory.store_name. by case_bool_decide. Qed.

Lemma store_age_valid `{PyRuntime} (g : pystr) (x : UserMemory.Personal) :
  personal_valid x → personal_valid (UserMemory.store_age g x).
Proof.
  unfold UserMemory.store_age. cbv zeta.
  destruct ((5 <=? Re.int_of_digits g)%Z && (Re.int_of_digits g <=? 120)%Z) eqn:Hcheck;
    [|done].
  apply andb_true_iff in Hcheck as [Hlo Hhi]. apply Z.leb_le in Hlo, Hhi.
  intros (_ & Hloc & Hjob). split; [|by split].
  cbn [UserMemory.age]. intros a [= <-]. lia.
Qed.

Lemma store_location_valid `{PyRuntime} (g : pystr) (x : UserMemory.Personal) :
  personal_valid x → personal_valid (UserMemory.store_location g x).
Proof.
  unfold UserMemory.store_location. cbv zeta. case_bool_decide as Hcheck; [|done].
  intros (Hage & _ & Hjob). split; [done|]. split; [|done].
  cbn [UserMemory.location]. by intros l [= <-].
Qed.

Lemma store_job_valid `{PyRuntime} (g : pystr) (x : UserMemory.Personal) :
  personal_valid x → personal_valid (UserMemory.store_job g x).
Proof.
  unfold UserMemory.store_job. cbv zeta. case_bool_decide as Hcheck; [|done].
  intros (Hage & Hloc & _). split; [done|]. split; [done|].
  cbn [UserMemory.job]. by intros j [= <-].
Qed.

Lemma extract_facts_valid `{PyRuntime} (env : Env) (p : UserMemory.Profile)
    (message : pystr) (m : UserMemory.t) (n : nat) :
  facts_valid p →
  ∃ q n',
    UserMemory._extract_facts env p message m n = (Ret q, m, n') ∧ facts_valid q.
Proof.
  intros Hp. unfold UserMemory._extract_facts. py_run. cbv zeta.
  set (pers :=
    UserMemory.for_patterns UserMemory.job_patterns (lower message) UserMemory.store_job
      (UserMemory.for_patterns UserMemory.location_patterns (lower message)
         UserMemory.store_location
         (UserMemory.for_patterns UserMemory.age_patterns (lower message)
            UserMemory.store_age
            (UserMemory.for_patterns UserMemory.name_patterns (lower message)
               UserMemory.store_name
               (UserMemory.personal (UserMemory.memory_facts p)))))).
  assert (personal_valid pers) as Hpers.
  { unfold pers.
    apply for_patterns_keeps; [apply store_job_valid|].
    apply for_patterns_keeps; [apply store_location_valid|].
    apply for_patterns_keeps; [apply store_age_valid|].
    apply for_patterns_keeps; [apply store_name_valid|].
    exact Hp. }
  clearbody pers.
  destruct (any_in UserMemory.goal_keywords (lower message));
    destruct (any_in UserMemory.challenge_keywords (lower message));
    destruct (any_in UserMemory.achievement_keywords (lower message));
    eexists _, _; (split; [reflexivity|]); exact Hpers.
Qed.

Lemma facts_valid_ext (p p' : UserMemory.Profile) :
  UserMemory.memory_facts p' = UserMemory.memory_facts p →
  facts_valid p → facts_valid p'.
Proof. unfold facts_valid. by intros ->. Qed.

Lemma update_store_facts `{PyRuntime} (env : Env) (uid message : pystr)
    (em : option EmotionDict) (m : UserMemory.t) (n : nat) :
  map_Forall (λ _, facts_valid) (UserMemory.disk m) →
  map_Forall (λ _, facts_valid)
    (UserMemory.disk (final (UserMemory.update_from_message env uid message em m n))).
Proof.
  intros Hstore.
  destruct (update_from_message_trace env uid message em m n)
    as (p0 & n0 & ep & n1 & mf & n2 & Hp0 & _ & Hmf & Hrun).
  cbv zeta in Hmf, Hrun. rewrite Hrun. clear Hrun.
  unfold final. cbn [fst snd UserMemory.disk].
  apply map_Forall_insert_2; [|done].
  assert (facts_valid p0) as Hb0.
  { destruct Hp0 as [Hlook | [_ Hnew]]; [by eapply Hstore|].
    apply create_new_profile_value in Hnew as (_ & _ & _ & Hnew & _).
    unfold facts_valid. rewrite Hnew.
    cbn [UserMemory.personal UserMemory.age UserMemory.location UserMemory.job].
    by split_and!. }
  match type of Hmf with UserMemory._extract_facts env ?pe message m n1 = _ =>
    destruct (extract_facts_valid env pe message m n1) as (q & n' & Hq & Hbq);
      [by eapply facts_valid_ext; [|exact Hb0]|]
  end.
  rewrite Hmf in Hq. injection Hq as <- _.
  by eapply facts_valid_ext; [|exact Hbq].
Qed.

Lemma run_updates_facts `{PyRuntime} (env : Env) (us : list Update)
    (m : UserMemory.t) (n : nat) :
  map_Forall (λ _, facts_valid) (UserMemory.disk m) →
  map_Forall (λ _, facts_valid) (UserMemory.disk (run_updates env us m n).1).
Proof.
  revert m n. induction us as [|u us IH]; intros m n Hstore; [done|].
  cbn [run_updates]. apply IH. by apply update_store_facts.
Qed.

(** X10.  Start from an empty store and make any sequence of updates,
    for any users and any messages.  Whatever the messages say, an age
    held in a stored profile lies between 5 and 120, a location has at
    most three words and a job at most four. *)
Theorem stored_facts_valid `{PyRuntime} (env : Env) (us : list Update) (n : nat) :
  map_Forall (λ _, facts_valid)
    (UserMemory.disk (run_updates env us UserMemory.init n).1).
Proof. apply run_updates_facts, map_Forall_empty. Qed.

(** ** What no update learns *)

Lemma analyze_style_untouched `{PyRuntime} (p : UserMemory.Profile) (message : pystr) :
  let q := UserMemory._analyze_communication_style p message in
  UserMemory.decision_making q = UserMemory.decision_making p ∧
  UserMemory.learning_style q = UserMemory.learning_style p ∧
  UserMemory.preferences q = UserMemory.preferences p ∧
  UserMemory.emotional_profile q = UserMemory.emotional_profile p ∧
  UserMemory.vocabulary_level (UserMemory.personality q) =
    UserMemory.vocabulary_level (UserMemory.personality p) ∧
  UserMemory.communication_style (UserMemory.personality q) =
    UserMemory.communication_style (UserMemory.personality p) ∧
  UserMemory.humor_preference (UserMemory.personality q) =
    UserMemory.humor_preference (UserMemory.personality p).
Proof.
  unfold UserMemory._analyze_communication_style. cbv zeta.
  generalize (endswith (lit "?") (strip message)). intros is_question.
  generalize (count_in UserMemory.formal_words (lower message)),
             (count_in UserMemory.casual_words (lower message)),
             (Z.of_nat (length (split_ws message))).
  intros formal_count casual_count word_count.
  destruct (casual_count <? formal_count)%Z, (formal_count <? casual_count)%Z,
           (30 <? word_count)%Z, (word_count <? 10)%Z,
           (Qeq_bool (UserMemory.average_message_length
                        (UserMemory.communication_patterns p)) 0);
    cbn [UserMemory.decision_making UserMemory.learning_style UserMemory.preferences
         UserMemory.emotional_profile UserMemory.vocabulary_level
         UserMemory.communication_style UserMemory.humor_preference
         UserMemory.personality UserMemory.communication_patterns
         UserMemory.set_communication_patterns UserMemory.set_personality
         UserMemory.set_emoji_usage UserMemory.set_formality UserMemory.set_verbosity
         UserMemory.set_average_message_length UserMemory.set_question_frequency];
    split_and!; reflexivity.
Qed.

Lemma update_emotional_profile_stress (env : Env) (p : UserMemory.Profile)
    (em : option EmotionDict) (m : UserMemory.t) (n : nat) :
  ∃ q n',
    UserMemory._update_emotional_profile env p em m n = (Ret q, m, n') ∧
    UserMemory.stress_level (UserMemory.emotional_profile q) =
    UserMemory.stress_level (UserMemory.emotional_profile p).
Proof.
  unfold UserMemory._update_emotional_profile. py_run.
  destruct (dict_truthy em); [|by exists p, n].
  cbv zeta.
  match goal with |- context [map UserMemory.ee_sentiment ?l] =>
    destruct (map UserMemory.ee_sentiment l) end;
    eexists _, _; (split; [reflexivity|]); reflexivity.
Qed.

Lemma update_store_never_learned `{PyRuntime} (env : Env) (uid message : pystr)
    (em : option EmotionDict) (m : UserMemory.t) (n : nat) :
  map_Forall (λ _, never_learned) (UserMemory.disk m) →
  map_Forall (λ _, never_learned)
    (UserMemory.disk (final (UserMemory.update_from_message env uid message em m n))).
Proof.
  intros Hstore.
  destruct (update_from_message_trace env uid message em m n)
    as (p0 & n0 & ep & n1 & mf & n2 & Hp0 & Hep & _ & Hrun).
  cbv zeta in Hep, Hrun. rewrite Hrun. clear Hrun.
  unfold final. cbn [fst snd UserMemory.disk].
  apply map_Forall_insert_2; [|done].
  assert (never_learned p0) as Hb0.
  { destruct Hp0 as [Hlook | [_ Hnew]]; [by eapply Hstore|].
    by apply create_new_profile_value in Hnew as (_ & _ & _ & _ & _ & _ & Hnew). }
  match type of Hep with UserMemory._update_emotional_profile env ?pa em m n0 = _ =>
    destruct (update_emotional_profile_stress env pa em m n0) as (q & n' & Hq & Hstress);
    rewrite Hep in Hq; injection Hq as <- _;
    set (pa' := pa) in *
  end.
  destruct (analyze_style_untouched
              (UserMemory.set_statistics
                 (UserMemory.set_total_messages
                    (UserMemory.total_messages (UserMemory.statistics p0) + 1)
                    (UserMemory.statistics p0)) p0) message)
    as (Hd & Hl & Hp & He & Hv & Hc & Hh).
  fold pa' in Hd, Hl, Hp, He, Hv, Hc, Hh.
  destruct Hb0 as (Hd0 & Hl0 & Hp0' & Hv0 & Hc0 & Hh0 & Hs0).
  unfold never_learned.
  cbn [UserMemory.decision_making UserMemory.learning_style UserMemory.preferences
       UserMemory.emotional_profile UserMemory.personality
       UserMemory.set_statistics UserMemory.set_conversation_history
       UserMemory.set_memory_facts UserMemory.set_emotional_profile] in *.
  rewrite Hd, Hl, Hp, Hv, Hc, Hh, Hstress, He.
  by split_and!.
Qed.

Lemma run_updates_never_learned `{PyRuntime} (env : Env) (us : list Update)
    (m : UserMemory.t) (n : nat) :
  map_Forall (λ _, never_learned) (UserMemory.disk m) →
  map_Forall (λ _, never_learned) (UserMemory.disk (run_updates env us m n).1).
Proof.
  revert m n. induction us as [|u us IH]; intros m n Hstore; [done|].
  cbn [run_updates]. apply IH. by apply update_store_never_learned.
Qed.

(** X11.  Start from an empty store and make any sequence of updates.
    The decision-making traits, the learning style, the preferences,
    the vocabulary level, the communication style, the humor preference
    and the stress level of every stored profile are those of a new
    profile: no update writes them.  Hence the tests by which
    [help_decide] chooses the intuitive or the analytical approach and
    the careful or the bold risk advice all fail on a stored profile,
    and its vocabulary level is never the advanced one. *)
Theorem profile_parts_never_learned `{PyRuntime} (env : Env) (us : list Update)
    (n : nat) :
  map_Forall
    (λ _ p,
       never_learned p ∧
       Qltb (UserMemory.analytical_vs_intuitive (UserMemory.decision_making p)) 0.4 = false ∧
       Qltb 0.6 (UserMemory.analytical_vs_intuitive (UserMemory.decision_making p)) = false ∧
       Qltb (UserMemory.risk_tolerance (UserMemory.decision_making p)) 0.3 = false ∧
       Qltb 0.7 (UserMemory.risk_tolerance (UserMemory.decision_making p)) = false ∧
       UserMemory.vocabulary_level (UserMemory.personality p) ≠ lit "advanced")
    (UserMemory.disk (run_updates env us UserMemory.init n).1).
Proof.
  eapply map_Forall_impl;
    [apply (run_updates_never_learned env us UserMemory.init n), map_Forall_empty|].
  intros uid p Hp. split; [exact Hp|].
  destruct Hp as (-> & _ & _ & -> & _).
  cbn [UserMemory.analytical_vs_intuitive UserMemory.risk_tolerance].
  split_and!; [reflexivity.. |]. vm_compute. discriminate.
Qed.

(** ** Reading and erasing the memory of a user *)

Lemma load_profile_unknown `{PyRuntime} (env : Env) (uid : pystr) (m : UserMemory.t)
    (n : nat) :
  UserMemory.disk m !! uid = None →
  ∃ p0, UserMemory.load_profile env uid m n = (Ret p0, m, S n) ∧
        outcome (UserMemory._create_new_profile env uid m n) = Ret p0.
Proof.
  intros Hlook. unfold UserMemory.load_profile. py_run. rewrite Hlook.
  unfold UserMemory._create_new_profile, outcome. py_run. by eexists.
Qed.

Lemma load_profile_known `{PyRuntime} (env : Env) (uid : pystr) (m : UserMemory.t)
    (n : nat) (p : UserMemory.Profile) :
  UserMemory.disk m !! uid = Some p →
  UserMemory.load_profile env uid m n = (Ret p, m, n).
Proof. intros Hlook. unfold UserMemory.load_profile. py_run. by rewrite Hlook. Qed.

(** The context of a user without a stored profile is the empty string. *)
Lemma context_unknown `{PyRuntime} (env : Env) (uid : pystr) (m : UserMemory.t) (n : nat) :
  UserMemory.disk m !! uid = None →
  UserMemory.get_context_for_response env uid m n = (Ret [], m, S n).
Proof.
  intros Hlook. unfold UserMemory.get_context_for_response, UserMemory.load_profile.
  py_run. rewrite Hlook. unfold UserMemory._create_new_profile. py_run.
  cbv zeta.
  match goal with |- (Ret ?x, _, _) = _ =>
    assert (x = []) as -> by (vm_compute; reflexivity)
  end.
  reflexivity.
Qed.

(** X12.  Reading the memory of a user never writes it: the summary
    and the prompt context leave the store as it is, and for a user
    without a stored profile no profile is created.  Such a user is
    summarised as ["Unknown"], with no message, no interaction, no
    fact, no goal and no challenge, and has the empty context; for a
    user with a stored profile the summary reports the counter, the
    stamp and the name of that profile. *)
Theorem memory_reads_leave_store `{PyRuntime} (env : Env) (uid : pystr)
    (m : UserMemory.t) (n : nat) :
  final (UserMemory.get_user_summary env uid m n) = m ∧
  final (UserMemory.get_context_for_response env uid m n) = m ∧
  ∃ s,
    outcome (UserMemory.get_user_summary env uid m n) = Ret s ∧
    UserMemory.su_user_id s = uid ∧
    match UserMemory.disk m !! uid with
    | None =>
        UserMemory.su_name s = lit "Unknown" ∧
        UserMemory.su_total_messages s = 0%Z ∧
        UserMemory.su_last_interaction s = None ∧
        UserMemory.su_personal s =
          {| UserMemory.name := None; UserMemory.age := None;
             UserMemory.location := None; UserMemory.job := None |} ∧
        UserMemory.su_recent_goals s = [] ∧
        UserMemory.su_recent_challenges s = [] ∧
        outcome (UserMemory.get_context_for_response env uid m n) = Ret []
    | Some p =>
        UserMemory.su_name s =
          default (lit "Unknown")
            (UserMemory.name (UserMemory.personal (UserMemory.memory_facts p))) ∧
        UserMemory.su_total_messages s =
          UserMemory.total_messages (UserMemory.statistics p) ∧
        UserMemory.su_last_interaction s =
          UserMemory.last_interaction (UserMemory.statistics p)
    end.
Proof.
  destruct (UserMemory.disk m !! uid) as [p|] eqn:Hlook.
  - unfold UserMemory.get_user_summary, UserMemory.get_context_for_response.
    py_run. rewrite (load_profile_known env uid m n p Hlook).
    unfold final, outcome. cbn [fst snd].
    split; [done|]. split; [done|]. eexists. split; [reflexivity|].
    cbn [UserMemory.su_user_id UserMemory.su_name UserMemory.su_total_messages
         UserMemory.su_last_interaction].
    by split_and!.
  - rewrite (context_unknown env uid m n Hlook).
    destruct (load_profile_unknown env uid m n Hlook) as (p0 & Hload & Hnew).
    apply create_new_profile_value in Hnew as (_ & Hstats & _ & Hfacts & _).
    unfold UserMemory.get_user_summary. py_run. rewrite Hload.
    unfold final, outcome. cbn [fst snd].
    split; [done|]. split; [done|]. eexists. split; [reflexivity|].
    cbn [UserMemory.su_user_id UserMemory.su_name UserMemory.su_total_messages
         UserMemory.su_last_interaction UserMemory.su_personal
         UserMemory.su_recent_goals UserMemory.su_recent_challenges].
    rewrite Hstats, Hfacts.
    cbn [UserMemory.personal UserMemory.name UserMemory.goals UserMemory.challenges
         UserMemory.total_messages UserMemory.last_interaction].
    by split_and!.
Qed.



(** ** The prompt context of a user *)



(** ** The ranges of the classifier *)

Lemma sentiment_of_range (pos neg pos_count neg_count : Z) :
  (0 ≤ pos)%Z → (0 ≤ neg)%Z →
  (- 0.8 <= EmotionClassifier.sentiment_of pos neg pos_count neg_count)%Q ∧
  (EmotionClassifier.sentiment_of pos neg pos_count neg_count <= 0.8)%Q.
Proof.
  intros Hpos Hneg. unfold EmotionClassifier.sentiment_of.
  destruct (Z.ltb_spec neg pos) as [Hlt | Hge].
  { destruct (capped_tenth_bounds pos ltac:(lia)) as (? & ? & _). split; lra. }
  destruct (Z.ltb_spec pos neg) as [Hlt | Hge'].
  { destruct (capped_tenth_bounds neg ltac:(lia)) as (? & ? & _). split; lra. }
  destruct (neg_count <? pos_count)%Z; [split; lra|].
  destruct (pos_count <? neg_count)%Z; split; lra.
Qed.

Lemma confidence_range (max_score : Z) :
  let confidence :=
    if (0 <? max_score)%Z then py_min 0.95 (inject_Z max_score / 5) else 0.5%Q in
  (0.2 <= confidence)%Q ∧ (confidence <= 0.95)%Q ∧
  ((max_score ≤ 0)%Z → confidence = 0.5%Q).
Proof.
  cbv zeta. destruct (Z.ltb_spec 0 max_score) as [Hlt | Hge].
  - assert (1 <= inject_Z max_score)%Q as Hone.
    { change 1%Q with (inject_Z 1). rewrite <- Zle_Qle. lia. }
    generalize dependent (inject_Z max_score). intros q Hq.
    split; [|split; [|lia]].
    + destruct (py_min_spec 0.95 (q / 5)) as [[? ->] | [? ->]];
        unfold Qdiv in *; change (/ 5)%Q with (1 # 5)%Q in *; lra.
    + destruct (py_min_spec 0.95 (q / 5)) as [[? ->] | [? ->]];
        unfold Qdiv in *; change (/ 5)%Q with (1 # 5)%Q in *; lra.
  - split; [lra|]. split; [lra | done].
Qed.

(** The labels that the classifier can return. *)
Lemma max_key_label `{PyRuntime} (text_lower : pystr) :
  EmotionClassifier.max_key (EmotionClassifier.scores_of text_lower) ∈
  [lit "joy"; lit "sadness"; lit "anger"; lit "fear"; lit "surprise"].
Proof.
  unfold EmotionClassifier.max_key, EmotionClassifier.scores_of.
  match goal with |- context [EmotionClassifier.max_by_go snd ?best ?rest] =>
    destruct (max_by_go_first snd best rest) as (i & Hi & _);
    generalize dependent (EmotionClassifier.max_by_go snd best rest)
  end.
  generalize (lit "joy"), (lit "sadness"), (lit "anger"), (lit "fear"), (lit "surprise").
  intros l1 l2 l3 l4 l5 r Hi.
  do 5 (destruct i as [|i]; [injection Hi as <-; cbn [fst]; set_solver|]).
  cbn in Hi. discriminate.
Qed.

(** X15.  The reading of the classifier always has its four keys.  The
    emotion is one of joy, sadness, anger, fear, surprise and neutral;
    the sentiment lies between -0.8 and 0.8; the confidence lies
    between 0.2 and 0.95, and it is 0.5 when the emotion is neutral;
    the scores are the five keyword scores, none negative. *)
Theorem classifier_ranges `{PyRuntime} (text : pystr) :
  ∃ emotion sentiment confidence,
    EmotionClassifier.analyze_emotion_and_context text =
      {| ed_emotion := Some emotion; ed_sentiment := Some sentiment;
         ed_confidence := Some confidence;
         ed_scores := Some (emotion_scores text) |} ∧
    emotion ∈ [lit "joy"; lit "sadness"; lit "anger"; lit "fear"; lit "surprise";
               lit "neutral"] ∧
    (- 0.8 <= sentiment)%Q ∧ (sentiment <= 0.8)%Q ∧
    (0.2 <= confidence)%Q ∧ (confidence <= 0.95)%Q ∧
    (emotion = lit "neutral" → confidence = 0.5%Q) ∧
    Forall (λ kv, (0 ≤ kv.2)%Z) (emotion_scores text).
Proof.
  unfold EmotionClassifier.analyze_emotion_and_context. cbv zeta.
  eexists _, _, _. split; [reflexivity|].
  split.
  { destruct (0 <? _)%Z.
    - pose proof (max_key_label (lower text)) as Hlabel.
      generalize dependent (EmotionClassifier.max_key (EmotionClassifier.scores_of (lower text))).
      generalize (lit "joy"), (lit "sadness"), (lit "anger"), (lit "fear"),
        (lit "surprise"), (lit "neutral").
      intros l1 l2 l3 l4 l5 l6 label Hlabel.
      rewrite !elem_of_cons in Hlabel. rewrite !elem_of_cons. tauto.
    - generalize (lit "joy"), (lit "sadness"), (lit "anger"), (lit "fear"),
        (lit "surprise"), (lit "neutral").
      intros. set_solver. }
  pose proof (keyword_score_nonneg 2 EmotionClassifier.joy_words (lower text) ltac:(lia)).
  pose proof (keyword_score_nonneg 2 EmotionClassifier.sad_words (lower text) ltac:(lia)).
  pose proof (keyword_score_nonneg 2 EmotionClassifier.anger_words (lower text) ltac:(lia)).
  pose proof (keyword_score_nonneg 2 EmotionClassifier.fear_words (lower text) ltac:(lia)).
  pose proof (keyword_score_nonneg 1 EmotionClassifier.surprise_words (lower text)
                ltac:(lia)).
  split; [|split].
  { apply sentiment_of_range; lia. }
  { apply sentiment_of_range; lia. }
  split; [apply confidence_range|]. split; [apply confidence_range|].
  split.
  - intros Hneutral.
    destruct (0 <? EmotionClassifier.max_value _)%Z eqn:Hmax.
    + exfalso. pose proof (max_key_label (lower text)) as Hlabel.
      rewrite Hneutral in Hlabel. vm_compute in Hlabel.
      repeat (apply elem_of_cons in Hlabel as [Hlabel | Hlabel]; [discriminate|]).
      inversion Hlabel.
    + reflexivity.
  - apply Forall_forall. intros kv Hkv. by eapply emotion_scores_nonneg.
Qed.

(** ** The emotion readings behind the chat endpoint *)













(** ** The profile that a chat request writes *)


(** ** The reply of the chat endpoint is never empty *)

Lemma app_nonempty_l {A} (a b : list A) : a ≠ [] → a ++ b ≠ [].
Proof. by destruct a. Qed.

Lemma app_nonempty_r {A} (a b : list A) : b ≠ [] → a ++ b ≠ [].
Proof. destruct a, b; done. Qed.

Lemma choice_pair_nonempty {A} (r : nat) (a b : list A) :
  a ≠ [] → b ≠ [] → choice r [a; b] [] ≠ [].
Proof.
  intros Ha Hb.
  pose proof (choice_elem r [a; b] [] ltac:(done)) as Hin.
  apply elem_of_cons in Hin as [-> | Hin]; [done|].
  by apply list_elem_of_singleton in Hin as ->.
Qed.

(** Closes a goal [s ≠ []] for a text [s] put together from literals. *)
Ltac nonempty :=
  lazymatch goal with
  | H : ?x ≠ [] |- ?x ≠ [] => exact H
  | |- lit _ ≠ [] => vm_compute; discriminate
  | |- (_ :: _) ≠ [] => discriminate
  | |- (if ?b then _ else _) ≠ [] => destruct b; nonempty
  | |- choice _ (if ?b then _ else _) [] ≠ [] => destruct b; nonempty
  | |- choice _ [_; _] [] ≠ [] => apply choice_pair_nonempty; nonempty
  | |- _ ++ _ ≠ [] =>
      first [ apply app_nonempty_r; nonempty | apply app_nonempty_l; nonempty ]
  end.

Lemma answers_ret {St} (a : pystr) : a ≠ [] → answers (mret a : Py St pystr).
Proof. intros Ha s n. by exists a, n. Qed.

Lemma answers_observe {St A} (f : nat → A) (k : A → Py St pystr) :
  (∀ x, answers (k x)) → answers (PyM.observe f ≫= k).
Proof.
  intros Hk s n. unfold mbind, py_mbind, PyM.bind, PyM.observe.
  destruct (Hk (f n) s (S n)) as (a & n' & -> & Ha). by exists a, n'.
Qed.

Lemma answers_choice {St} (r : nat) (cs : list (Py St pystr)) (d : Py St pystr) :
  Forall answers cs → answers d → answers (choice r cs d).
Proof.
  intros Hcs Hd. unfold choice.
  destruct (nth_in_or_default (r mod length cs) cs d) as [Hin | ->]; [|done].
  rewrite Forall_forall in Hcs. by apply Hcs, list_elem_of_In.
Qed.

(** Closes a goal [answers c] by following the shape of [c]. *)
Ltac answers :=
  repeat lazymatch goal with
    | |- answers (mret _) => apply answers_ret; nonempty
    | |- answers (PyM.observe _ ≫= _) => apply answers_observe; intros ?
    | |- answers (if ?b then _ else _) => destruct b
    | |- answers (let x := _ in _) => cbv zeta
    end.

Lemma personalized_response_answers `{PyRuntime} (env : Env) (message : pystr)
    (emotion_data : EmotionDict) (user_profile : UserMemory.Profile) :
  answers (SimpleMain._generate_personalized_response env message emotion_data
             user_profile).
Proof. unfold SimpleMain._generate_personalized_response. answers. Qed.

Lemma provide_fun_content_answers `{PyRuntime} (env : Env) {St} (message : pystr) :
  answers (RandomHandler.provide_fun_content env message : Py St pystr).
Proof.
  assert (answers (RandomHandler._get_joke env : Py St pystr)) as Hjoke
    by (unfold RandomHandler._get_joke; answers).
  assert (answers (RandomHandler._get_interesting_fact env : Py St pystr)) as Hfact
    by (unfold RandomHandler._get_interesting_fact; answers).
  assert (answers (RandomHandler._get_mini_story env : Py St pystr)) as Hstory
    by (unfold RandomHandler._get_mini_story; answers).
  unfold RandomHandler.provide_fun_content. cbv zeta.
  repeat lazymatch goal with |- answers (if ?b then _ else _) => destruct b end;
    try assumption.
  apply answers_observe. intros r.
  apply answers_choice; [|exact Hjoke].
  repeat (constructor; [assumption|]). constructor.
Qed.

Lemma provide_support_nonempty `{PyRuntime} (message : pystr) (emotion : EmotionDict)
    (user_profile : UserMemory.Profile) :
  EmotionalHandler.provide_support message emotion user_profile ≠ [].
Proof.
  unfold EmotionalHandler.provide_support. cbv zeta.
  match goal with |- context [hd [] ?t] =>
    assert (hd [] t ≠ []) as Hhead; [|generalize dependent (hd [] t); intros response Hhead]
  end.
  { unfold EmotionalHandler.responses. cbn [EmotionalHandler.table_get].
    repeat lazymatch goal with
      | |- hd [] (if ?b then _ else _) ≠ [] => destruct b
      end;
      cbn [hd]; nonempty. }
  nonempty.
Qed.

Lemma help_decide_nonempty `{PyRuntime} (message : pystr)
    (user_profile : UserMemory.Profile) :
  DecisionHandler.help_decide message user_profile ≠ [].
Proof. unfold DecisionHandler.help_decide. cbv zeta. apply app_nonempty_r. nonempty. Qed.

Lemma provide_knowledge_nonempty `{PyRuntime} (question : pystr) :
  KnowledgeHandler.provide_knowledge question ≠ [].
Proof.
  unfold KnowledgeHandler.provide_knowledge, KnowledgeHandler._handle_science,
    KnowledgeHandler._handle_technology, KnowledgeHandler._handle_history.
  cbv zeta. nonempty.
Qed.

(** The empty text holds neither ["answer is"] nor ["solution:"]. *)
Lemma no_answer_in_empty `{PyRuntime} :
  py_in (lit "answer is") (lower []) || py_in (lit "solution:") (lower []) = false.
Proof. vm_compute. reflexivity. Qed.

Lemma generate_ultimate_response_answers `{PyRuntime} (env : Env) (message : pystr)
    (emotion_data : EmotionDict) (uid : pystr) (m : UserMemory.t) (n : nat) :
  ∃ r m' n',
    SimpleMain.generate_ultimate_response env message emotion_data uid m n =
    (Ret r, m', n') ∧ r ≠ [].
Proof.
  destruct (update_from_message_run env uid message (Some emotion_data) m n)
    as (p0 & p' & n1 & _ & Hrun & _).
  unfold SimpleMain.generate_ultimate_response.
  unfold mbind at 1, py_mbind at 1, PyM.bind at 1.
  rewrite Hrun. cbv zeta.
  match goal with |- ∃ r m' n', ?c ?s ?k = _ ∧ _ =>
    assert (answers c) as Hanswers;
    [| destruct (Hanswers s k) as (r & n' & -> & Hr); by exists r, s, n' ]
  end.
  destruct (bool_decide (TopicHandler.detect_topic message = lit "math")).
  { destruct (MathHandler.solve_math message) as [|c response] eqn:Hmath.
    - rewrite no_answer_in_empty. apply personalized_response_answers.
    - destruct (_ || _); [by apply answers_ret | apply personalized_response_answers]. }
  destruct (bool_decide (TopicHandler.detect_topic message = lit "emotional")).
  { apply answers_ret, provide_support_nonempty. }
  destruct (bool_decide (TopicHandler.detect_topic message = lit "decision")).
  { apply answers_ret, help_decide_nonempty. }
  destruct (bool_decide (TopicHandler.detect_topic message = lit "knowledge")).
  { apply answers_ret, provide_knowledge_nonempty. }
  destruct (bool_decide (TopicHandler.detect_topic message = lit "random")).
  { apply provide_fun_content_answers. }
  apply personalized_response_answers.
Qed.

(** X18.  The chat endpoint of [simple_main.py] never raises and never
    answers with an empty response, whatever the message, the stored
    profiles and the draws of the random generator. *)
Theorem chat_response_nonempty `{PyRuntime} (env : Env) (req : SimpleMain.ChatRequest)
    (m : UserMemory.t) (n : nat) :
  ∃ resp,
    outcome (SimpleMain.chat env req m n) = Ret resp ∧
    SimpleMain.response resp ≠ [].
Proof.
  unfold SimpleMain.chat. py_run. cbv zeta.
  match goal with |- context [SimpleMain.generate_ultimate_response env ?msg ?ed ?uid m ?k] =>
    destruct (generate_ultimate_response_answers env msg ed uid m k)
      as (r & m' & n' & -> & Hr)
  end.
  eexists. unfold outcome. cbn [fst]. split; [reflexivity|]. exact Hr.
Qed.

(** ** Letter case *)

Lemma lower_same_letters `{PyRuntime} (text text' : pystr) :
  forallb is_ascii text = true → forallb is_ascii text' = true →
  map ascii_lower text = map ascii_lower text' →
  lower text = lower text'.
Proof. intros Ha Ha' Hsame. unfold lower. by rewrite Ha, Ha'. Qed.

(** A code point that is not a letter occurs in both of two texts that
    differ in letter case only, or in neither. *)
Lemma elem_same_letters (c : N) (text text' : pystr) :
  ascii_alpha c = false →
  map ascii_lower text = map ascii_lower text' →
  c ∈ text → c ∈ text'.
Proof.
  intros Hc Hsame Hin.
  assert (ascii_lower c ∈ map ascii_lower text') as Hin'.
  { rewrite <- Hsame. apply list_elem_of_In, in_map, list_elem_of_In, Hin. }
  apply list_elem_of_In, in_map_iff in Hin' as (x & Hx & Hin').
  apply list_elem_of_In in Hin'.
  assert (x = c) as <-; [|done].
  unfold ascii_alpha, ascii_lower in *.
  repeat match goal with
         | H : context [(?a <=? ?b)%N] |- _ => destruct (N.leb_spec a b)
         | |- context [(?a <=? ?b)%N] => destruct (N.leb_spec a b)
         end; cbn in *; try discriminate; lia.
Qed.

Lemma operators_same_letters (text text' : pystr) :
  map ascii_lower text = map ascii_lower text' →
  any_in TopicHandler.math_operators text = any_in TopicHandler.math_operators text'.
Proof.
  intros Hsame.
  assert (∀ c, ascii_alpha c = false → py_in [c] text = py_in [c] text') as Hop.
  { intros c Hc. apply eq_true_iff_eq. rewrite !py_in_singleton.
    split; by apply elem_same_letters. }
  assert (TopicHandler.math_operators = [[43]; [45]; [42]; [47]; [61]; [94]; [37]]%N)
    as -> by (vm_compute; reflexivity).
  unfold any_in. cbn [existsb].
  by rewrite !Hop by (vm_compute; reflexivity).
Qed.

(** X19.  Routing and classification ignore the case of ASCII letters:
    two ASCII messages that differ in letter case only are given the
    same topic and the same emotion reading. *)
Theorem case_insensitive `{PyRuntime} (text text' : pystr) :
  forallb is_ascii text = true → forallb is_ascii text' = true →
  map ascii_lower text = map ascii_lower text' →
  TopicHandler.detect_topic text = TopicHandler.detect_topic text' ∧
  EmotionClassifier.analyze_emotion_and_context text =
    EmotionClassifier.analyze_emotion_and_context text'.
Proof.
  intros Ha Ha' Hsame.
  pose proof (lower_same_letters text text' Ha Ha' Hsame) as Hlower.
  split.
  - unfold TopicHandler.detect_topic. cbv zeta.
    by rewrite Hlower, (operators_same_letters text text' Hsame).
  - unfold EmotionClassifier.analyze_emotion_and_context. cbv zeta. by rewrite Hlower.
Qed.

(** The theorem at work on a message written in capitals. *)
Lemma case_insensitive_witness :
  @TopicHandler.detect_topic ascii_runtime (lit "I FEEL So Happy today")
    = @TopicHandler.detect_topic ascii_runtime (lit "i feel so happy today") ∧
  @EmotionClassifier.analyze_emotion_and_context ascii_runtime (lit "I FEEL So Happy today")
    = @EmotionClassifier.analyze_emotion_and_context ascii_runtime
        (lit "i feel so happy today").
Proof.
  apply (@case_insensitive ascii_runtime); vm_compute; reflexivity.
Defined.

(** ** The wait that the limiter reports *)

Lemma evict_length (bound : Q) (reqs : list Q) :
  length (RateLimiter.evict bound reqs) ≤ length reqs.
Proof. destruct (evict_drop bound reqs) as [k ->]. rewrite length_drop. lia. Qed.

Lemma evict_expired (bound oldest : Q) (rest : list Q) :
  (oldest <= bound)%Q →
  length (RateLimiter.evict bound (oldest :: rest)) ≤ length rest.
Proof.
  intros Hexp. cbn [RateLimiter.evict].
  assert (Qle_bool oldest bound = true) as -> by (by apply Qle_bool_iff).
  apply evict_length.
Qed.

(** X20.  The wait reported is long enough.  Take an engine created
    with a quota of at least one and driven by any sequence of calls
    under a clock that never runs backwards, and ask it for the wait.
    Once the clock has advanced by the reported wait beyond the reading
    from which the wait was computed, the limiter admits a request, as
    long as none has been recorded in between. *)
Theorem wait_is_sufficient `{PyRuntime} (env : Env) (cs : list EngineCall) (quota : Z)
    (model : pystr) (n k : nat) (wait_time : Q) :
  clock_monotone env →
  (1 ≤ quota)%Z →
  let e := (run_calls env cs (GroqEngine.init quota model) n).1 in
  let r := GroqEngine.wait_for_rate_limit env e
             (run_calls env cs (GroqEngine.init quota model) n).2 in
  outcome r = Ret wait_time →
  observed r ≤ k →
  (time_time env (observed r - 1) + wait_time <= time_time env k)%Q →
  (RateLimiter.can_make_request (time_time env k) (GroqEngine.rate_limiter (final r))).1
    = true.
Proof.
  intros Hmono Hq. cbv zeta.
  assert (within_quota env n (GroqEngine.rate_limiter (GroqEngine.init quota model)))
    as Hin0.
  { unfold within_quota, recorded, window_count, GroqEngine.init, RateLimiter.init.
    cbn [GroqEngine.rate_limiter RateLimiter.requests RateLimiter.max_requests
         List.filter length].
    split; [split|].
    - intros i j a b _ Ha. by rewrite lookup_nil in Ha.
    - intros x Hx. inversion Hx.
    - intros j _. lia. }
  destruct (run_calls_quota env cs (GroqEngine.init quota model) n Hmono Hq Hin0)
    as [Hmax Hin].
  change (RateLimiter.max_requests (GroqEngine.rate_limiter (GroqEngine.init quota model)))
    with quota in Hmax.
  destruct (run_calls env cs (GroqEngine.init quota model) n) as [e n1].
  cbn [fst snd] in *.
  rewrite wait_for_rate_limit_run. cbv zeta.
  destruct (within_quota_checked env n1 _ Hin) as (Hmax1 & Hlen1 & _ & _).
  set (c := RateLimiter.can_make_request (time_time env n1) (GroqEngine.rate_limiter e)) in *.
  assert (∀ now, (RateLimiter.can_make_request now c.2).1 =
                 (Z.of_nat (length (RateLimiter.evict
                                      (now - inject_Z (RateLimiter.time_window c.2))
                                      (RateLimiter.requests c.2)))
                  <? RateLimiter.max_requests c.2)%Z) as Hcheck by done.
  destruct c.1 eqn:Hok.
  - unfold outcome, observed, final. cbn [fst snd GroqEngine.rate_limiter
                                          GroqEngine.set_rate_limiter].
    intros _ _ _. rewrite Hcheck. apply Z.ltb_lt.
    assert ((Z.of_nat (length (RateLimiter.requests c.2)) <?
             RateLimiter.max_requests (GroqEngine.rate_limiter e))%Z = true) as Hlt
      by exact Hok.
    apply Z.ltb_lt in Hlt.
    pose proof (evict_length (time_time env k - inject_Z (RateLimiter.time_window c.2))
                  (RateLimiter.requests c.2)).
    lia.
  - destruct (RateLimiter.requests c.2) as [|oldest rest] eqn:Hreqs.
    { exfalso.
      assert ((Z.of_nat (length (RateLimiter.requests c.2)) <?
               RateLimiter.max_requests (GroqEngine.rate_limiter e))%Z = false) as Hno
        by exact Hok.
      rewrite Hreqs in Hno. cbn [length] in Hno. apply Z.ltb_ge in Hno. lia. }
    unfold outcome, observed, final. cbn [fst snd GroqEngine.rate_limiter
                                          GroqEngine.set_rate_limiter].
    intros [= <-] Hk Hwait.
    replace (S (S n1) - 1) with (S n1) in Hwait by lia.
    rewrite Hcheck. apply Z.ltb_lt.
    change (RateLimiter.time_window c.2)
      with (RateLimiter.time_window (GroqEngine.rate_limiter e)).
    assert (oldest <= time_time env k -
                      inject_Z (RateLimiter.time_window (GroqEngine.rate_limiter e)))%Q
      as Hexp.
    { destruct (py_max_spec 0 (oldest +
                               inject_Z (RateLimiter.time_window (GroqEngine.rate_limiter e)) -
                               time_time env (S n1))) as [[? Heq] | [? Heq]];
        rewrite Heq in Hwait; lra. }
    pose proof (evict_expired _ oldest rest Hexp).
    cbn [length] in Hlen1. lia.
Qed.

(** The theorem at work: an engine with a quota of one that has served
    one request at time 1 reports, at time 5, a wait of 56 seconds; at
    time 61 its limiter admits a request again. *)
Lemma wait_is_sufficient_witness :
  (RateLimiter.can_make_request (time_time quiet_env 61)
     (GroqEngine.rate_limiter
        (final
           (GroqEngine.wait_for_rate_limit quiet_env
              (@run_calls ascii_runtime quiet_env
                 [CallGenerate (lit "hello") (lit "c1") [] None false]
                 (GroqEngine.init 1 (lit "llama-3.1-8b-instant")) 0).1
              (@run_calls ascii_runtime quiet_env
                 [CallGenerate (lit "hello") (lit "c1") [] None false]
                 (GroqEngine.init 1 (lit "llama-3.1-8b-instant")) 0).2)))).1
  = true.
Proof.
  apply (@wait_is_sufficient ascii_runtime quiet_env
           [CallGenerate (lit "hello") (lit "c1") [] None false] 1
           (lit "llama-3.1-8b-instant") 0 61 56%Q).
  - exact quiet_env_monotone.
  - lia.
  - vm_compute. reflexivity.
  - vm_compute. lia.
  - vm_compute. discriminate.
Defined.

(** ** The outcomes of [generate_response] *)


(** ** The direction in which a message moves the traits *)





(** ** The name of the user in the replies *)

(** X24.  The emotional and the decision handler address a user whose
    name is known by that name: for a profile that holds a name that is
    not empty, the reply of [provide_support] opens with the name and a
    comma, and the reply of [help_decide] opens with the name followed
    by [", let me help you think through this decision."], whatever the
    message and the emotion reading. *)
Theorem handlers_greet_by_name `{PyRuntime} (message : pystr) (emotion : EmotionDict)
    (p : UserMemory.Profile) (c : N) (cs : pystr) :
  (∃ rest,
     EmotionalHandler.provide_support message emotion (with_name (c :: cs) p) =
     (c :: cs) ++ lit ", " ++ rest) ∧
  (∃ rest,
     DecisionHandler.help_decide message (with_name (c :: cs) p) =
     (c :: cs) ++ lit ", let me help you think through this decision." ++ rest).
Proof.
  split.
  - unfold EmotionalHandler.provide_support. cbv zeta.
    change (UserMemory.name (UserMemory.personal (UserMemory.memory_facts
                                                    (with_name (c :: cs) p))))
      with (Some (c :: cs)).
    change (default [] (Some (c :: cs))) with (c :: cs). cbv iota.
    match goal with |- context [hd [] ?t] =>
      assert (∃ rest0, hd [] t = (c :: cs) ++ lit ", " ++ rest0) as [rest0 ->]
    end.
    { unfold EmotionalHandler.responses. cbn [EmotionalHandler.table_get].
      repeat lazymatch goal with
        | |- ∃ rest0, hd [] (if ?b then _ else _) = _ => destruct b
        end;
        cbn [hd]; eexists; rewrite <- !app_assoc; reflexivity. }
    repeat lazymatch goal with
      | |- ∃ rest, (if ?b then _ else _) = _ => destruct b
      | |- ∃ rest, (if ?b then _ else _) ++ _ = _ => destruct b
      end;
      eexists; rewrite <- ?app_assoc; reflexivity.
  - unfold DecisionHandler.help_decide. cbv zeta.
    change (UserMemory.name (UserMemory.personal (UserMemory.memory_facts
                                                    (with_name (c :: cs) p))))
      with (Some (c :: cs)).
    change (default [] (Some (c :: cs))) with (c :: cs). cbv iota.
    assert (∀ rest, ((c :: cs) ++ lit ", l") ++ lit "et me help you think through this decision.

" ++ rest =
                    (c :: cs) ++ lit ", let me help you think through this decision." ++
                    lit "

" ++ rest) as Hopening.
    { intros rest. rewrite <- app_assoc. f_equal. }
    repeat lazymatch goal with
      | |- context [if ?b then _ else _] => destruct b
      end;
      rewrite <- ?app_assoc; rewrite (app_assoc (c :: cs) (lit ", l")), Hopening;
      eexists; reflexivity.
Qed.

(** ** A goal that the user states *)






